(** * Traffic-shaping pipeline of the process bandwidth limiter

    A shallow embedding of [src/utils/bandwidth_limiter.py],
    [src/utils/statistics.py], [src/utils/process_manager.py],
    [src/utils/keyboard_handler.py] and [src/core/throttler.py].

    Python floats are modelled as exact rationals ([Q]); Python ints as [Z];
    a [str] as the string of its UTF-8 bytes.
    Every call that leaves the program (clock, sleep, random source, capture
    driver, process table, logger, console) is a primitive of a small state
    monad and is recorded, in call order, in the trace of the [World].
    Two things the program takes from the Python runtime and its own text
    does not fix are fields of the world as well, read and never changed:
    what [str.lower] answers, and the order in which a [set] is iterated.
    In the first part methods are run one at a time and the limiter's lock
    does not appear; the lock, and [AdaptiveBandwidthLimiter], which the
    throttler does not use, come in the second part. *)

From Stdlib Require Import ZArith QArith Qminmax List String Ascii Bool Lia Lqa.
From Stdlib Require Import DecimalString Permutation.
Import ListNotations.

Local Open Scope Z_scope.
Local Open Scope Q_scope.

(** ** Numbers *)

(** [x < y] on floats, as a boolean. *)
Definition Qltb (x y : Q) : bool := negb (Qle_bool y x).

(** Python's [min(a, b)]: the first argument unless the second is smaller. *)
Definition py_min (a b : Q) : Q := if Qltb b a then b else a.

(** ** The outside world *)

Record Packet := { raw : list Byte.byte }.

Definition packet_len (p : Packet) : Z := Z.of_nat (List.length (raw p)).

Inductive Level := DEBUG | INFO | WARNING | ERROR.

(** One constructor per format string of the source, with the interpolated
    values as arguments. *)
Inductive Msg :=
| MsgLimiterInit (max_bps : Q)
| MsgThrottlingWait (time_remaining : Q) (packet_size : Z)
| MsgRateUpdated (new_max : Q)
| MsgLimiterReset
| MsgFinalStatistics
| MsgTotalProcessed (n : Z)
| MsgTotalThrottled (n : Z)
| MsgTotalDropped (n : Z)
| MsgAveragePps (r : Q)
| MsgTotalRuntime (t : Q)
| MsgDroppedPacket (packet_size : Z)
| MsgStatus (throttling_active : bool) (processed throttled dropped : Z) (rate_kbps : Q)
| MsgInitiatingShutdown
| MsgShutdownComplete
| MsgKeyboardStopped
| MsgGettingPorts (pid : Z)
| MsgProcessPorts (pid : Z) (ports : list Z)
| MsgNoLongerExists (pid : Z)
| MsgAccessDenied (pid : Z)
| MsgErrorGettingPorts (pid : Z) (e : string)
| MsgCaptureStarted
| MsgCaptureError (e : string)
| MsgComplexFilterFailed
| MsgTryingSimplified (f : string)
| MsgCaptureStartedSimplified
| MsgSimplifiedFailed (e : string)
| MsgTryingBasic (f : string)
| MsgCaptureStartedBasic
| MsgBasicFailed (e : string)
| MsgThrottlingToggled (enabled : bool)
| MsgToggleNotice (enabled : bool) (toggle_key : string)
| MsgWillBeThrottled (name : string)
| MsgThrottlingRemoved (name : string)
| MsgSearching (name : string)
| MsgFoundProcess (name : string) (pid : Z)
| MsgErrorSearching (e : string)
| MsgFoundTarget (name : string) (pid : Z)
| MsgTargetPorts (name : string) (ports : list Z)
| MsgFailedToFind (e : string)
| MsgError (e : string)
| MsgMakeSureRunning (name : string)
| MsgKeyboardStarted
| MsgPressToToggle (toggle_key : string)
| MsgPressEscToExit
| MsgSettings (mbps : Q) (delay_ms : Z) (drop_rate : Q)
| MsgStartingCapture
| MsgProcessManagerInit
| MsgThrottlerInit.

Inductive Event :=
| EvTime (t : Q)            (* time.time() returned t *)
| EvSleep (d : Q)           (* time.sleep(d) *)
| EvRandom (u : Q)          (* random.random() returned u *)
| EvSend (p : Packet)       (* windivert_handle.send(p) *)
| EvOpen (f : string)       (* pydivert.WinDivert(f) entered *)
| EvJoin (timeout : Q)      (* Thread.join(timeout) *)
| EvThreadStart             (* Thread(...).start() *)
| EvPrint (m : Msg)
| EvLog (l : Level) (m : Msg).

(** What the process table answers for one process id. *)
Record Addr := { ip : string; port : Z }.
Record Conn := { laddr : option Addr; raddr : option Addr }.

Inductive PsOutcome :=
| PsConnections (cs : list Conn)
| PsNoSuchProcess
| PsAccessDenied
| PsOtherError (e : string).

(** One entry of [psutil.process_iter(['pid', 'name'])]: the [info] dict of a
    process, in which psutil puts [None] for a name it was denied access to;
    or the exception that reading the entry raises. psutil fills [info]
    before it hands a process out, so the entries it gives are of the first
    kind; the other two are the ones the [except] clause of the search loops
    is written for. *)
Inductive ProcEntry :=
| ProcInfo (pid : Z) (name : option string)
| ProcGone
| ProcDenied.

(** What the capture driver answers to an open. *)
Inductive OpenOutcome :=
| Opened (handle : nat)
| OpenFailed (e : string).

(** The order in which the runtime iterates a set of ints: an arrangement of
    its elements, a function of the adds that built the set. *)
Record SetOrder := {
  arrange : list Z -> list Z;
  arrange_perm : forall l : list Z, Permutation (arrange l) l
}.

Record World := {
  clock : Q;                           (* what time.time() returns next *)
  lag : nat -> Q;                      (* time passing after the k-th read *)
  reads : nat;                         (* clock reads so far *)
  rand : nat -> Q;                     (* the k-th value of random.random() *)
  draws : nat;                         (* random draws so far *)
  driver : nat -> string -> OpenOutcome; (* the k-th open, by filter *)
  opens : nat;                         (* opens so far *)
  net_connections : Z -> PsOutcome;    (* psutil.Process(pid).net_connections() *)
  process_iter : list ProcEntry;       (* psutil.process_iter(['pid', 'name']) *)
  str_lower : string -> string;        (* s.lower() *)
  set_iter : SetOrder;                 (* the order of iter(s) for a set s *)
  trace : list Event                   (* outside calls, oldest first *)
}.

Definition w_emit (e : Event) (w : World) : World :=
  {| clock := clock w; lag := lag w; reads := reads w; rand := rand w;
     draws := draws w; driver := driver w; opens := opens w;
     net_connections := net_connections w;
     process_iter := process_iter w; str_lower := str_lower w;
     set_iter := set_iter w; trace := trace w ++ [e] |}.

Definition w_tick (w : World) : World :=
  {| clock := clock w + lag w (reads w); lag := lag w; reads := S (reads w);
     rand := rand w; draws := draws w; driver := driver w; opens := opens w;
     net_connections := net_connections w;
     process_iter := process_iter w; str_lower := str_lower w;
     set_iter := set_iter w; trace := trace w |}.

Definition w_advance (d : Q) (w : World) : World :=
  {| clock := clock w + d; lag := lag w; reads := reads w;
     rand := rand w; draws := draws w; driver := driver w; opens := opens w;
     net_connections := net_connections w;
     process_iter := process_iter w; str_lower := str_lower w;
     set_iter := set_iter w; trace := trace w |}.

Definition w_drawn (w : World) : World :=
  {| clock := clock w; lag := lag w; reads := reads w;
     rand := rand w; draws := S (draws w); driver := driver w; opens := opens w;
     net_connections := net_connections w;
     process_iter := process_iter w; str_lower := str_lower w;
     set_iter := set_iter w; trace := trace w |}.

Definition w_opened (w : World) : World :=
  {| clock := clock w; lag := lag w; reads := reads w;
     rand := rand w; draws := draws w; driver := driver w; opens := S (opens w);
     net_connections := net_connections w;
     process_iter := process_iter w; str_lower := str_lower w;
     set_iter := set_iter w; trace := trace w |}.

(** ** A state monad over one object and the world *)

Record Res (S A : Type) := mkRes { val : A; obj : S; world : World }.
Arguments mkRes {S A} _ _ _.
Arguments val {S A} _.
Arguments obj {S A} _.
Arguments world {S A} _.

Definition Prog (S A : Type) : Type := S -> World -> Res S A.

Definition ret {S A} (a : A) : Prog S A := fun s w => mkRes a s w.

Definition bind {S A B} (m : Prog S A) (k : A -> Prog S B) : Prog S B :=
  fun s w => match m s w with mkRes a s1 w1 => k a s1 w1 end.

Declare Scope prog_scope.
Delimit Scope prog_scope with prog.
Notation "x <- m ;; k" := (bind m (fun x => k))
  (at level 61, m at next level, right associativity) : prog_scope.
Notation "m ;; k" := (bind m (fun _ => k))
  (at level 61, right associativity) : prog_scope.
Local Open Scope prog_scope.

Definition get {S} : Prog S S := fun s w => mkRes s s w.
Definition modify {S} (f : S -> S) : Prog S unit := fun s w => mkRes tt (f s) w.
Definition emit {S} (e : Event) : Prog S unit := fun s w => mkRes tt s (w_emit e w).

(** Runs a method of a field object inside a method of its owner. *)
Definition zoom {S T A} (proj : S -> T) (upd : T -> S -> S) (m : Prog T A)
  : Prog S A :=
  fun s w => let r := m (proj s) w in mkRes (val r) (upd (obj r) s) (world r).

(** [time.time()] *)
Definition time_time {S} : Prog S Q :=
  fun s w => mkRes (clock w) s (w_tick (w_emit (EvTime (clock w)) w)).

(** [time.sleep(d)] *)
Definition time_sleep {S} (d : Q) : Prog S unit :=
  fun s w => mkRes tt s (w_advance d (w_emit (EvSleep d) w)).

(** [random.random()] *)
Definition random_random {S} : Prog S Q :=
  fun s w => let u := rand w (draws w) in
             mkRes u s (w_drawn (w_emit (EvRandom u) w)).

(** [pydivert.WinDivert(f).__enter__()] *)
Definition WinDivert {S} (f : string) : Prog S OpenOutcome :=
  fun s w => mkRes (driver w (opens w) f) s (w_opened (w_emit (EvOpen f) w)).

(** [s.lower()] *)
Definition lower {S} (x : string) : Prog S string :=
  fun s w => mkRes (str_lower w x) s w.

(** [list(ports)], [for p in ports]: the elements of a set of ints in the
    order the runtime iterates them. *)
Definition iter_set {S} (ports : list Z) : Prog S (list Z) :=
  fun s w => mkRes (arrange (set_iter w) ports) s w.

Definition logger {S} (l : Level) (m : Msg) : Prog S unit := emit (EvLog l m).
Definition print {S} (m : Msg) : Prog S unit := emit (EvPrint m).

Definition when {S} (b : bool) (m : Prog S unit) : Prog S unit :=
  if b then m else ret tt.

(** ** utils/bandwidth_limiter.py *)

Module BandwidthLimiter.

Record t := {
  max_bytes_per_second : Q;
  window_size : Q;
  bucket_size : Q;
  tokens : Q;
  last_refill : Q;
  bytes_sent : Z;
  window_start : Q
}.

Definition set_tokens (x : Q) (s : t) : t :=
  {| max_bytes_per_second := max_bytes_per_second s; window_size := window_size s;
     bucket_size := bucket_size s; tokens := x; last_refill := last_refill s;
     bytes_sent := bytes_sent s; window_start := window_start s |}.

Definition set_last_refill (x : Q) (s : t) : t :=
  {| max_bytes_per_second := max_bytes_per_second s; window_size := window_size s;
     bucket_size := bucket_size s; tokens := tokens s; last_refill := x;
     bytes_sent := bytes_sent s; window_start := window_start s |}.

Definition set_bytes_sent (x : Z) (s : t) : t :=
  {| max_bytes_per_second := max_bytes_per_second s; window_size := window_size s;
     bucket_size := bucket_size s; tokens := tokens s; last_refill := last_refill s;
     bytes_sent := x; window_start := window_start s |}.

Definition set_window_start (x : Q) (s : t) : t :=
  {| max_bytes_per_second := max_bytes_per_second s; window_size := window_size s;
     bucket_size := bucket_size s; tokens := tokens s; last_refill := last_refill s;
     bytes_sent := bytes_sent s; window_start := x |}.

Definition set_max_bytes_per_second (x : Q) (s : t) : t :=
  {| max_bytes_per_second := x; window_size := window_size s;
     bucket_size := bucket_size s; tokens := tokens s; last_refill := last_refill s;
     bytes_sent := bytes_sent s; window_start := window_start s |}.

Definition set_bucket_size (x : Q) (s : t) : t :=
  {| max_bytes_per_second := max_bytes_per_second s; window_size := window_size s;
     bucket_size := x; tokens := tokens s; last_refill := last_refill s;
     bytes_sent := bytes_sent s; window_start := window_start s |}.

(** [__init__(max_bytes_per_second, window_size=1.0)]: the object it builds,
    run as a program over nothing. *)
Definition __init__ (max_bps : Q) (wsize : Q) : Prog unit t :=
  t1 <- time_time ;;
  t2 <- time_time ;;
  logger INFO (MsgLimiterInit max_bps) ;;
  ret {| max_bytes_per_second := max_bps; window_size := wsize;
         bucket_size := max_bps; tokens := max_bps; last_refill := t1;
         bytes_sent := 0%Z; window_start := t2 |}.

Definition _refill_tokens : Prog t unit :=
  now <- time_time ;;
  self <- get ;;
  let elapsed := now - last_refill self in
  if Qltb 0 elapsed then
    let tokens_to_add := elapsed * max_bytes_per_second self in
    modify (set_tokens (py_min (bucket_size self) (tokens self + tokens_to_add))) ;;
    modify (set_last_refill now)
  else ret tt.

Definition _reset_window_if_needed : Prog t unit :=
  now <- time_time ;;
  self <- get ;;
  if Qle_bool (window_size self) (now - window_start self) then
    modify (set_window_start now) ;;
    modify (set_bytes_sent 0%Z)
  else ret tt.

Definition throttle (packet_size : Z) : Prog t unit :=
  _refill_tokens ;;
  _reset_window_if_needed ;;
  self <- get ;;
  (if Qltb (max_bytes_per_second self) (inject_Z (bytes_sent self + packet_size)) then
     now <- time_time ;;
     let time_remaining := window_size self - (now - window_start self) in
     if Qltb 0 time_remaining then
       logger DEBUG (MsgThrottlingWait time_remaining packet_size) ;;
       time_sleep time_remaining ;;
       t' <- time_time ;;
       modify (set_window_start t') ;;
       modify (set_bytes_sent 0%Z)
     else ret tt
   else ret tt) ;;
  modify (fun self => set_bytes_sent (bytes_sent self + packet_size)%Z self).

Definition can_send (packet_size : Z) : Prog t bool :=
  _refill_tokens ;;
  self <- get ;;
  ret (Qle_bool (inject_Z packet_size) (tokens self)).

(** What [get_current_rate_kbps] computes once it has read the clock. *)
Definition rate_kbps_at (now : Q) (self : t) : Q :=
  let elapsed := now - window_start self in
  if Qltb 0 elapsed then (inject_Z (bytes_sent self) / elapsed) / 1024
  else 0.

Definition get_current_rate_kbps : Prog t Q :=
  now <- time_time ;;
  self <- get ;;
  ret (rate_kbps_at now self).

Definition get_current_rate_mbps : Prog t Q :=
  r <- get_current_rate_kbps ;;
  ret ((r * 8) / 1024).

Definition update_rate_limit (new_max_bytes_per_second : Q) : Prog t unit :=
  modify (set_max_bytes_per_second new_max_bytes_per_second) ;;
  modify (set_bucket_size new_max_bytes_per_second) ;;
  self <- get ;;
  when (Qltb (bucket_size self) (tokens self))
       (modify (set_tokens (bucket_size self))) ;;
  logger INFO (MsgRateUpdated new_max_bytes_per_second).

Definition reset : Prog t unit :=
  self <- get ;;
  modify (set_tokens (bucket_size self)) ;;
  t1 <- time_time ;;
  modify (set_last_refill t1) ;;
  modify (set_bytes_sent 0%Z) ;;
  t2 <- time_time ;;
  modify (set_window_start t2) ;;
  logger DEBUG MsgLimiterReset.

End BandwidthLimiter.

(** ** Exceptions *)

Inductive Exn :=
| NoSuchProcess
| AccessDenied
| RuntimeError (msg : string)
| AttributeError (msg : string)
| ZeroDivisionError
| Exception (msg : string).

(** [str(e)] *)
Definition str_of_exn (e : Exn) : string :=
  match e with
  | NoSuchProcess => "process no longer exists"
  | AccessDenied => "access denied"
  | RuntimeError m => m
  | AttributeError m => m
  | ZeroDivisionError => "integer modulo by zero"
  | Exception m => m
  end.

Inductive Result (A : Type) :=
| Return (a : A)
| Raise (e : Exn).
Arguments Return {A} _.
Arguments Raise {A} _.

(** ** Strings *)

(** [f"{n}"] for an int. *)
Definition str_of_Z (n : Z) : string := NilZero.string_of_int (Z.to_int n).

(** [needle in hay] *)
Fixpoint contains (needle hay : string) : bool :=
  if String.prefix needle hay then true
  else match hay with
       | EmptyString => false
       | String _ hay' => contains needle hay'
       end.

Definition lower_ascii (c : ascii) : ascii :=
  let n := nat_of_ascii c in
  if andb (Nat.leb 65 n) (Nat.leb n 90) then ascii_of_nat (n + 32) else c.

(** What [s.lower()] is for a string of ASCII characters: the letters A to Z
    folded. It is the [str_lower] of the worlds of the examples, whose names
    are ASCII. *)
Fixpoint ascii_lower (s : string) : string :=
  match s with
  | EmptyString => EmptyString
  | String c s' => String (lower_ascii c) (ascii_lower s')
  end.

(** ** Port sets

    A Python [set] of ints while it is built: the duplicate-free list of its
    elements in the order they were first added. This says which elements
    the set has, not in which order it is iterated; that order is
    [iter_set]'s to give. *)

Definition port_mem (p : Z) (ports : list Z) : bool := existsb (Z.eqb p) ports.

(** [ports.add(p)] *)
Definition port_add (p : Z) (ports : list Z) : list Z :=
  if port_mem p ports then ports else ports ++ [p].

(** [sorted(ports)] *)
Fixpoint insert_sorted (p : Z) (l : list Z) : list Z :=
  match l with
  | [] => [p]
  | q :: l' => if (p <=? q)%Z then p :: l else q :: insert_sorted p l'
  end.

Definition py_sorted (ports : list Z) : list Z := fold_right insert_sorted [] ports.

(** Two orders for the worlds of the examples: the order of the adds, and its
    reverse. *)
Definition insertion_order : SetOrder :=
  {| arrange := fun l => l; arrange_perm := fun l => Permutation_refl l |}.

Definition reverse_order : SetOrder :=
  {| arrange := fun l => rev l;
     arrange_perm := fun l => Permutation_sym (Permutation_rev l) |}.

(** ** utils/statistics.py *)

Module ThrottlingStatistics.

Record t := {
  processed_packets : Z;
  throttled_packets : Z;
  dropped_packets : Z;
  start_time : Q
}.

(** [ThrottlingStatistics()]; the default of [start_time] is the clock value
    taken when the class was defined. *)
Definition fresh (class_start_time : Q) : t :=
  {| processed_packets := 0; throttled_packets := 0; dropped_packets := 0;
     start_time := class_start_time |}.

Definition increment_processed : Prog t unit :=
  modify (fun self =>
    {| processed_packets := processed_packets self + 1;
       throttled_packets := throttled_packets self;
       dropped_packets := dropped_packets self;
       start_time := start_time self |}).

Definition increment_throttled : Prog t unit :=
  modify (fun self =>
    {| processed_packets := processed_packets self;
       throttled_packets := throttled_packets self + 1;
       dropped_packets := dropped_packets self;
       start_time := start_time self |}).

Definition increment_dropped : Prog t unit :=
  modify (fun self =>
    {| processed_packets := processed_packets self;
       throttled_packets := throttled_packets self;
       dropped_packets := dropped_packets self + 1;
       start_time := start_time self |}).

(** The dict [get_stats] returns. *)
Record StatsDict := {
  d_processed_packets : Z;
  d_throttled_packets : Z;
  d_dropped_packets : Z;
  d_packets_per_second : Q;
  d_runtime_seconds : Q
}.

Definition get_stats : Prog t StatsDict :=
  now <- time_time ;;
  self <- get ;;
  let elapsed := (now - start_time self)%Q in
  ret {| d_processed_packets := processed_packets self;
         d_throttled_packets := throttled_packets self;
         d_dropped_packets := dropped_packets self;
         d_packets_per_second :=
           if Qltb 0 elapsed then (inject_Z (processed_packets self) / elapsed)%Q
           else 0%Q;
         d_runtime_seconds := elapsed |}.

Definition log_final_stats : Prog t unit :=
  stats <- get_stats ;;
  logger INFO MsgFinalStatistics ;;
  logger INFO (MsgTotalProcessed (d_processed_packets stats)) ;;
  logger INFO (MsgTotalThrottled (d_throttled_packets stats)) ;;
  logger INFO (MsgTotalDropped (d_dropped_packets stats)) ;;
  logger INFO (MsgAveragePps (d_packets_per_second stats)) ;;
  logger INFO (MsgTotalRuntime (d_runtime_seconds stats)).

End ThrottlingStatistics.

(** ** utils/keyboard_handler.py *)

Module KeyboardHandler.

(** The bound methods the throttler registers. *)
Inductive Callback := toggle_throttling_cb | shutdown_cb.

Record t := {
  callbacks : list (string * Callback);
  _running : bool;
  _thread : option nat
}.

Definition __init__ : t :=
  {| callbacks := []; _running := false; _thread := None |}.

Definition dict_set (k : string) (v : Callback) (d : list (string * Callback))
  : list (string * Callback) :=
  (k, v) :: filter (fun kv => negb (String.eqb (fst kv) k)) d.

Definition register_callback (key : string) (cb : Callback) : Prog t unit :=
  modify (fun self =>
    {| callbacks := dict_set key cb (callbacks self);
       _running := _running self; _thread := _thread self |}).

Definition start : Prog t unit :=
  modify (fun self =>
    {| callbacks := callbacks self; _running := true; _thread := Some 0%nat |}) ;;
  emit EvThreadStart ;;
  logger INFO MsgKeyboardStarted.

(** The thread a method is called from: the key callbacks run on the
    listener thread, everything else on the main thread. *)
Inductive Caller := MainThread | ListenerThread.

(** [stop]. [Thread.join] raises [RuntimeError] when a thread joins itself. *)
Definition stop (caller : Caller) : Prog t (Result unit) :=
  modify (fun self =>
    {| callbacks := callbacks self; _running := false;
       _thread := _thread self |}) ;;
  self <- get ;;
  match _thread self, caller with
  | Some _, ListenerThread =>
      ret (Raise (RuntimeError "cannot join current thread"))
  | Some _, MainThread =>
      emit (EvJoin 1) ;;
      logger INFO MsgKeyboardStopped ;;
      ret (Return tt)
  | None, _ =>
      logger INFO MsgKeyboardStopped ;;
      ret (Return tt)
  end.

End KeyboardHandler.

(** ** utils/process_manager.py *)

Module ProcessManager.

(** [None.lower()] *)
Definition none_has_no_lower : Exn :=
  AttributeError "'NoneType' object has no attribute 'lower'".

(** The loop of [find_process_by_name] over the process table. The
    [except] clause of its body catches [NoSuchProcess] and [AccessDenied]
    and nothing else, so the [AttributeError] of a name that is [None] ends
    the loop. *)
Fixpoint find_loop {S} (name_substring : string) (procs : list ProcEntry)
  : Prog S (Result Z) :=
  match procs with
  | [] => ret (Raise (RuntimeError
            ("No process matching '" ++ name_substring ++ "' found")))
  | ProcInfo pid (Some name) :: rest =>
      needle <- lower name_substring ;;
      hay <- lower name ;;
      if contains needle hay then
        logger INFO (MsgFoundProcess name pid) ;;
        ret (Return pid)
      else find_loop name_substring rest
  | ProcInfo pid None :: rest => ret (Raise none_has_no_lower)
  | ProcGone :: rest => find_loop name_substring rest
  | ProcDenied :: rest => find_loop name_substring rest
  end.

Definition find_process_by_name {S} (name_substring : string)
  : Prog S (Result Z) :=
  logger DEBUG (MsgSearching name_substring) ;;
  procs <- (fun s w => mkRes (process_iter w) s w) ;;
  r <- find_loop name_substring procs ;;
  match r with
  | Return pid => ret (Return pid)
  | Raise e =>
      logger ERROR (MsgErrorSearching (str_of_exn e)) ;;
      ret (Raise e)
  end.

(** [psutil.Process(pid).net_connections()] *)
Definition psutil_net_connections {S} (pid : Z) : Prog S (Result (list Conn)) :=
  fun s w =>
    mkRes (match net_connections w pid with
           | PsConnections cs => Return cs
           | PsNoSuchProcess => Raise NoSuchProcess
           | PsAccessDenied => Raise AccessDenied
           | PsOtherError e => Raise (Exception e)
           end) s w.

(** The [for conn in connections] loop. *)
Fixpoint collect_ports (connections : list Conn) (ports : list Z) : list Z :=
  match connections with
  | [] => ports
  | conn :: rest =>
      let ports1 := match laddr conn with
                    | Some a => port_add (port a) ports
                    | None => ports
                    end in
      let ports2 := match raddr conn with
                    | Some a => port_add (port a) ports1
                    | None => ports1
                    end in
      collect_ports rest ports2
  end.

(** [get_process_ports]. The set it returns is not added to afterwards and
    its users iterate it: it is returned as the list of its elements in the
    order of iteration. *)
Definition get_process_ports {S} (pid : Z) : Prog S (Result (list Z)) :=
  logger DEBUG (MsgGettingPorts pid) ;;
  r <- psutil_net_connections pid ;;
  match r with
  | Return connections =>
      let ports := collect_ports connections [] in
      logger INFO (MsgProcessPorts pid (py_sorted ports)) ;;
      ports <- iter_set ports ;;
      ret (Return ports)
  | Raise NoSuchProcess =>
      logger WARNING (MsgNoLongerExists pid) ;;
      ret (Return [])
  | Raise AccessDenied =>
      logger WARNING (MsgAccessDenied pid) ;;
      ret (Return [])
  | Raise e =>
      logger ERROR (MsgErrorGettingPorts pid (str_of_exn e)) ;;
      ret (Return [])
  end.

End ProcessManager.

(** ** config/settings.py *)

Module ThrottlingConfig.

Record t := {
  target_bandwidth_mbps : Q;
  lag_delay_ms : Z;
  packet_drop_rate : Q;
  process_name_substring : string;
  toggle_key : string;
  exit_key : string;
  status_update_interval : Z;
  port_range_start : Z;
  port_range_end : Z
}.

(** [_validate_settings]: [true] when it raises nothing. *)
Definition _validate_settings (self : t) : bool :=
  negb (Qle_bool (target_bandwidth_mbps self) 0)
  && negb (lag_delay_ms self <? 0)%Z
  && (Qle_bool 0 (packet_drop_rate self) && Qle_bool (packet_drop_rate self) 1)
  && negb (status_update_interval self <=? 0)%Z
  && negb (port_range_start self >=? port_range_end self)%Z.

Definition max_bytes_per_second (self : t) : Q :=
  (target_bandwidth_mbps self * 1000000 / 8)%Q.

Definition lag_delay_seconds (self : t) : Q :=
  (inject_Z (lag_delay_ms self) / 1000)%Q.

End ThrottlingConfig.

(** ** core/throttler.py *)

Module NetworkThrottler.

Import ThrottlingConfig.

Record t := {
  config : ThrottlingConfig.t;
  bandwidth_limiter : BandwidthLimiter.t;
  statistics : ThrottlingStatistics.t;
  keyboard_handler : KeyboardHandler.t;
  _throttling_enabled : bool;
  _shutdown_event : bool;
  _target_pid : option Z;
  _target_ports : list Z               (* the set, in its iteration order *)
}.

Definition set_bandwidth_limiter (x : BandwidthLimiter.t) (s : t) : t :=
  {| config := config s; bandwidth_limiter := x; statistics := statistics s;
     keyboard_handler := keyboard_handler s;
     _throttling_enabled := _throttling_enabled s;
     _shutdown_event := _shutdown_event s; _target_pid := _target_pid s;
     _target_ports := _target_ports s |}.

Definition set_statistics (x : ThrottlingStatistics.t) (s : t) : t :=
  {| config := config s; bandwidth_limiter := bandwidth_limiter s; statistics := x;
     keyboard_handler := keyboard_handler s;
     _throttling_enabled := _throttling_enabled s;
     _shutdown_event := _shutdown_event s; _target_pid := _target_pid s;
     _target_ports := _target_ports s |}.

Definition set_keyboard_handler (x : KeyboardHandler.t) (s : t) : t :=
  {| config := config s; bandwidth_limiter := bandwidth_limiter s;
     statistics := statistics s; keyboard_handler := x;
     _throttling_enabled := _throttling_enabled s;
     _shutdown_event := _shutdown_event s; _target_pid := _target_pid s;
     _target_ports := _target_ports s |}.

Definition set_throttling_enabled (x : bool) (s : t) : t :=
  {| config := config s; bandwidth_limiter := bandwidth_limiter s;
     statistics := statistics s; keyboard_handler := keyboard_handler s;
     _throttling_enabled := x;
     _shutdown_event := _shutdown_event s; _target_pid := _target_pid s;
     _target_ports := _target_ports s |}.

Definition set_shutdown_event (x : bool) (s : t) : t :=
  {| config := config s; bandwidth_limiter := bandwidth_limiter s;
     statistics := statistics s; keyboard_handler := keyboard_handler s;
     _throttling_enabled := _throttling_enabled s;
     _shutdown_event := x; _target_pid := _target_pid s;
     _target_ports := _target_ports s |}.

Definition set_target_pid (x : option Z) (s : t) : t :=
  {| config := config s; bandwidth_limiter := bandwidth_limiter s;
     statistics := statistics s; keyboard_handler := keyboard_handler s;
     _throttling_enabled := _throttling_enabled s;
     _shutdown_event := _shutdown_event s; _target_pid := x;
     _target_ports := _target_ports s |}.

Definition set_target_ports (x : list Z) (s : t) : t :=
  {| config := config s; bandwidth_limiter := bandwidth_limiter s;
     statistics := statistics s; keyboard_handler := keyboard_handler s;
     _throttling_enabled := _throttling_enabled s;
     _shutdown_event := _shutdown_event s; _target_pid := _target_pid s;
     _target_ports := x |}.

Definition on_limiter {A} (m : Prog BandwidthLimiter.t A) : Prog t A :=
  zoom bandwidth_limiter set_bandwidth_limiter m.
Definition on_statistics {A} (m : Prog ThrottlingStatistics.t A) : Prog t A :=
  zoom statistics set_statistics m.
Definition on_keyboard {A} (m : Prog KeyboardHandler.t A) : Prog t A :=
  zoom keyboard_handler set_keyboard_handler m.

(** [NetworkThrottler(config)] *)
Definition __init__ (cfg : ThrottlingConfig.t) (class_start_time : Q) : Prog unit t :=
  logger INFO MsgProcessManagerInit ;;
  bl <- BandwidthLimiter.__init__ (max_bytes_per_second cfg) 1 ;;
  logger INFO MsgThrottlerInit ;;
  ret {| config := cfg; bandwidth_limiter := bl;
         statistics := ThrottlingStatistics.fresh class_start_time;
         keyboard_handler := KeyboardHandler.__init__;
         _throttling_enabled := false; _shutdown_event := false;
         _target_pid := None; _target_ports := [] |}.

Definition toggle_throttling : Prog t unit :=
  modify (fun self => set_throttling_enabled (negb (_throttling_enabled self)) self) ;;
  self <- get ;;
  logger INFO (MsgThrottlingToggled (_throttling_enabled self)) ;;
  print (MsgToggleNotice (_throttling_enabled self) (toggle_key (config self))) ;;
  if _throttling_enabled self
  then print (MsgWillBeThrottled (process_name_substring (config self)))
  else print (MsgThrottlingRemoved (process_name_substring (config self))).

Definition shutdown (caller : KeyboardHandler.Caller) : Prog t (Result unit) :=
  logger INFO MsgInitiatingShutdown ;;
  modify (set_shutdown_event true) ;;
  r <- on_keyboard (KeyboardHandler.stop caller) ;;
  match r with
  | Raise e => ret (Raise e)
  | Return _ =>
      on_statistics ThrottlingStatistics.log_final_stats ;;
      logger INFO MsgShutdownComplete ;;
      ret (Return tt)
  end.

(** The [except RuntimeError] handler of [_initialize_target_process]. *)
Definition init_failed {A} (e : Exn) : Prog t (Result A) :=
  match e with
  | RuntimeError m =>
      self <- get ;;
      logger ERROR (MsgFailedToFind m) ;;
      print (MsgError m) ;;
      print (MsgMakeSureRunning (process_name_substring (config self))) ;;
      ret (Raise e)
  | _ => ret (Raise e)
  end.

Definition _initialize_target_process : Prog t (Result unit) :=
  self <- get ;;
  let name := process_name_substring (config self) in
  r <- ProcessManager.find_process_by_name name ;;
  match r with
  | Raise e => init_failed e
  | Return pid =>
      modify (set_target_pid (Some pid)) ;;
      logger INFO (MsgFoundTarget name pid) ;;
      r' <- ProcessManager.get_process_ports pid ;;
      match r' with
      | Raise e => init_failed e
      | Return ports =>
          modify (set_target_ports ports) ;;
          logger INFO (MsgTargetPorts name ports) ;;
          ret (Return tt)
      end
  end.

Definition _setup_keyboard_handler : Prog t unit :=
  self <- get ;;
  on_keyboard (KeyboardHandler.register_callback (toggle_key (config self))
                 KeyboardHandler.toggle_throttling_cb) ;;
  on_keyboard (KeyboardHandler.register_callback (exit_key (config self))
                 KeyboardHandler.shutdown_cb) ;;
  on_keyboard KeyboardHandler.start ;;
  print (MsgPressToToggle (toggle_key (config self))) ;;
  print MsgPressEscToExit.

Definition _should_drop_packet : Prog t bool :=
  u <- random_random ;;
  self <- get ;;
  ret (Qltb u (packet_drop_rate (config self))).

Definition _apply_throttling (packet_size : Z) : Prog t unit :=
  on_limiter (BandwidthLimiter.throttle packet_size) ;;
  self <- get ;;
  when (0 <? lag_delay_ms (config self))%Z
       (time_sleep (lag_delay_seconds (config self))).

Definition _update_status (throttling_active : bool) : Prog t (Result unit) :=
  self <- get ;;
  let interval := status_update_interval (config self) in
  if (interval =? 0)%Z then ret (Raise ZeroDivisionError)
  else if (ThrottlingStatistics.processed_packets (statistics self) mod interval =? 0)%Z
  then
    current_rate <- on_limiter BandwidthLimiter.get_current_rate_kbps ;;
    self <- get ;;
    print (MsgStatus throttling_active
             (ThrottlingStatistics.processed_packets (statistics self))
             (ThrottlingStatistics.throttled_packets (statistics self))
             (ThrottlingStatistics.dropped_packets (statistics self))
             current_rate) ;;
    ret (Return tt)
  else ret (Return tt).

(** The tail of [_process_packet] from [windivert_handle.send(packet)] on. *)
Definition forward (packet : Packet) (should_throttle : bool)
  : Prog t (Result unit) :=
  emit (EvSend packet) ;;
  _update_status should_throttle.

Definition _process_packet (packet : Packet) : Prog t (Result unit) :=
  let packet_size := packet_len packet in
  on_statistics ThrottlingStatistics.increment_processed ;;
  self <- get ;;
  let should_throttle := _throttling_enabled self in
  if should_throttle then
    on_statistics ThrottlingStatistics.increment_throttled ;;
    d <- _should_drop_packet ;;
    if d then
      on_statistics ThrottlingStatistics.increment_dropped ;;
      logger DEBUG (MsgDroppedPacket packet_size) ;;
      ret (Return tt)
    else
      _apply_throttling packet_size ;;
      forward packet should_throttle
  else forward packet should_throttle.

(** *** Capture filters *)

Definition MAX_LISTED_PORTS : Z := 20.

Definition port_clause (p : Z) : string :=
  ("tcp.SrcPort == " ++ str_of_Z p ++ " or tcp.DstPort == " ++ str_of_Z p
   ++ " or udp.SrcPort == " ++ str_of_Z p ++ " or udp.DstPort == " ++ str_of_Z p)%string.

Definition port_filter (ports : list Z) : string :=
  ("(tcp or udp) and (" ++ String.concat " or " (map port_clause ports) ++ ")")%string.

Definition range_filter (start end_ : Z) : string :=
  ("(tcp or udp) and ((tcp.DstPort >= " ++ str_of_Z start
   ++ " and tcp.DstPort <= " ++ str_of_Z end_
   ++ ") or (udp.DstPort >= " ++ str_of_Z start
   ++ " and udp.DstPort <= " ++ str_of_Z end_ ++ "))")%string.

Definition basic_filter : string := "tcp or udp".

(** Truth value of a set: non-empty. *)
Definition truthy (ports : list Z) : bool :=
  match ports with [] => false | _ :: _ => true end.

(** The filter the [try] block of [_packet_capture_context] builds. *)
Definition filter_str (self : t) : string :=
  let start := port_range_start (config self) in
  let end_ := port_range_end (config self) in
  if truthy (_target_ports self)
     && (Z.of_nat (List.length (_target_ports self)) <=? MAX_LISTED_PORTS)%Z
  then port_filter (_target_ports self)
  else range_filter start end_.

(** The last rung of the [except] block: the basic filter, then [raise]. *)
Definition try_basic (e : Exn) : Prog t (Result nat) :=
  logger INFO (MsgTryingBasic basic_filter) ;;
  r <- WinDivert basic_filter ;;
  match r with
  | Opened h =>
      logger INFO MsgCaptureStartedBasic ;;
      ret (Return h)
  | OpenFailed e3 =>
      logger ERROR (MsgBasicFailed e3) ;;
      ret (Raise e)
  end.

(** Entering [_packet_capture_context]: the handle it yields, or the
    exception it raises. *)
Definition _packet_capture_context : Prog t (Result nat) :=
  self <- get ;;
  r <- WinDivert (filter_str self) ;;
  match r with
  | Opened h =>
      logger INFO MsgCaptureStarted ;;
      ret (Return h)
  | OpenFailed msg =>
      let e := Exception msg in
      logger ERROR (MsgCaptureError (str_of_exn e)) ;;
      if truthy (_target_ports self)
         && contains "parameter is incorrect" (str_of_exn e)
      then
        logger INFO MsgComplexFilterFailed ;;
        let limited_ports := firstn 5 (_target_ports self) in
        let simple_filter := port_filter limited_ports in
        logger INFO (MsgTryingSimplified simple_filter) ;;
        r2 <- WinDivert simple_filter ;;
        match r2 with
        | Opened h =>
            logger INFO MsgCaptureStartedSimplified ;;
            ret (Return h)
        | OpenFailed e2 =>
            logger ERROR (MsgSimplifiedFailed e2) ;;
            try_basic e
        end
      else try_basic e
  end.

(** [run] up to the point where the capture context is entered. *)
Definition run_startup : Prog t (Result nat) :=
  r <- _initialize_target_process ;;
  match r with
  | Raise e => ret (Raise e)
  | Return _ =>
      _setup_keyboard_handler ;;
      self <- get ;;
      print (MsgSettings (target_bandwidth_mbps (config self))
               (lag_delay_ms (config self)) (packet_drop_rate (config self))) ;;
      print MsgStartingCapture ;;
      _packet_capture_context
  end.

(** What reaches the capture loop: a packet from the handle, or a toggle made
    by the key listener between two packets. *)
Inductive Input :=
| InPacket (p : Packet)
| InToggle.

(** The [for packet in windivert_handle] loop of [run]. *)
Fixpoint run_loop (inputs : list Input) : Prog t (Result unit) :=
  match inputs with
  | [] => ret (Return tt)
  | InToggle :: rest => toggle_throttling ;; run_loop rest
  | InPacket p :: rest =>
      self <- get ;;
      if _shutdown_event self then ret (Return tt)
      else
        r <- _process_packet p ;;
        match r with
        | Raise e => ret (Raise e)
        | Return _ => run_loop rest
        end
  end.

End NetworkThrottler.

(** ** Reading traces *)

Definition is_sleep (e : Event) : bool :=
  match e with EvSleep _ => true | _ => false end.

Definition is_send (e : Event) : bool :=
  match e with EvSend _ => true | _ => false end.

Definition is_log (e : Event) : bool :=
  match e with EvLog _ _ => true | _ => false end.

Definition is_status (e : Event) : bool :=
  match e with EvPrint (MsgStatus _ _ _ _ _) => true | _ => false end.

Definition is_final_report (e : Event) : bool :=
  match e with EvLog INFO MsgFinalStatistics => true | _ => false end.

(** What the limiter itself does to the world: clock reads, sleeps, logs. *)
Definition is_limiter_event (e : Event) : bool :=
  match e with EvTime _ | EvSleep _ | EvLog _ _ => true | _ => false end.

(** What [_update_status] does to the world: a clock read and a status line. *)
Definition is_report_event (e : Event) : bool :=
  match e with EvTime _ | EvPrint (MsgStatus _ _ _ _ _) => true | _ => false end.

(** The filters handed to the capture driver, in order. *)
Fixpoint opens_of (tr : list Event) : list string :=
  match tr with
  | [] => []
  | EvOpen f :: tr' => f :: opens_of tr'
  | _ :: tr' => opens_of tr'
  end.

Definition count (f : Event -> bool) (tr : list Event) : nat :=
  List.length (filter f tr).

(** The world after a program that only logged and printed. *)
Definition quiet_step (w w' : World) : Prop :=
  driver w' = driver w /\ opens w' = opens w
  /\ net_connections w' = net_connections w
  /\ exists evs, trace w' = trace w ++ evs /\ opens_of evs = [].

(** A clock that never goes back. *)
Definition monotone_clock (w : World) : Prop := forall k : nat, 0 <= lag w k.

(** ** Invariants and operation sequences of the limiter *)

(** What [__init__] establishes and every method keeps. *)
Definition limiter_ok (self : BandwidthLimiter.t) : Prop :=
  BandwidthLimiter.tokens self <= BandwidthLimiter.bucket_size self
  /\ BandwidthLimiter.bucket_size self == BandwidthLimiter.max_bytes_per_second self.

(** A limiter state together with a world it can be found in. *)
Definition settled (self : BandwidthLimiter.t) (w : World) : Prop :=
  limiter_ok self /\ monotone_clock w
  /\ BandwidthLimiter.last_refill self <= clock w.

(** The bucket is full: the state [__init__] leaves behind. *)
Definition full (cap : Q) (self : BandwidthLimiter.t) : Prop :=
  BandwidthLimiter.tokens self = cap
  /\ BandwidthLimiter.bucket_size self = cap
  /\ BandwidthLimiter.max_bytes_per_second self = cap.

(** The public operations other than [update_rate_limit]. ([get_stats] is
    not among them: it takes the lock and then calls
    [get_current_rate_kbps], which waits for the same lock.) *)
Inductive Op :=
| OpThrottle (packet_size : Z)
| OpCanSend (packet_size : Z)
| OpRateKbps
| OpRateMbps
| OpReset.

Definition run_op (op : Op) : Prog BandwidthLimiter.t unit :=
  match op with
  | OpThrottle s => BandwidthLimiter.throttle s
  | OpCanSend s => BandwidthLimiter.can_send s ;; ret tt
  | OpRateKbps => BandwidthLimiter.get_current_rate_kbps ;; ret tt
  | OpRateMbps => BandwidthLimiter.get_current_rate_mbps ;; ret tt
  | OpReset => BandwidthLimiter.reset
  end.

Fixpoint run_ops (ops : list Op) : Prog BandwidthLimiter.t unit :=
  match ops with
  | [] => ret tt
  | op :: rest => run_op op ;; run_ops rest
  end.

(** A limiter built by [__init__] and then driven through [ops]. *)
Definition limiter_after (cap wsize : Q) (ops : list Op) (w : World)
  : Res BandwidthLimiter.t unit :=
  let r := BandwidthLimiter.__init__ cap wsize tt w in
  run_ops ops (val r) (world r).

(** ** Counters *)

Definition counters_ok (s : ThrottlingStatistics.t) : Prop :=
  (ThrottlingStatistics.dropped_packets s <= ThrottlingStatistics.throttled_packets s
   <= ThrottlingStatistics.processed_packets s)%Z.

(** How far the counters have moved from [s] to [s']. *)
Definition counters_step (s s' : ThrottlingStatistics.t) : Prop :=
  (0 <= ThrottlingStatistics.dropped_packets s' - ThrottlingStatistics.dropped_packets s
   <= ThrottlingStatistics.throttled_packets s' - ThrottlingStatistics.throttled_packets s
   /\ ThrottlingStatistics.throttled_packets s' - ThrottlingStatistics.throttled_packets s
      <= ThrottlingStatistics.processed_packets s' - ThrottlingStatistics.processed_packets s)%Z.

(** ** Shutdown, as the specification has it

    Invoking [shutdown] twice leaves the state that invoking it once leaves,
    and adds no final-statistics report to the one of the first call. *)
Definition shutdown_idempotent (st : NetworkThrottler.t) (w : World) : Prop :=
  let once := NetworkThrottler.shutdown KeyboardHandler.MainThread st w in
  let twice := NetworkThrottler.shutdown KeyboardHandler.MainThread
                 (obj once) (world once) in
  obj twice = obj once
  /\ count is_final_report (trace (world twice))
     = count is_final_report (trace (world once)).

(** ** Concrete worlds and states used in examples *)

Definition still_world (t0 : Q) (lags : nat -> Q) (rands : nat -> Q) : World :=
  {| clock := t0; lag := lags; reads := 0; rand := rands; draws := 0;
     driver := fun _ _ => Opened 0; opens := 0;
     net_connections := fun _ => PsConnections [];
     process_iter := []; str_lower := ascii_lower; set_iter := insertion_order;
     trace := [] |}.

Definition no_lag : nat -> Q := fun _ => 0.

(** Clock readings 0, 0, 1/2, 1/2, 9/10, 19/20, 21/20: the window that starts
    at 0 ends between the sixth and the seventh reading. *)
Definition race_lags (k : nat) : Q :=
  match k with
  | 1%nat => 1 # 2
  | 3%nat => 4 # 10
  | 4%nat => 5 # 100
  | 5%nat => 1 # 10
  | _ => 0
  end.

Definition race_world : World := still_world 0 race_lags (fun _ => 0).

(** A clock that is set back by 5 seconds after its second reading: it gives
    10, 10, 5, 5, ... *)
Definition stepback_lags (k : nat) : Q :=
  match k with
  | 1%nat => - (5)
  | _ => 0
  end.

Definition stepback_world : World := still_world 10 stepback_lags (fun _ => 0).

(** Two calls on a limiter of 1000 bytes per second: 600 bytes, then 500. *)
Definition race_run : Res BandwidthLimiter.t unit :=
  limiter_after 1000 1 [OpThrottle 600; OpThrottle 500] race_world.

Definition example_config : ThrottlingConfig.t :=
  {| ThrottlingConfig.target_bandwidth_mbps := 2;
     ThrottlingConfig.lag_delay_ms := 10;
     ThrottlingConfig.packet_drop_rate := 1;
     ThrottlingConfig.process_name_substring := "game";
     ThrottlingConfig.toggle_key := "f1";
     ThrottlingConfig.exit_key := "esc";
     ThrottlingConfig.status_update_interval := 100;
     ThrottlingConfig.port_range_start := 49000;
     ThrottlingConfig.port_range_end := 65000 |}.

(** A process table with the target in it, whose connections may not be read. *)
Definition denied_world : World :=
  {| clock := 0; lag := no_lag; reads := 0; rand := fun _ => 0; draws := 0;
     driver := fun _ _ => Opened 7; opens := 0;
     net_connections := fun _ => PsAccessDenied;
     process_iter := [ProcInfo 4 (Some "System"%string);
                      ProcInfo 4242 (Some "MyGame.exe"%string)];
     str_lower := ascii_lower; set_iter := insertion_order;
     trace := [] |}.

(** A capture driver that rejects every filter but the basic one. *)
Definition picky_world : World :=
  {| clock := 0; lag := no_lag; reads := 0; rand := fun _ => 0; draws := 0;
     driver := fun _ f =>
       if String.eqb f "tcp or udp" then Opened 7
       else OpenFailed "[WinError 87] The parameter is incorrect";
     opens := 0;
     net_connections := fun _ => PsConnections [];
     process_iter := []; str_lower := ascii_lower; set_iter := insertion_order;
     trace := [] |}.

(** [n] ports counted up from 50000. *)
Definition some_ports (n : nat) : list Z :=
  map (fun k => 50000 + Z.of_nat k)%Z (seq 0 n).

Definition example_packet : Packet :=
  {| raw := [Byte.x45; Byte.x00; Byte.x00; Byte.x1c] |}.

(** A throttler built by [__init__] in a world whose clock stands still. *)
Definition example_throttler : NetworkThrottler.t :=
  val (NetworkThrottler.__init__ example_config 0 tt (still_world 0 no_lag (fun _ => 0))).

Definition example_world : World :=
  world (NetworkThrottler.__init__ example_config 0 tt (still_world 0 no_lag (fun _ => 0))).

(** The same throttler with throttling on and 99 packets behind it. *)
Definition busy_throttler : NetworkThrottler.t :=
  NetworkThrottler.set_throttling_enabled true
    (NetworkThrottler.set_statistics
       {| ThrottlingStatistics.processed_packets := 99;
          ThrottlingStatistics.throttled_packets := 40;
          ThrottlingStatistics.dropped_packets := 40;
          ThrottlingStatistics.start_time := 0 |}
       example_throttler).

(** * Further code of the cited files

    The rest of the limiter, the resolver, the configuration and the key
    handler. Up to here the limiter's methods were run one at a time and its
    lock left out; below the lock is modelled, for [get_stats] and for
    [AdaptiveBandwidthLimiter], whose methods take it twice. *)

(** ** Reading traces, continued *)

(** The packets handed back to the driver, in order. *)
Fixpoint sends_of (tr : list Event) : list Packet :=
  match tr with
  | [] => []
  | EvSend p :: tr' => p :: sends_of tr'
  | _ :: tr' => sends_of tr'
  end.

(** The sleeps, in order. *)
Fixpoint sleeps_of (tr : list Event) : list Q :=
  match tr with
  | [] => []
  | EvSleep d :: tr' => d :: sleeps_of tr'
  | _ :: tr' => sleeps_of tr'
  end.

(** The packets among the inputs of the capture loop, in order. *)
Fixpoint packets_of (inputs : list NetworkThrottler.Input) : list Packet :=
  match inputs with
  | [] => []
  | NetworkThrottler.InPacket p :: rest => p :: packets_of rest
  | NetworkThrottler.InToggle :: rest => packets_of rest
  end.

(** [a] is [b] with some elements left out. *)
Inductive Subseq {A : Type} : list A -> list A -> Prop :=
| Subseq_nil : Subseq [] []
| Subseq_skip (x : A) (a b : list A) : Subseq a b -> Subseq a (x :: b)
| Subseq_keep (x : A) (a b : list A) : Subseq a b -> Subseq (x :: a) (x :: b).

(** What [_update_status] returns: it raises only on a zero interval. *)
Definition status_result (st : NetworkThrottler.t) : Result unit :=
  if (ThrottlingConfig.status_update_interval (NetworkThrottler.config st) =? 0)%Z
  then Raise ZeroDivisionError
  else Return tt.

(** Is the next packet dropped? Throttling is on and the next random value is
    below the drop rate. *)
Definition is_dropped (st : NetworkThrottler.t) (w : World) : bool :=
  NetworkThrottler._throttling_enabled st
  && Qltb (rand w (draws w))
       (ThrottlingConfig.packet_drop_rate (NetworkThrottler.config st)).

(** A random source that answers in [[0, 1)], as [random.random()] does. *)
Definition unit_draws (w : World) : Prop := forall k : nat, 0 <= rand w k /\ rand w k < 1.

(** Python's [abs(x)] on a float. *)
Definition py_abs (x : Q) : Q := if Qltb x 0 then - x else x.

(** The example throttler with throttling switched on. *)
Definition enabled_throttler : NetworkThrottler.t :=
  NetworkThrottler.set_throttling_enabled true example_throttler.

(** The example configuration with no packet loss, and a throttler built
    from it with throttling switched on. *)
Definition lossless_config : ThrottlingConfig.t :=
  {| ThrottlingConfig.target_bandwidth_mbps := 2;
     ThrottlingConfig.lag_delay_ms := 10;
     ThrottlingConfig.packet_drop_rate := 0;
     ThrottlingConfig.process_name_substring := "game";
     ThrottlingConfig.toggle_key := "f1";
     ThrottlingConfig.exit_key := "esc";
     ThrottlingConfig.status_update_interval := 100;
     ThrottlingConfig.port_range_start := 49000;
     ThrottlingConfig.port_range_end := 65000 |}.

Definition lossless_throttler : NetworkThrottler.t :=
  NetworkThrottler.set_throttling_enabled true
    (val (NetworkThrottler.__init__ lossless_config 0 tt
            (still_world 0 no_lag (fun _ => 0)))).

(** ** All operations of the limiter *)

Inductive AnyOp :=
| Plain (op : Op)
| Update (new_max_bytes_per_second : Q).

Definition run_any (o : AnyOp) : Prog BandwidthLimiter.t unit :=
  match o with
  | Plain op => run_op op
  | Update n => BandwidthLimiter.update_rate_limit n
  end.

Fixpoint run_anys (ops : list AnyOp) : Prog BandwidthLimiter.t unit :=
  match ops with
  | [] => ret tt
  | o :: rest => run_any o ;; run_anys rest
  end.

(** Packet sizes are lengths and rates are not negative. *)
Definition sane_op (o : AnyOp) : Prop :=
  match o with
  | Plain (OpThrottle s) => (0 <= s)%Z
  | Update n => 0 <= n
  | _ => True
  end.

(** What every operation of the limiter keeps once rates and sizes are not
    negative. *)
Definition bounded (self : BandwidthLimiter.t) : Prop :=
  0 <= BandwidthLimiter.tokens self
  /\ BandwidthLimiter.tokens self <= BandwidthLimiter.bucket_size self
  /\ BandwidthLimiter.bucket_size self = BandwidthLimiter.max_bytes_per_second self
  /\ 0 <= BandwidthLimiter.max_bytes_per_second self
  /\ (0 <= BandwidthLimiter.bytes_sent self)%Z.

(** ** utils/process_manager.py, continued *)

(** Does a process name match? ([name_substring.lower() in name.lower()],
    for what the runtime's [lower] is.) *)
Definition name_matches (lo : string -> string) (name_substring name : string) : bool :=
  contains (lo name_substring) (lo name).

(** The process ids of the entries of the process table that have a name and
    match, in order. *)
Fixpoint matching (lo : string -> string) (name_substring : string)
  (procs : list ProcEntry) : list Z :=
  match procs with
  | [] => []
  | ProcInfo pid (Some name) :: rest =>
      if name_matches lo name_substring name
      then pid :: matching lo name_substring rest
      else matching lo name_substring rest
  | _ :: rest => matching lo name_substring rest
  end.

(** The entries of the process table before the first one whose name is
    [None]. *)
Fixpoint named_prefix (procs : list ProcEntry) : list ProcEntry :=
  match procs with
  | [] => []
  | ProcInfo _ None :: _ => []
  | e :: rest => e :: named_prefix rest
  end.

(** Is there an entry whose name is [None]? *)
Fixpoint has_nameless (procs : list ProcEntry) : bool :=
  match procs with
  | [] => false
  | ProcInfo _ None :: _ => true
  | _ :: rest => has_nameless rest
  end.

(** The entries the search loops pass over: those whose reading raises
    [NoSuchProcess] or [AccessDenied], and those whose name does not match. *)
Definition passed_over (lo : string -> string) (name_substring : string)
  (e : ProcEntry) : Prop :=
  match e with
  | ProcInfo _ (Some name) => name_matches lo name_substring name = false
  | ProcInfo _ None => False
  | ProcGone | ProcDenied => True
  end.

(** A process table in which the target runs on ports 50007 (local) and 443
    (remote), in a world that iterates the set of them as 443, 50007. *)
Definition game_world : World :=
  {| clock := 0; lag := no_lag; reads := 0; rand := fun _ => 0; draws := 0;
     driver := fun _ _ => Opened 7; opens := 0;
     net_connections := fun pid =>
       if (pid =? 4242)%Z then
         PsConnections
           [{| laddr := Some {| ip := "192.168.1.20"; port := 50007 |};
               raddr := Some {| ip := "93.184.216.34"; port := 443 |} |}]
       else PsNoSuchProcess;
     process_iter := [ProcInfo 4 (Some "System"%string);
                      ProcInfo 4242 (Some "MyGame.exe"%string)];
     str_lower := ascii_lower; set_iter := reverse_order;
     trace := [] |}.

(** The same table when the name of process 4 may not be read. *)
Definition guarded_world : World :=
  {| clock := 0; lag := no_lag; reads := 0; rand := fun _ => 0; draws := 0;
     driver := fun _ _ => Opened 7; opens := 0;
     net_connections := net_connections game_world;
     process_iter := [ProcInfo 4 None; ProcInfo 4242 (Some "MyGame.exe"%string)];
     str_lower := ascii_lower; set_iter := reverse_order;
     trace := [] |}.

(** The ports a connection names. *)
Definition conn_has (c : Conn) (p : Z) : Prop :=
  (exists a, laddr c = Some a /\ port a = p) \/ (exists a, raddr c = Some a /\ port a = p).

(** ** config/settings.py, continued *)

Definition get_windivert_filter (self : ThrottlingConfig.t) (ports : list Z) : string :=
  if NetworkThrottler.truthy ports then
    let port_conditions :=
      String.concat " or "
        (map (fun port =>
                ("tcp.SrcPort == " ++ str_of_Z port
                 ++ " or tcp.DstPort == " ++ str_of_Z port ++ " or "
                 ++ "udp.SrcPort == " ++ str_of_Z port
                 ++ " or udp.DstPort == " ++ str_of_Z port)%string)
             ports) in
    ("(tcp or udp) and (" ++ port_conditions ++ ")")%string
  else
    ("(tcp or udp) and "
     ++ "((tcp.DstPort >= 49000 and tcp.DstPort <= 65000) or "
     ++ "(udp.DstPort >= 49000 and udp.DstPort <= 65000))")%string.

(** ** utils/keyboard_handler.py, continued *)

(** [self.callbacks[name]], when [name in self.callbacks]. *)
Fixpoint dict_get (k : string) (d : list (string * KeyboardHandler.Callback))
  : option KeyboardHandler.Callback :=
  match d with
  | [] => None
  | (k', v) :: rest => if String.eqb k' k then Some v else dict_get k rest
  end.

(** ** Log lines of the functions below

    One constructor per format string; [line], a parameter of the functions
    that log them, places them among the messages. *)
Inductive Line :=
| LineSearchingAll (name : string)
| LineFoundMatching (name : string) (pid : Z)
| LineFoundCount (n : nat) (name : string)
| LineErrorSearchingAll (e : string)
| LineAdaptiveInit (adaptation_factor : Q)
| LineCongestion (detected : bool)
| LineKeyboardError (e : string).

(** ** The limiter's lock

    [self._lock] is a [threading.Lock]: a thread that holds it and takes it
    again waits for ever. A method that may end like that is a program that
    is told whether the lock is held and either ends or stays blocked. *)

Inductive Outcome (S A : Type) :=
| Done (r : Res S A)
| Blocked.
Arguments Done {S A} _.
Arguments Blocked {S A}.

Definition LProg (S A : Type) : Type := bool -> S -> World -> Outcome S A.

Definition lret {S A} (a : A) : LProg S A := fun _ s w => Done (mkRes a s w).

Definition lbind {S A B} (m : LProg S A) (k : A -> LProg S B) : LProg S B :=
  fun held s w =>
    match m held s w with
    | Done (mkRes a s1 w1) => k a held s1 w1
    | Blocked => Blocked
    end.

(** A program that takes no lock. *)
Definition lift {S A} (m : Prog S A) : LProg S A := fun _ s w => Done (m s w).

(** [with self._lock: body] *)
Definition with_lock {S A} (body : LProg S A) : LProg S A :=
  fun held s w => if held then Blocked else body true s w.

(** Runs a method of the base object inside a method of the derived one. *)
Definition lzoom {S T A} (proj : S -> T) (upd : T -> S -> S) (m : LProg T A)
  : LProg S A :=
  fun held s w =>
    match m held (proj s) w with
    | Done (mkRes a t1 w1) => Done (mkRes a (upd t1 s) w1)
    | Blocked => Blocked
    end.

Module Locked.

Import BandwidthLimiter.

Definition throttle (packet_size : Z) : LProg t unit :=
  with_lock (lift (BandwidthLimiter.throttle packet_size)).

Definition get_current_rate_kbps : LProg t Q :=
  with_lock (lift BandwidthLimiter.get_current_rate_kbps).

Definition get_current_rate_mbps : LProg t Q :=
  lbind get_current_rate_kbps (fun r => lret ((r * 8) / 1024)).

Definition update_rate_limit (new_max_bytes_per_second : Q) : LProg t unit :=
  with_lock (lift (BandwidthLimiter.update_rate_limit new_max_bytes_per_second)).

(** The dict [get_stats] returns. *)
Record Stats := {
  s_max_bytes_per_second : Q;
  s_current_tokens : Q;
  s_bytes_sent_in_window : Z;
  s_current_rate_kbps : Q;
  s_current_rate_mbps : Q;
  s_window_utilization : Q
}.

Definition get_stats : LProg t (Result Stats) :=
  with_lock
    (lbind (lift get) (fun self =>
     lbind get_current_rate_kbps (fun kbps =>
     lbind get_current_rate_mbps (fun mbps =>
     if Qeq_bool (max_bytes_per_second self) 0 then lret (Raise ZeroDivisionError)
     else
       lret (Return
         {| s_max_bytes_per_second := max_bytes_per_second self;
            s_current_tokens := tokens self;
            s_bytes_sent_in_window := bytes_sent self;
            s_current_rate_kbps := kbps;
            s_current_rate_mbps := mbps;
            s_window_utilization :=
              inject_Z (bytes_sent self) / max_bytes_per_second self |}))))).

End Locked.

Section FurtherCode.

Variable line : Line -> Msg.

(** The loop of [find_all_processes_by_name]: like the loop of
    [find_process_by_name], it ends with [AttributeError] at a name that is
    [None]. *)
Fixpoint find_all_loop {S} (name_substring : string) (procs : list ProcEntry)
  (matching_pids : list Z) : Prog S (Result (list Z)) :=
  match procs with
  | [] => ret (Return matching_pids)
  | ProcInfo pid (Some name) :: rest =>
      needle <- lower name_substring ;;
      hay <- lower name ;;
      if contains needle hay then
        logger DEBUG (line (LineFoundMatching name pid)) ;;
        find_all_loop name_substring rest (matching_pids ++ [pid])
      else find_all_loop name_substring rest matching_pids
  | ProcInfo pid None :: rest => ret (Raise ProcessManager.none_has_no_lower)
  | ProcGone :: rest => find_all_loop name_substring rest matching_pids
  | ProcDenied :: rest => find_all_loop name_substring rest matching_pids
  end.

Definition find_all_processes_by_name {S} (name_substring : string)
  : Prog S (Result (list Z)) :=
  logger DEBUG (line (LineSearchingAll name_substring)) ;;
  procs <- (fun s w => mkRes (process_iter w) s w) ;;
  r <- find_all_loop name_substring procs [] ;;
  match r with
  | Return matching_pids =>
      logger INFO (line (LineFoundCount (List.length matching_pids) name_substring)) ;;
      ret (Return matching_pids)
  | Raise e =>
      logger ERROR (line (LineErrorSearchingAll (str_of_exn e))) ;;
      ret (Raise e)
  end.

(** One turn of the [while self._running] loop of [_keyboard_listener], for
    the handler of a throttler, once [keyboard.read_event()] has returned a
    key name and whether the key went down. *)
Definition _keyboard_listener_turn (name : string) (key_down : bool)
  : Prog NetworkThrottler.t unit :=
  self <- get ;;
  if key_down then
    match dict_get name
            (KeyboardHandler.callbacks (NetworkThrottler.keyboard_handler self)) with
    | Some KeyboardHandler.toggle_throttling_cb => NetworkThrottler.toggle_throttling
    | Some KeyboardHandler.shutdown_cb =>
        r <- NetworkThrottler.shutdown KeyboardHandler.ListenerThread ;;
        match r with
        | Return _ => ret tt
        | Raise e => logger ERROR (line (LineKeyboardError (str_of_exn e)))
        end
    | None => ret tt
    end
  else ret tt.

End FurtherCode.

(** ** utils/bandwidth_limiter.py: AdaptiveBandwidthLimiter *)

Module AdaptiveBandwidthLimiter.

Record t := {
  base : BandwidthLimiter.t;
  adaptation_factor : Q;
  base_rate : Q;
  congestion_detected : bool
}.

Definition set_base (x : BandwidthLimiter.t) (s : t) : t :=
  {| base := x; adaptation_factor := adaptation_factor s;
     base_rate := base_rate s; congestion_detected := congestion_detected s |}.

Definition set_congestion_detected (x : bool) (s : t) : t :=
  {| base := base s; adaptation_factor := adaptation_factor s;
     base_rate := base_rate s; congestion_detected := x |}.

(** A method of [BandwidthLimiter] called on [self]. *)
Definition super {A} (m : LProg BandwidthLimiter.t A) : LProg t A :=
  lzoom base set_base m.

Section Methods.

Variable line : Line -> Msg.

(** [__init__(max_bytes_per_second, adaptation_factor=0.1)] *)
Definition __init__ (max_bps : Q) (factor : Q) : Prog unit t :=
  b <- BandwidthLimiter.__init__ max_bps 1 ;;
  logger INFO (line (LineAdaptiveInit factor)) ;;
  ret {| base := b; adaptation_factor := factor; base_rate := max_bps;
         congestion_detected := false |}.

Definition detect_congestion : LProg t (Result bool) :=
  lbind (super Locked.get_stats) (fun r =>
  match r with
  | Raise e => lret (Raise e)
  | Return stats =>
      let high_utilization := Qltb (9 # 10) (Locked.s_window_utilization stats) in
      lbind (lift get) (fun self =>
      lbind (if Bool.eqb high_utilization (congestion_detected self) then lret tt
             else lbind (lift (modify (set_congestion_detected high_utilization)))
                    (fun _ => lift (logger INFO (line (LineCongestion high_utilization)))))
        (fun _ =>
      lbind (lift get) (fun self => lret (Return (congestion_detected self)))))
  end).

Definition adapt_rate : LProg t (Result unit) :=
  lbind detect_congestion (fun r =>
  match r with
  | Raise e => lret (Raise e)
  | Return congested =>
      lbind (lift get) (fun self =>
      let max_bps := BandwidthLimiter.max_bytes_per_second (base self) in
      let new_rate :=
        if congested then max_bps * (1 - adaptation_factor self)
        else py_min (base_rate self)
               (max_bps * (1 + adaptation_factor self * (1 # 10))) in
      if Qltb (base_rate self * (1 # 100)) (py_abs (new_rate - max_bps))
      then lbind (super (Locked.update_rate_limit new_rate))
             (fun _ => lret (Return tt))
      else lret (Return tt))
  end).

Definition throttle (packet_size : Z) : LProg t (Result unit) :=
  lbind (lift time_time) (fun now =>
  lbind (lift get) (fun self =>
  lbind (if Qltb (1 # 2) (now - BandwidthLimiter.window_start (base self))
         then adapt_rate else lret (Return tt)) (fun r =>
  match r with
  | Raise e => lret (Raise e)
  | Return _ =>
      lbind (super (Locked.throttle packet_size)) (fun _ => lret (Return tt))
  end))).

End Methods.

End AdaptiveBandwidthLimiter.

(** * Proofs *)

(** ** Booleans on rationals *)

Lemma Qltb_true (x y : Q) : Qltb x y = true <-> x < y.
Proof.
  unfold Qltb. rewrite negb_true_iff. split; intro H.
  - apply Qnot_le_lt. intro L. apply Qle_bool_iff in L. congruence.
  - destruct (Qle_bool y x) eqn:E; [|reflexivity].
    apply Qle_bool_iff in E. exfalso. apply (Qlt_not_le _ _ H E).
Qed.

Lemma Qltb_false (x y : Q) : Qltb x y = false <-> y <= x.
Proof.
  unfold Qltb. rewrite negb_false_iff. apply Qle_bool_iff.
Qed.

Lemma Qle_bool_false (x y : Q) : Qle_bool x y = false <-> y < x.
Proof.
  rewrite <- Qltb_true. unfold Qltb.
  destruct (Qle_bool x y); simpl; intuition congruence.
Qed.

Lemma py_min_Qmin (a b : Q) : py_min a b == Qmin a b.
Proof.
  unfold py_min. destruct (Qltb b a) eqn:E.
  - apply Qltb_true in E. symmetry. apply Q.min_r. lra.
  - apply Qltb_false in E. symmetry. apply Q.min_l. exact E.
Qed.

Lemma py_min_le_l (a b : Q) : py_min a b <= a.
Proof.
  unfold py_min. destruct (Qltb b a) eqn:E.
  - apply Qltb_true in E. lra.
  - lra.
Qed.

(** ** Unfolding programs *)

Create HintDb prog discriminated.
#[local] Hint Unfold bind ret get modify emit zoom time_time time_sleep
  random_random WinDivert lower iter_set logger print when : prog.

Ltac simp :=
  cbn [val obj world
       clock lag reads rand draws driver opens net_connections process_iter
       str_lower set_iter trace
       arrange w_emit w_tick w_advance w_drawn w_opened
       BandwidthLimiter.max_bytes_per_second BandwidthLimiter.window_size
       BandwidthLimiter.bucket_size BandwidthLimiter.tokens
       BandwidthLimiter.last_refill BandwidthLimiter.bytes_sent
       BandwidthLimiter.window_start
       BandwidthLimiter.set_tokens BandwidthLimiter.set_last_refill
       BandwidthLimiter.set_bytes_sent BandwidthLimiter.set_window_start
       BandwidthLimiter.set_max_bytes_per_second BandwidthLimiter.set_bucket_size
       ThrottlingStatistics.processed_packets ThrottlingStatistics.throttled_packets
       ThrottlingStatistics.dropped_packets ThrottlingStatistics.start_time
       KeyboardHandler.callbacks KeyboardHandler._running KeyboardHandler._thread
       NetworkThrottler.config NetworkThrottler.bandwidth_limiter
       NetworkThrottler.statistics NetworkThrottler.keyboard_handler
       NetworkThrottler._throttling_enabled NetworkThrottler._shutdown_event
       NetworkThrottler._target_pid NetworkThrottler._target_ports
       NetworkThrottler.set_bandwidth_limiter NetworkThrottler.set_statistics
       NetworkThrottler.set_keyboard_handler NetworkThrottler.set_throttling_enabled
       NetworkThrottler.set_shutdown_event NetworkThrottler.set_target_pid
       NetworkThrottler.set_target_ports str_of_exn].

Ltac simp_in H :=
  cbn [val obj world
       clock lag reads rand draws driver opens net_connections process_iter
       str_lower set_iter trace
       arrange w_emit w_tick w_advance w_drawn w_opened
       BandwidthLimiter.max_bytes_per_second BandwidthLimiter.window_size
       BandwidthLimiter.bucket_size BandwidthLimiter.tokens
       BandwidthLimiter.last_refill BandwidthLimiter.bytes_sent
       BandwidthLimiter.window_start
       BandwidthLimiter.set_tokens BandwidthLimiter.set_last_refill
       BandwidthLimiter.set_bytes_sent BandwidthLimiter.set_window_start
       BandwidthLimiter.set_max_bytes_per_second BandwidthLimiter.set_bucket_size
       ThrottlingStatistics.processed_packets ThrottlingStatistics.throttled_packets
       ThrottlingStatistics.dropped_packets ThrottlingStatistics.start_time
       KeyboardHandler.callbacks KeyboardHandler._running KeyboardHandler._thread
       NetworkThrottler.config NetworkThrottler.bandwidth_limiter
       NetworkThrottler.statistics NetworkThrottler.keyboard_handler
       NetworkThrottler._throttling_enabled NetworkThrottler._shutdown_event
       NetworkThrottler._target_pid NetworkThrottler._target_ports
       NetworkThrottler.set_bandwidth_limiter NetworkThrottler.set_statistics
       NetworkThrottler.set_keyboard_handler NetworkThrottler.set_throttling_enabled
       NetworkThrottler.set_shutdown_event NetworkThrottler.set_target_pid
       NetworkThrottler.set_target_ports str_of_exn] in H.

Ltac run := autounfold with prog; simp.

Ltac split_ifs :=
  repeat match goal with
         | |- context [if ?c then _ else _] => destruct c eqn:?; simp
         end.

(** ** The limiter keeps its invariant *)

Section LimiterInvariant.

Import BandwidthLimiter.

Lemma init_ok (cap wsize : Q) (w : World) :
  limiter_ok (val (__init__ cap wsize tt w)).
Proof.
  unfold limiter_ok, __init__. run. split; lra.
Qed.

Lemma refill_ok (self : t) (w : World) :
  limiter_ok self -> limiter_ok (obj (_refill_tokens self w)).
Proof.
  unfold limiter_ok, _refill_tokens. run. intros [Ht Hb].
  destruct (Qltb 0 (clock w - last_refill self)); simp; split; auto.
  apply py_min_le_l.
Qed.

Lemma refill_frame (self : t) (w : World) :
  let self' := obj (_refill_tokens self w) in
  max_bytes_per_second self' = max_bytes_per_second self
  /\ bucket_size self' = bucket_size self
  /\ window_size self' = window_size self
  /\ bytes_sent self' = bytes_sent self
  /\ window_start self' = window_start self.
Proof.
  unfold _refill_tokens. run.
  destruct (Qltb 0 (clock w - last_refill self)); simp; auto.
Qed.

Lemma throttle_tokens (s : Z) (self : t) (w : World) :
  tokens (obj (throttle s self w)) = tokens (obj (_refill_tokens self w))
  /\ bucket_size (obj (throttle s self w)) = bucket_size self
  /\ max_bytes_per_second (obj (throttle s self w)) = max_bytes_per_second self.
Proof.
  unfold throttle, _refill_tokens, _reset_window_if_needed. run.
  split_ifs; auto.
Qed.

Lemma refill_tokens_mono (self : t) (w : World) :
  limiter_ok self -> 0 <= max_bytes_per_second self ->
  tokens self <= tokens (obj (_refill_tokens self w)).
Proof.
  unfold limiter_ok, _refill_tokens. run. intros [Ht Hb] Hcap.
  destruct (Qltb 0 (clock w - last_refill self)) eqn:E; simp; [|lra].
  apply Qltb_true in E.
  pose proof (Qmult_le_0_compat _ _ (Qlt_le_weak _ _ E) Hcap) as Hadd.
  unfold py_min. destruct (Qltb _ (bucket_size self)); lra.
Qed.

Lemma refill_full (cap : Q) (self : t) (w : World) :
  0 <= cap -> full cap self -> full cap (obj (_refill_tokens self w)).
Proof.
  unfold full, _refill_tokens. run. intros Hcap (Ht & Hb & Hm).
  destruct (Qltb 0 (clock w - last_refill self)) eqn:E; simp; auto.
  repeat split; auto.
  apply Qltb_true in E. rewrite Ht, Hb, Hm.
  pose proof (Qmult_le_0_compat _ _ (Qlt_le_weak _ _ E) Hcap) as Hadd.
  unfold py_min.
  destruct (Qltb (cap + (clock w - last_refill self) * cap) cap) eqn:E2; auto.
  apply Qltb_true in E2. lra.
Qed.

Lemma can_send_obj (s : Z) (self : t) (w : World) :
  obj (can_send s self w) = obj (_refill_tokens self w).
Proof.
  unfold can_send, _refill_tokens. run. split_ifs; reflexivity.
Qed.

Lemma can_send_val (s : Z) (self : t) (w : World) :
  val (can_send s self w)
  = Qle_bool (inject_Z s) (tokens (obj (_refill_tokens self w))).
Proof.
  unfold can_send, _refill_tokens. run. split_ifs; reflexivity.
Qed.

Lemma rate_kbps_obj (self : t) (w : World) :
  obj (get_current_rate_kbps self w) = self.
Proof.
  unfold get_current_rate_kbps. run. split_ifs; reflexivity.
Qed.

Lemma rate_mbps_obj (self : t) (w : World) :
  obj (get_current_rate_mbps self w) = self.
Proof.
  unfold get_current_rate_mbps, get_current_rate_kbps. run. split_ifs; reflexivity.
Qed.

Lemma run_op_mono (op : Op) (self : t) (w : World) :
  limiter_ok self -> 0 <= max_bytes_per_second self ->
  tokens self <= tokens (obj (run_op op self w)).
Proof.
  intros Hok Hcap. pose proof (refill_tokens_mono self w Hok Hcap) as Hr.
  destruct op as [s | s | | |]; unfold run_op.
  - destruct (throttle_tokens s self w) as (Ht & _). rewrite Ht. exact Hr.
  - pose proof (can_send_obj s self w) as Ho. unfold bind, ret.
    destruct (can_send s self w); cbn [obj] in *. rewrite Ho. exact Hr.
  - pose proof (rate_kbps_obj self w) as Ho. unfold bind, ret.
    destruct (get_current_rate_kbps self w); cbn [obj] in *. rewrite Ho. lra.
  - pose proof (rate_mbps_obj self w) as Ho. unfold bind, ret.
    destruct (get_current_rate_mbps self w); cbn [obj] in *. rewrite Ho. lra.
  - unfold reset. run. apply Hok.
Qed.

Lemma run_op_full (cap : Q) (op : Op) (self : t) (w : World) :
  0 <= cap -> full cap self -> full cap (obj (run_op op self w)).
Proof.
  intros Hcap Hf. pose proof (refill_full cap self w Hcap Hf) as Hr.
  destruct op as [s | s | | |]; unfold run_op.
  - destruct (throttle_tokens s self w) as (Ht & Hb & Hm).
    destruct Hf as (_ & Hb0 & Hm0). destruct Hr as (Hrt & _).
    unfold full. rewrite Ht, Hb, Hm. auto.
  - pose proof (can_send_obj s self w) as Ho. unfold bind, ret.
    destruct (can_send s self w); cbn [obj] in *. rewrite Ho. exact Hr.
  - pose proof (rate_kbps_obj self w) as Ho. unfold bind, ret.
    destruct (get_current_rate_kbps self w); cbn [obj] in *. rewrite Ho. exact Hf.
  - pose proof (rate_mbps_obj self w) as Ho. unfold bind, ret.
    destruct (get_current_rate_mbps self w); cbn [obj] in *. rewrite Ho. exact Hf.
  - unfold reset. run. destruct Hf as (_ & Hb & Hm). unfold full; simp. auto.
Qed.

Lemma run_ops_full (cap : Q) (ops : list Op) :
  0 <= cap -> forall (self : t) (w : World),
  full cap self -> full cap (obj (run_ops ops self w)).
Proof.
  intros Hcap. induction ops as [|op rest IH]; intros self w Hf.
  - exact Hf.
  - simpl. unfold bind. pose proof (run_op_full cap op self w Hcap Hf) as H1.
    destruct (run_op op self w) as [u self1 w1]. apply IH. exact H1.
Qed.

Lemma update_rate_limit_tokens (n : Q) (self : t) (w : World) :
  tokens (obj (update_rate_limit n self w))
  = if Qltb n (tokens self) then n else tokens self.
Proof.
  unfold update_rate_limit. run. split_ifs; reflexivity.
Qed.

End LimiterInvariant.

(** C9. With a capacity that is not negative, no operation other than
    [update_rate_limit] lowers [tokens] ([throttle] never draws them down,
    [can_send] only reads them after the refill), and [update_rate_limit]
    lowers them only by clamping to the new capacity. So on a limiter that
    [__init__] built and on which [update_rate_limit] is never called,
    [tokens] equals the capacity after every operation and [can_send s]
    answers [True] for every [s] up to the capacity, whatever [throttle] has
    accounted. *)
Theorem tokens_never_drawn_down (cap wsize : Q) (Hcap : 0 <= cap) :
  (forall (op : Op) (self : BandwidthLimiter.t) (w : World),
      limiter_ok self ->
      BandwidthLimiter.max_bytes_per_second self == cap ->
      BandwidthLimiter.tokens self
      <= BandwidthLimiter.tokens (obj (run_op op self w)))
  /\ (forall (n : Q) (self : BandwidthLimiter.t) (w : World),
      BandwidthLimiter.tokens (obj (BandwidthLimiter.update_rate_limit n self w))
      = if Qltb n (BandwidthLimiter.tokens self) then n
        else BandwidthLimiter.tokens self)
  /\ (forall (ops : list Op) (w : World),
      let self := obj (limiter_after cap wsize ops w) in
      BandwidthLimiter.tokens self = cap
      /\ BandwidthLimiter.max_bytes_per_second self = cap
      /\ forall (s : Z) (w' : World),
           inject_Z s <= cap ->
           val (BandwidthLimiter.can_send s self w') = true).
Proof.
  split; [|split].
  - intros op self w Hok Hm. apply run_op_mono; [exact Hok|]. rewrite Hm. exact Hcap.
  - intros. apply update_rate_limit_tokens.
  - intros ops w self.
    assert (Hf : full cap self).
    { unfold self, limiter_after. apply run_ops_full; [exact Hcap|].
      unfold BandwidthLimiter.__init__. run. repeat split. }
    destruct Hf as (Ht & Hb & Hm). repeat split; auto.
    intros s w' Hs. rewrite can_send_val.
    assert (Hf : full cap self) by (repeat split; auto).
    destruct (refill_full cap self w' Hcap Hf) as (Ht' & _).
    rewrite Ht'. apply Qle_bool_iff. exact Hs.
Qed.

Lemma tokens_never_drawn_down_witness :
  0 <= 1000
  /\ (let self := val (BandwidthLimiter.__init__ 1000 1 tt race_world) in
      BandwidthLimiter.tokens self
      <= BandwidthLimiter.tokens (obj (run_op (OpThrottle 600) self race_world)))
  /\ val (BandwidthLimiter.can_send 1000
            (obj (limiter_after 1000 1 [OpThrottle 600; OpThrottle 500] race_world))
            race_world) = true.
Proof.
  assert (H : 0 <= 1000) by (vm_compute; discriminate).
  split; [exact H|]. split.
  - apply (proj1 (tokens_never_drawn_down 1000 1 H)).
    + split; vm_compute; [discriminate | reflexivity].
    + vm_compute. reflexivity.
  - apply (proj2 (proj2 (tokens_never_drawn_down 1000 1 H))
             [OpThrottle 600; OpThrottle 500] race_world).
    vm_compute. discriminate.
Defined.

(** ** The limiter against the specification's algorithm *)

Section ThrottleRefinement.

Import BandwidthLimiter.

Lemma refilled_tokens (self : t) (el : Q) :
  limiter_ok self -> 0 < el ->
  py_min (bucket_size self) (tokens self + el * max_bytes_per_second self)
  == Qmin (max_bytes_per_second self) (tokens self + el * max_bytes_per_second self).
Proof.
  intros [_ Hb] _. rewrite py_min_Qmin.
  apply Q.min_compat; [exact Hb | reflexivity].
Qed.

Lemma unrefilled_tokens (self : t) (now : Q) :
  limiter_ok self -> last_refill self <= now -> now - last_refill self <= 0 ->
  tokens self
  == Qmin (max_bytes_per_second self)
       (tokens self + (now - last_refill self) * max_bytes_per_second self)
  /\ last_refill self == now.
Proof.
  intros [Ht Hb] H1 H2.
  assert (E : now - last_refill self == 0) by lra.
  split; [|lra].
  rewrite E.
  assert (E2 : tokens self + 0 * max_bytes_per_second self == tokens self) by ring.
  rewrite E2. symmetry. apply Q.min_r. lra.
Qed.

(** Every operation keeps [limiter_ok], whatever the clock does. *)
Lemma run_any_ok (o : AnyOp) (self : t) (w : World) :
  limiter_ok self -> limiter_ok (obj (run_any o self w)).
Proof.
  unfold limiter_ok. intros (Ht & Hb).
  pose proof py_min_le_l as Hmin.
  destruct o as [[s | s | | |] | n]; unfold run_any, run_op, throttle, can_send,
    get_current_rate_mbps, get_current_rate_kbps, reset, update_rate_limit,
    _refill_tokens, _reset_window_if_needed; run;
    split_ifs; repeat split; auto; try apply Hmin; try lra;
    repeat match goal with
           | H : Qltb _ _ = true |- _ => apply Qltb_true in H
           | H : Qltb _ _ = false |- _ => apply Qltb_false in H
           end; try lra; reflexivity.
Qed.

Lemma run_anys_ok (ops : list AnyOp) :
  forall (self : t) (w : World),
    limiter_ok self -> limiter_ok (obj (run_anys ops self w)).
Proof.
  induction ops as [|o rest IH]; intros self w Hok; [exact Hok|].
  cbn [run_anys]. unfold bind.
  pose proof (run_any_ok o self w Hok) as H1.
  destruct (run_any o self w) as [v s1 w1]. apply IH. exact H1.
Qed.

End ThrottleRefinement.

(** ** Reachable limiter states

    With a clock that never goes back, the last refill is never ahead of the
    clock, in every state a limiter reaches. *)

Section Reachable.

Import BandwidthLimiter.

Lemma init_settled (cap wsize : Q) (w : World) :
  monotone_clock w ->
  settled (val (__init__ cap wsize tt w)) (world (__init__ cap wsize tt w)).
Proof.
  intros Hm. unfold settled, limiter_ok, monotone_clock, __init__ in *. run.
  pose proof (Hm (reads w)). pose proof (Hm (S (reads w))).
  repeat split; auto; lra.
Qed.

Ltac q_hyps :=
  repeat match goal with
         | H : Qltb _ _ = true |- _ => apply Qltb_true in H
         | H : Qltb _ _ = false |- _ => apply Qltb_false in H
         | H : Qle_bool _ _ = true |- _ => apply Qle_bool_iff in H
         | H : Qle_bool _ _ = false |- _ => apply Qle_bool_false in H
         end.

Lemma run_op_settled (op : Op) (self : t) (w : World) :
  settled self w -> settled (obj (run_op op self w)) (world (run_op op self w)).
Proof.
  unfold settled, limiter_ok, monotone_clock. intros ((Ht & Hb) & Hm & Hc).
  pose proof (Hm (reads w)). pose proof (Hm (S (reads w))).
  pose proof (Hm (S (S (reads w)))). pose proof (Hm (S (S (S (reads w))))).
  pose proof py_min_le_l as Hmin.
  destruct op as [s | s | | |]; unfold run_op, throttle, can_send,
    get_current_rate_mbps, get_current_rate_kbps, reset,
    _refill_tokens, _reset_window_if_needed; run;
    split_ifs; q_hyps; repeat split; auto; try apply Hmin; try lra.
Qed.

Lemma update_rate_limit_settled (n : Q) (self : t) (w : World) :
  settled self w ->
  settled (obj (update_rate_limit n self w)) (world (update_rate_limit n self w)).
Proof.
  unfold settled, limiter_ok, monotone_clock. intros ((Ht & Hb) & Hm & Hc).
  unfold update_rate_limit. run.
  split_ifs; q_hyps; repeat split; auto; lra.
Qed.
End Reachable.

(** C2 as the specification states it fails when the clock has been set back:
    on a limiter built at time 10 and called at time 5, [throttle] leaves
    [tokens] at 1000 and [last_refill] at 10, where step (a) asks for
    [tokens = min(1000, 1000 + (5 - 10) * 1000) = -4000] and
    [last_refill = 5]. *)
Lemma throttle_skips_the_refill_when_the_clock_is_set_back :
  let r0 := BandwidthLimiter.__init__ 1000 1 tt stepback_world in
  let self := val r0 in
  let now := clock (world r0) in
  let cap := BandwidthLimiter.max_bytes_per_second self in
  let r := BandwidthLimiter.throttle 100 self (world r0) in
  limiter_ok self
  /\ now == 5
  /\ BandwidthLimiter.last_refill self == 10
  /\ (exists later, trace (world r) = trace (world r0) ++ EvTime now :: later)
  /\ BandwidthLimiter.tokens (obj r) == 1000
  /\ Qmin cap (BandwidthLimiter.tokens self
               + (now - BandwidthLimiter.last_refill self) * cap) == - (4000)
  /\ ~ BandwidthLimiter.tokens (obj r)
       == Qmin cap (BandwidthLimiter.tokens self
                    + (now - BandwidthLimiter.last_refill self) * cap)
  /\ BandwidthLimiter.last_refill (obj r) == 10
  /\ ~ BandwidthLimiter.last_refill (obj r) == now.
Proof.
  cbv zeta. split; [split; vm_compute; [discriminate | reflexivity]|].
  split; [vm_compute; reflexivity|]. split; [vm_compute; reflexivity|].
  split; [eexists; vm_compute; reflexivity|].
  split; [vm_compute; reflexivity|]. split; [vm_compute; reflexivity|].
  split; [vm_compute; discriminate|]. split; [vm_compute; reflexivity|].
  vm_compute; discriminate.
Qed.

(** C2, amended. In every state the limiter can be in ([tokens] at most the
    bucket size, which is the capacity), a call of [throttle] does this, in
    this order. It reads the clock ([now_a]); if that reading is not before
    [last_refill], [tokens] becomes [min(capacity, tokens + (now_a -
    last_refill) * capacity)] and [last_refill] becomes [now_a], as (a)
    says; if the clock has been set back behind [last_refill], both are left
    as they are. It reads the clock again ([now_b]) and, if the window has
    run out by then, starts a new window at [now_b] with no bytes sent. If
    the packet does not fit in the window it reads the clock again
    ([now_c]), and if time remains in the window it sleeps for exactly that
    time, reads the clock once more ([now_d]) and starts a new window there
    with no bytes sent. In the end it adds the packet size to the bytes
    sent. Nothing else is read, slept or changed. *)
Theorem throttle_follows_spec (s : Z) (self : BandwidthLimiter.t) (w : World)
  (Hok : limiter_ok self) :
  let capacity := BandwidthLimiter.max_bytes_per_second self in
  let r := BandwidthLimiter.throttle s self w in
  let after := obj r in
  let now_a := clock w in
  let now_b := now_a + lag w (reads w) in
  let now_c := now_b + lag w (S (reads w)) in
  let expired :=
    Qle_bool (BandwidthLimiter.window_size self)
      (now_b - BandwidthLimiter.window_start self) in
  let start_b := if expired then now_b else BandwidthLimiter.window_start self in
  let sent_b := if expired then 0%Z else BandwidthLimiter.bytes_sent self in
  let over := Qltb capacity (inject_Z (sent_b + s)) in
  let remaining := BandwidthLimiter.window_size self - (now_c - start_b) in
  let waits := over && Qltb 0 remaining in
  let now_d := now_c + lag w (S (S (reads w))) + remaining in
  (BandwidthLimiter.last_refill self <= now_a ->
     BandwidthLimiter.tokens after
     == Qmin capacity
          (BandwidthLimiter.tokens self
           + (now_a - BandwidthLimiter.last_refill self) * capacity)
     /\ BandwidthLimiter.last_refill after == now_a)
  /\ (now_a < BandwidthLimiter.last_refill self ->
        BandwidthLimiter.tokens after = BandwidthLimiter.tokens self
        /\ BandwidthLimiter.last_refill after = BandwidthLimiter.last_refill self)
  /\ BandwidthLimiter.window_start after = (if waits then now_d else start_b)
  /\ BandwidthLimiter.bytes_sent after = (if waits then s else sent_b + s)%Z
  /\ BandwidthLimiter.max_bytes_per_second after = capacity
  /\ BandwidthLimiter.bucket_size after = BandwidthLimiter.bucket_size self
  /\ BandwidthLimiter.window_size after = BandwidthLimiter.window_size self
  /\ trace (world r)
     = trace w ++ EvTime now_a :: EvTime now_b
         :: (if over then
               EvTime now_c
               :: (if waits then
                     [EvLog DEBUG (MsgThrottlingWait remaining s);
                      EvSleep remaining; EvTime now_d]
                   else [])
             else []).
Proof.
  cbv zeta.
  unfold BandwidthLimiter.throttle,
    BandwidthLimiter._refill_tokens, BandwidthLimiter._reset_window_if_needed.
  run.
  destruct (Qltb 0 (clock w - BandwidthLimiter.last_refill self)) eqn:E; simp.
  - apply Qltb_true in E.
    pose proof (refilled_tokens self _ Hok E) as Htok.
    repeat match goal with
           | |- context [if ?c then _ else _] =>
               lazymatch c with
               | andb _ _ => fail
               | _ => destruct c eqn:?; simp; cbn [andb]
               end
           end;
      rewrite <- ?app_assoc; cbn [app];
      (split; [intros _; split; [exact Htok | reflexivity]|]);
      (split; [intros Hback; lra|]);
      repeat split; reflexivity.
  - apply Qltb_false in E.
    repeat match goal with
           | |- context [if ?c then _ else _] =>
               lazymatch c with
               | andb _ _ => fail
               | _ => destruct c eqn:?; simp; cbn [andb]
               end
           end;
      rewrite <- ?app_assoc; cbn [app];
      (split; [intros Hle; apply (unrefilled_tokens self (clock w) Hok Hle E)|]);
      (split; [intros _; split; reflexivity|]);
      repeat split; reflexivity.
Qed.

Lemma throttle_follows_spec_witness :
  let r0 := BandwidthLimiter.__init__ 1000 1 tt race_world in
  let r := BandwidthLimiter.throttle 600 (val r0) (world r0) in
  limiter_ok (val r0)
  /\ BandwidthLimiter.bytes_sent (obj r) = 600%Z
  /\ BandwidthLimiter.window_start (obj r) = BandwidthLimiter.window_start (val r0)
  /\ BandwidthLimiter.last_refill (obj r) == 1 # 2
  /\ trace (world r) = trace (world r0) ++ [EvTime (clock (world r0));
                                            EvTime (clock (world r0) + 0)].
Proof.
  cbv zeta.
  assert (Hok : limiter_ok (val (BandwidthLimiter.__init__ 1000 1 tt race_world)))
    by (split; vm_compute; [discriminate | reflexivity]).
  assert (Hclock : BandwidthLimiter.last_refill
                     (val (BandwidthLimiter.__init__ 1000 1 tt race_world))
                   <= clock (world (BandwidthLimiter.__init__ 1000 1 tt race_world)))
    by (vm_compute; discriminate).
  pose proof (throttle_follows_spec 600
                (val (BandwidthLimiter.__init__ 1000 1 tt race_world))
                (world (BandwidthLimiter.__init__ 1000 1 tt race_world)) Hok) as H.
  cbv zeta in H.
  destruct H as (Ha & _ & Hstart & Hsent & _ & _ & _ & Htrace).
  destruct (Ha Hclock) as [_ Hlast].
  split; [exact Hok|].
  split; [rewrite Hsent; vm_compute; reflexivity|].
  split; [rewrite Hstart; vm_compute; reflexivity|].
  split; [rewrite Hlast; vm_compute; reflexivity|].
  rewrite Htrace. vm_compute. reflexivity.
Defined.

(** ** Window accounting *)

Section WindowAccounting.

Import BandwidthLimiter.

Lemma count_app (f : Event -> bool) (a b : list Event) :
  count f (a ++ b) = (count f a + count f b)%nat.
Proof.
  unfold count. rewrite filter_app, length_app. reflexivity.
Qed.

(** When no time passes between the window check and the over-limit check, a
    call that does not sleep leaves the window within the capacity. *)
Lemma throttle_within_capacity (s : Z) (self : t) (w : World) :
  0 < window_size self ->
  lag w (S (reads w)) == 0 ->
  count is_sleep (trace (world (throttle s self w))) = count is_sleep (trace w) ->
  inject_Z (bytes_sent (obj (throttle s self w))) <= max_bytes_per_second self.
Proof.
  intros Hws Hlag.
  unfold throttle, _refill_tokens, _reset_window_if_needed. run.
  split_ifs; rewrite ?count_app; cbn; intros Hc; try lia;
    repeat match goal with
           | H : Qltb _ _ = true |- _ => apply Qltb_true in H
           | H : Qltb _ _ = false |- _ => apply Qltb_false in H
           | H : Qle_bool _ _ = true |- _ => apply Qle_bool_iff in H
           | H : Qle_bool _ _ = false |- _ => apply Qle_bool_false in H
           end; try lra; change (0 + s)%Z with s in *; lra.
Qed.

End WindowAccounting.

(** C5, at the input where it fails. A limiter of 1000 bytes per second with
    a one-second window that started at time 0 has accounted 600 bytes. The
    next call, for 500 bytes (at most the capacity), reads the clock at 9/10
    and 19/20 (the window is not over) and, being over the limit, again at
    21/20: the remaining time is negative, so the call neither sleeps nor
    resets the window, and leaves 1100 bytes in it. *)
Theorem throttle_overshoots_when_window_ends_mid_call :
  inject_Z 500 <= BandwidthLimiter.max_bytes_per_second (obj race_run)
  /\ map EvTime [0; 0; 1 # 2; 1 # 2; 9 # 10; 19 # 20; 21 # 20]
     = filter (fun e => negb (is_log e))
         (map (fun e => match e with EvTime t => EvTime (Qred t) | _ => e end)
            (trace (world race_run)))
  /\ count is_sleep (trace (world race_run)) = 0%nat
  /\ BandwidthLimiter.bytes_sent (obj race_run) = 1100%Z
  /\ BandwidthLimiter.max_bytes_per_second (obj race_run)
     < inject_Z (BandwidthLimiter.bytes_sent (obj race_run)).
Proof.
  vm_compute. repeat split; discriminate.
Qed.

(** ** The per-packet pipeline *)

Section Pipeline.

Import NetworkThrottler ThrottlingConfig.

Lemma throttle_trace (s : Z) (l : BandwidthLimiter.t) (w : World) :
  draws (world (BandwidthLimiter.throttle s l w)) = draws w
  /\ exists evs,
      trace (world (BandwidthLimiter.throttle s l w)) = trace w ++ evs
      /\ forallb is_limiter_event evs = true.
Proof.
  unfold BandwidthLimiter.throttle, BandwidthLimiter._refill_tokens,
    BandwidthLimiter._reset_window_if_needed. run.
  split_ifs; (split; [reflexivity|]); rewrite <- ?app_assoc;
    eexists; (split; [reflexivity|]); reflexivity.
Qed.

Lemma update_status_spec (b : bool) (st : NetworkThrottler.t) (w : World) :
  obj (_update_status b st w) = st
  /\ draws (world (_update_status b st w)) = draws w
  /\ exists evs,
      trace (world (_update_status b st w)) = trace w ++ evs
      /\ forallb is_report_event evs = true.
Proof.
  unfold _update_status, on_limiter, BandwidthLimiter.get_current_rate_kbps. run.
  split_ifs; (split; [destruct st; reflexivity|]); (split; [reflexivity|]).
  - exists []. rewrite app_nil_r. auto.
  - rewrite <- app_assoc. eexists. split; reflexivity.
  - exists []. rewrite app_nil_r. auto.
Qed.

Lemma forward_spec (p : Packet) (b : bool) (st : NetworkThrottler.t) (w : World) :
  obj (forward p b st w) = st
  /\ draws (world (forward p b st w)) = draws w
  /\ exists evs,
      trace (world (forward p b st w)) = trace w ++ [EvSend p] ++ evs
      /\ forallb is_report_event evs = true.
Proof.
  unfold forward, bind, emit. cbn match beta.
  destruct (update_status_spec b st (w_emit (EvSend p) w)) as (Ho & Hd & evs & Ht & Hf).
  repeat split; auto.
  exists evs. rewrite Ht. simp. rewrite <- app_assoc. auto.
Qed.

End Pipeline.

(** C1. What [_process_packet] does with one captured packet. The processed
    counter goes up by one in every case. With throttling enabled the
    throttled counter goes up by one and exactly one random value [u] is
    drawn; if [u] is below the drop rate the dropped counter goes up by one,
    the limiter is left untouched and the only outside calls are the draw and
    a debug line (nothing is sent, nothing sleeps); otherwise the limiter's
    [throttle] runs with the packet's length, right after the draw, then
    comes the sleep of the configured delay when [lag_delay_ms > 0], then the
    send of the packet, then nothing but status reporting. With throttling
    disabled neither the throttled nor the dropped counter moves, nothing is
    drawn, the limiter is left untouched, and the outside calls are the send
    of the packet followed by nothing but status reporting. *)
Theorem process_packet_pipeline (p : Packet) (st : NetworkThrottler.t) (w : World) :
  let r := NetworkThrottler._process_packet p st w in
  let stats := NetworkThrottler.statistics st in
  let stats' := NetworkThrottler.statistics (obj r) in
  let cfg := NetworkThrottler.config st in
  let u := rand w (draws w) in
  let thr := BandwidthLimiter.throttle (packet_len p)
               (NetworkThrottler.bandwidth_limiter st)
               (w_drawn (w_emit (EvRandom u) w)) in
  ThrottlingStatistics.processed_packets stats'
  = (ThrottlingStatistics.processed_packets stats + 1)%Z
  /\ if NetworkThrottler._throttling_enabled st then
       ThrottlingStatistics.throttled_packets stats'
       = (ThrottlingStatistics.throttled_packets stats + 1)%Z
       /\ draws (world r) = S (draws w)
       /\ if Qltb u (ThrottlingConfig.packet_drop_rate cfg) then
            ThrottlingStatistics.dropped_packets stats'
            = (ThrottlingStatistics.dropped_packets stats + 1)%Z
            /\ NetworkThrottler.bandwidth_limiter (obj r)
               = NetworkThrottler.bandwidth_limiter st
            /\ trace (world r)
               = trace w ++ [EvRandom u; EvLog DEBUG (MsgDroppedPacket (packet_len p))]
          else
            ThrottlingStatistics.dropped_packets stats'
            = ThrottlingStatistics.dropped_packets stats
            /\ NetworkThrottler.bandwidth_limiter (obj r) = obj thr
            /\ (exists limiter_evs,
                  trace (world thr) = trace w ++ [EvRandom u] ++ limiter_evs
                  /\ forallb is_limiter_event limiter_evs = true)
            /\ exists status_evs,
                 trace (world r)
                 = trace (world thr)
                   ++ (if (0 <? ThrottlingConfig.lag_delay_ms cfg)%Z
                       then [EvSleep (ThrottlingConfig.lag_delay_seconds cfg)]
                       else [])
                   ++ [EvSend p] ++ status_evs
                 /\ forallb is_report_event status_evs = true
     else
       ThrottlingStatistics.throttled_packets stats'
       = ThrottlingStatistics.throttled_packets stats
       /\ ThrottlingStatistics.dropped_packets stats'
          = ThrottlingStatistics.dropped_packets stats
       /\ draws (world r) = draws w
       /\ NetworkThrottler.bandwidth_limiter (obj r)
          = NetworkThrottler.bandwidth_limiter st
       /\ exists status_evs,
            trace (world r) = trace w ++ [EvSend p] ++ status_evs
            /\ forallb is_report_event status_evs = true.
Proof.
  cbv zeta.
  unfold NetworkThrottler._process_packet, NetworkThrottler.on_statistics,
    ThrottlingStatistics.increment_processed,
    ThrottlingStatistics.increment_throttled,
    ThrottlingStatistics.increment_dropped,
    NetworkThrottler._should_drop_packet, NetworkThrottler._apply_throttling,
    NetworkThrottler.on_limiter.
  run.
  destruct (NetworkThrottler._throttling_enabled st) eqn:En; simp.
  - destruct (Qltb (rand w (draws w))
                (ThrottlingConfig.packet_drop_rate (NetworkThrottler.config st))) eqn:Dr;
      simp.
    + rewrite <- app_assoc. repeat split.
    + pose proof (throttle_trace (packet_len p) (NetworkThrottler.bandwidth_limiter st)
                    (w_drawn (w_emit (EvRandom (rand w (draws w))) w))) as Ht.
      destruct (BandwidthLimiter.throttle (packet_len p)
                  (NetworkThrottler.bandwidth_limiter st)
                  (w_drawn (w_emit (EvRandom (rand w (draws w))) w)))
        as [x l1 w1].
      simp. cbn [world] in Ht. destruct Ht as (Hd1 & tev & Ht1 & Hf1).
      simp_in Ht1. simp_in Hd1.
      destruct (0 <? ThrottlingConfig.lag_delay_ms (NetworkThrottler.config st))%Z;
        simp;
        match goal with
        | |- context [NetworkThrottler.forward ?p ?b ?s ?w] =>
            destruct (forward_spec p b s w) as (Ho & Hd & evs & Ht2 & Hf2);
            destruct (NetworkThrottler.forward p b s w) as [v2 s2 w2]
        end; cbn [obj world] in *; subst s2; simp; simp_in Hd; simp_in Ht2;
        rewrite <- ?app_assoc in Ht1; rewrite <- ?app_assoc in Ht2;
        (repeat split;
         [ congruence
         | exists tev; split; [exact Ht1 | exact Hf1]
         | exists evs; split; [exact Ht2 | exact Hf2] ]).
  - match goal with
    | |- context [NetworkThrottler.forward ?p ?b ?s ?w] =>
        destruct (forward_spec p b s w) as (Ho & Hd & evs & Ht2 & Hf2);
        destruct (NetworkThrottler.forward p b s w) as [v2 s2 w2]
    end; cbn [obj world] in *; subst s2; simp.
    repeat split; auto. eexists; split; [exact Ht2 | exact Hf2].
Qed.

(** ** Counters and status reports *)

Section Counters.

Import NetworkThrottler ThrottlingConfig.

Lemma update_status_reports (b : bool) (st : NetworkThrottler.t) (w : World) :
  status_update_interval (config st) <> 0%Z ->
  (ThrottlingStatistics.processed_packets (statistics st)
   mod status_update_interval (config st) = 0)%Z ->
  trace (world (_update_status b st w))
  = trace w
    ++ [EvTime (clock w);
        EvPrint (MsgStatus b
                   (ThrottlingStatistics.processed_packets (statistics st))
                   (ThrottlingStatistics.throttled_packets (statistics st))
                   (ThrottlingStatistics.dropped_packets (statistics st))
                   (BandwidthLimiter.rate_kbps_at (clock w) (bandwidth_limiter st)))].
Proof.
  intros Hi Hm.
  unfold _update_status, on_limiter, BandwidthLimiter.get_current_rate_kbps. run.
  apply Z.eqb_neq in Hi. rewrite Hi. apply Z.eqb_eq in Hm. rewrite Hm.
  simp. rewrite <- app_assoc. reflexivity.
Qed.

(** The counters after one packet, whatever happens to it. *)
Lemma process_packet_statistics (p : Packet) (st : NetworkThrottler.t) (w : World) :
  let enabled := _throttling_enabled st in
  let dropped := enabled && Qltb (rand w (draws w)) (packet_drop_rate (config st)) in
  statistics (obj (_process_packet p st w))
  = {| ThrottlingStatistics.processed_packets :=
         ThrottlingStatistics.processed_packets (statistics st) + 1;
       ThrottlingStatistics.throttled_packets :=
         ThrottlingStatistics.throttled_packets (statistics st)
         + (if enabled then 1 else 0);
       ThrottlingStatistics.dropped_packets :=
         ThrottlingStatistics.dropped_packets (statistics st)
         + (if dropped then 1 else 0);
       ThrottlingStatistics.start_time :=
         ThrottlingStatistics.start_time (statistics st) |}
  /\ config (obj (_process_packet p st w)) = config st.
Proof.
  cbv zeta.
  unfold _process_packet, on_statistics, ThrottlingStatistics.increment_processed,
    ThrottlingStatistics.increment_throttled, ThrottlingStatistics.increment_dropped,
    _should_drop_packet, _apply_throttling, on_limiter.
  run.
  destruct (_throttling_enabled st) eqn:En; simp.
  - destruct (Qltb (rand w (draws w)) (packet_drop_rate (config st))) eqn:Dr; simp.
    + cbn [andb]; rewrite ?Z.add_0_r; split; reflexivity.
    + destruct (BandwidthLimiter.throttle (packet_len p) (bandwidth_limiter st)
                  (w_drawn (w_emit (EvRandom (rand w (draws w))) w))) as [x l1 w1].
      simp.
      destruct (0 <? lag_delay_ms (config st))%Z; simp;
        match goal with
        | |- context [forward ?p ?b ?s ?w] =>
            destruct (forward_spec p b s w) as (Ho & _);
            destruct (forward p b s w) as [v2 s2 w2]
        end; cbn [obj] in *; subst s2; simp; cbn [andb]; rewrite ?Z.add_0_r; split; reflexivity.
  - match goal with
    | |- context [forward ?p ?b ?s ?w] =>
        destruct (forward_spec p b s w) as (Ho & _);
        destruct (forward p b s w) as [v2 s2 w2]
    end; cbn [obj] in *; subst s2; simp; cbn [andb]; rewrite ?Z.add_0_r; split; reflexivity.
Qed.

Lemma toggle_statistics (st : NetworkThrottler.t) (w : World) :
  statistics (obj (toggle_throttling st w)) = statistics st.
Proof.
  unfold toggle_throttling. run. split_ifs; reflexivity.
Qed.

Lemma process_packet_step (p : Packet) (st : NetworkThrottler.t) (w : World) :
  counters_step (statistics st) (statistics (obj (_process_packet p st w))).
Proof.
  destruct (process_packet_statistics p st w) as [-> _].
  unfold counters_step; cbn.
  destruct (_throttling_enabled st); cbn;
    [destruct (Qltb _ _)|]; lia.
Qed.

Lemma run_loop_step (inputs : list Input) :
  forall (st : NetworkThrottler.t) (w : World),
    counters_step (statistics st) (statistics (obj (run_loop inputs st w))).
Proof.
  induction inputs as [|i rest IH]; intros st w.
  - cbn. unfold counters_step. lia.
  - destruct i as [p|]; cbn [run_loop]; unfold bind, get.
    + destruct (_shutdown_event st).
      * cbn. unfold counters_step. lia.
      * pose proof (process_packet_step p st w) as H1.
        destruct (_process_packet p st w) as [v st1 w1]. cbn [obj] in H1.
        destruct v as [u|e].
        -- specialize (IH st1 w1). unfold counters_step in *. lia.
        -- cbn. exact H1.
    + pose proof (toggle_statistics st w) as H1.
      destruct (toggle_throttling st w) as [v st1 w1]. cbn [obj] in H1.
      specialize (IH st1 w1). rewrite H1 in IH. exact IH.
Qed.

End Counters.

(** C10. From a fresh statistics object, after any sequence of packets (and
    of toggles between them) the counters satisfy
    [dropped_packets <= throttled_packets <= processed_packets]; and from any
    state, over any such sequence, no counter goes down, [dropped_packets]
    moves at most as far as [throttled_packets], and [throttled_packets] at
    most as far as [processed_packets]. *)
Theorem counters_ordered (st : NetworkThrottler.t)
  (inputs : list NetworkThrottler.Input) (w : World)
  (class_start_time : Q) :
  counters_ok
    (NetworkThrottler.statistics
       (obj (NetworkThrottler.run_loop inputs
               (NetworkThrottler.set_statistics
                  (ThrottlingStatistics.fresh class_start_time) st) w)))
  /\ let s := NetworkThrottler.statistics st in
     let s' := NetworkThrottler.statistics (obj (NetworkThrottler.run_loop inputs st w)) in
     (ThrottlingStatistics.dropped_packets s <= ThrottlingStatistics.dropped_packets s'
      /\ ThrottlingStatistics.throttled_packets s <= ThrottlingStatistics.throttled_packets s'
      /\ ThrottlingStatistics.processed_packets s <= ThrottlingStatistics.processed_packets s'
      /\ ThrottlingStatistics.dropped_packets s' - ThrottlingStatistics.dropped_packets s
         <= ThrottlingStatistics.throttled_packets s' - ThrottlingStatistics.throttled_packets s
      /\ ThrottlingStatistics.throttled_packets s' - ThrottlingStatistics.throttled_packets s
         <= ThrottlingStatistics.processed_packets s' - ThrottlingStatistics.processed_packets s)%Z.
Proof.
  split.
  - pose proof (run_loop_step inputs
                  (NetworkThrottler.set_statistics
                     (ThrottlingStatistics.fresh class_start_time) st) w) as H.
    unfold counters_step, counters_ok in *. cbn in H. lia.
  - cbv zeta. pose proof (run_loop_step inputs st w) as H.
    unfold counters_step in H. lia.
Qed.

Section StatusReports.

Import NetworkThrottler ThrottlingConfig.

Lemma forward_reports (p : Packet) (b : bool) (st : NetworkThrottler.t) (w : World) :
  status_update_interval (config st) <> 0%Z ->
  (ThrottlingStatistics.processed_packets (statistics st)
   mod status_update_interval (config st) = 0)%Z ->
  trace (world (forward p b st w))
  = trace w
    ++ [EvSend p; EvTime (clock w);
        EvPrint (MsgStatus b
                   (ThrottlingStatistics.processed_packets (statistics st))
                   (ThrottlingStatistics.throttled_packets (statistics st))
                   (ThrottlingStatistics.dropped_packets (statistics st))
                   (BandwidthLimiter.rate_kbps_at (clock w) (bandwidth_limiter st)))].
Proof.
  intros Hi Hm. unfold forward, bind, emit. cbn match beta.
  rewrite (update_status_reports b st _ Hi Hm). simp.
  rewrite <- app_assoc. reflexivity.
Qed.

(** A packet that is sent on while the processed counter reaches a multiple
    of the status interval is followed by a status line with the mode, the
    three counters and the limiter's rate at that moment. *)
Lemma forwarded_packet_reports_status (p : Packet) (st : NetworkThrottler.t) (w : World) :
  status_update_interval (config st) <> 0%Z ->
  ((ThrottlingStatistics.processed_packets (statistics st) + 1)
   mod status_update_interval (config st) = 0)%Z ->
  _throttling_enabled st && Qltb (rand w (draws w)) (packet_drop_rate (config st))
  = false ->
  let r := _process_packet p st w in
  exists pre now,
    trace (world r)
    = pre ++ [EvSend p; EvTime now;
              EvPrint (MsgStatus (_throttling_enabled st)
                         (ThrottlingStatistics.processed_packets (statistics (obj r)))
                         (ThrottlingStatistics.throttled_packets (statistics (obj r)))
                         (ThrottlingStatistics.dropped_packets (statistics (obj r)))
                         (BandwidthLimiter.rate_kbps_at now (bandwidth_limiter (obj r))))].
Proof.
  intros Hi Hm Hnd. cbv zeta.
  unfold _process_packet, on_statistics, ThrottlingStatistics.increment_processed,
    ThrottlingStatistics.increment_throttled, ThrottlingStatistics.increment_dropped,
    _should_drop_packet, _apply_throttling, on_limiter.
  run.
  destruct (_throttling_enabled st) eqn:En; simp.
  - cbn [andb] in Hnd. rewrite Hnd. simp.
    destruct (BandwidthLimiter.throttle (packet_len p) (bandwidth_limiter st)
                (w_drawn (w_emit (EvRandom (rand w (draws w))) w))) as [x l1 w1].
    simp.
    destruct (0 <? lag_delay_ms (config st))%Z; simp;
      match goal with
      | |- context [forward ?p ?b ?s ?w] =>
          pose proof (forward_reports p b s w Hi Hm) as Hf;
          destruct (forward_spec p b s w) as (Ho & _);
          destruct (forward p b s w) as [v2 s2 w2]
      end; cbn [obj world] in *; subst s2; simp; simp_in Hf;
      rewrite Hf; eexists; eexists; reflexivity.
  - match goal with
    | |- context [forward ?p ?b ?s ?w] =>
        pose proof (forward_reports p b s w Hi Hm) as Hf;
        destruct (forward_spec p b s w) as (Ho & _);
        destruct (forward p b s w) as [v2 s2 w2]
    end; cbn [obj world] in *; subst s2; simp; simp_in Hf;
    rewrite Hf; eexists; eexists; reflexivity.
Qed.

(** A dropped packet is followed by no status line, whatever the counters. *)
Lemma dropped_packet_trace (p : Packet) (st : NetworkThrottler.t) (w : World) :
  _throttling_enabled st = true ->
  Qltb (rand w (draws w)) (packet_drop_rate (config st)) = true ->
  trace (world (_process_packet p st w))
  = trace w ++ [EvRandom (rand w (draws w));
                EvLog DEBUG (MsgDroppedPacket (packet_len p))].
Proof.
  intros En Dr.
  unfold _process_packet, on_statistics, ThrottlingStatistics.increment_processed,
    ThrottlingStatistics.increment_throttled, ThrottlingStatistics.increment_dropped,
    _should_drop_packet.
  run. rewrite En. simp. rewrite Dr. simp. rewrite <- app_assoc. reflexivity.
Qed.

End StatusReports.

(** C6, at the input where it fails. Throttling is on, the drop rate is 1,
    the status interval is 100 and 99 packets have been processed. The next
    packet brings the processed counter to 100, an exact multiple of the
    interval, and is dropped: [_process_packet] returns before
    [_update_status], so no status line is printed (and nothing is sent). *)
Theorem dropped_packet_skips_status_report :
  let st := busy_throttler in
  let r := NetworkThrottler._process_packet example_packet st example_world in
  NetworkThrottler._throttling_enabled st = true
  /\ ThrottlingConfig._validate_settings (NetworkThrottler.config st) = true
  /\ ThrottlingStatistics.processed_packets (NetworkThrottler.statistics (obj r)) = 100%Z
  /\ (ThrottlingStatistics.processed_packets (NetworkThrottler.statistics (obj r))
      mod ThrottlingConfig.status_update_interval (NetworkThrottler.config st) = 0)%Z
  /\ ThrottlingStatistics.dropped_packets (NetworkThrottler.statistics (obj r)) = 41%Z
  /\ val r = Return tt
  /\ count is_status (trace (world r)) = 0%nat
  /\ count is_send (trace (world r)) = 0%nat.
Proof.
  vm_compute. repeat split.
Qed.

(** ** Shutdown *)

(** C7 as the specification states it fails on the throttler [__init__]
    builds: the second call logs a second final-statistics report. *)
Lemma shutdown_twice_reports_twice :
  ~ shutdown_idempotent example_throttler example_world.
Proof.
  unfold shutdown_idempotent. intros [_ H]. vm_compute in H. discriminate H.
Qed.

(** C7, amended. Invoked twice from outside the listener thread, [shutdown]
    leaves the state that one invocation leaves (shutdown flag set, key
    listener stopped, counters as they were), and each of the two invocations
    runs to its end and logs one final-statistics report: the second call
    adds a second report to the one of the first. *)
Theorem shutdown_state_idempotent (st : NetworkThrottler.t) (w : World) :
  let once := NetworkThrottler.shutdown KeyboardHandler.MainThread st w in
  let twice := NetworkThrottler.shutdown KeyboardHandler.MainThread
                 (obj once) (world once) in
  obj twice = obj once
  /\ val once = Return tt /\ val twice = Return tt
  /\ NetworkThrottler._shutdown_event (obj once) = true
  /\ KeyboardHandler._running (NetworkThrottler.keyboard_handler (obj once)) = false
  /\ NetworkThrottler.statistics (obj once) = NetworkThrottler.statistics st
  /\ count is_final_report (trace (world once))
     = S (count is_final_report (trace w))
  /\ count is_final_report (trace (world twice))
     = S (count is_final_report (trace (world once))).
Proof.
  cbv zeta.
  unfold NetworkThrottler.shutdown, NetworkThrottler.on_keyboard,
    NetworkThrottler.on_statistics, KeyboardHandler.stop,
    ThrottlingStatistics.log_final_stats, ThrottlingStatistics.get_stats.
  run.
  destruct st as [cfg bl stats kh en sd pid ports].
  destruct kh as [cbs running thread]. destruct stats as [pp tp dp t0].
  destruct thread as [th|]; simp; run; rewrite ?count_app; cbn;
    repeat split; lia.
Qed.

(** The exit key calls [shutdown] on the listener thread: once the listener
    is started the call stops at the join, with the flag set and nothing
    reported; the call [run] makes afterwards reports once. *)
Lemma shutdown_from_listener (st : NetworkThrottler.t) (w : World) (th : nat) :
  KeyboardHandler._thread (NetworkThrottler.keyboard_handler st) = Some th ->
  let first := NetworkThrottler.shutdown KeyboardHandler.ListenerThread st w in
  let second := NetworkThrottler.shutdown KeyboardHandler.MainThread
                  (obj first) (world first) in
  val first = Raise (RuntimeError "cannot join current thread")
  /\ NetworkThrottler._shutdown_event (obj first) = true
  /\ KeyboardHandler._running (NetworkThrottler.keyboard_handler (obj first)) = false
  /\ count is_final_report (trace (world first)) = count is_final_report (trace w)
  /\ val second = Return tt
  /\ count is_final_report (trace (world second))
     = S (count is_final_report (trace w)).
Proof.
  intros Hth. cbv zeta.
  unfold NetworkThrottler.shutdown, NetworkThrottler.on_keyboard,
    NetworkThrottler.on_statistics, KeyboardHandler.stop,
    ThrottlingStatistics.log_final_stats, ThrottlingStatistics.get_stats.
  run.
  destruct st as [cfg bl stats kh en sd pid ports].
  destruct kh as [cbs running thread]. destruct stats as [pp tp dp t0].
  cbn in Hth. subst thread. simp. run. rewrite ?count_app. cbn.
  repeat split; lia.
Qed.

(** ** Target resolution and capture filters *)

Section Startup.

Import NetworkThrottler ThrottlingConfig.

Lemma quiet_refl (w : World) : quiet_step w w.
Proof.
  repeat split. exists []. rewrite app_nil_r. auto.
Qed.

Lemma opens_of_app (a b : list Event) : opens_of (a ++ b) = opens_of a ++ opens_of b.
Proof.
  induction a as [|e a IH]; [reflexivity|].
  destruct e; cbn; rewrite IH; reflexivity.
Qed.

Lemma quiet_trans (w1 w2 w3 : World) :
  quiet_step w1 w2 -> quiet_step w2 w3 -> quiet_step w1 w3.
Proof.
  intros (Hd & Ho & Hn & e1 & Ht & He) (Hd' & Ho' & Hn' & e2 & Ht' & He').
  repeat split; try congruence.
  exists (e1 ++ e2). rewrite Ht', Ht, app_assoc, opens_of_app, He, He'. auto.
Qed.

Lemma quiet_emit (e : Event) (w : World) :
  opens_of [e] = [] -> quiet_step w (w_emit e w).
Proof.
  intros He. repeat split. exists [e]. auto.
Qed.

Lemma find_loop_quiet {S} (name : string) (procs : list ProcEntry) (s : S) (w : World) :
  obj (ProcessManager.find_loop name procs s w) = s
  /\ quiet_step w (world (ProcessManager.find_loop name procs s w)).
Proof.
  induction procs as [|e rest IH].
  - cbn. split; [reflexivity | apply quiet_refl].
  - destruct e as [pid [pname|] | |]; cbn [ProcessManager.find_loop]; auto.
    + unfold bind, lower.
      destruct (contains (str_lower w name) (str_lower w pname)); auto.
      run. split; [reflexivity | apply quiet_emit; reflexivity].
    + cbn. split; [reflexivity | apply quiet_refl].
Qed.

Lemma find_process_quiet {S} (name : string) (s : S) (w : World) :
  obj (ProcessManager.find_process_by_name name s w) = s
  /\ quiet_step w (world (ProcessManager.find_process_by_name name s w)).
Proof.
  unfold ProcessManager.find_process_by_name. run.
  match goal with
  | |- context [ProcessManager.find_loop ?n ?ps ?s0 ?w0] =>
      destruct (find_loop_quiet n ps s0 w0) as [Ho Hq];
      destruct (ProcessManager.find_loop n ps s0 w0) as [v s1 w1]
  end.
  cbn [obj world] in *. subst s1.
  assert (Hq0 : quiet_step w w1).
  { eapply quiet_trans; [|exact Hq]. apply quiet_emit; reflexivity. }
  destruct v as [pid|e]; run.
  - split; [reflexivity | exact Hq0].
  - split; [reflexivity|].
    eapply quiet_trans; [exact Hq0 | apply quiet_emit; reflexivity].
Qed.

(** [get_process_ports] on a process that has vanished or denies access. *)
Lemma get_process_ports_degrades {S} (pid : Z) (s : S) (w : World) :
  net_connections w pid = PsNoSuchProcess \/ net_connections w pid = PsAccessDenied ->
  val (ProcessManager.get_process_ports pid s w) = Return []
  /\ obj (ProcessManager.get_process_ports pid s w) = s
  /\ quiet_step w (world (ProcessManager.get_process_ports pid s w)).
Proof.
  intros H. unfold ProcessManager.get_process_ports, ProcessManager.psutil_net_connections.
  unfold quiet_step. run.
  destruct H as [-> | ->]; run; rewrite <- app_assoc;
    repeat split; eexists; split; reflexivity.
Qed.

Lemma initialize_degrades (st : NetworkThrottler.t) (w : World) (pid : Z) :
  val (ProcessManager.find_process_by_name
         (process_name_substring (config st)) st w) = Return pid ->
  net_connections w pid = PsNoSuchProcess \/ net_connections w pid = PsAccessDenied ->
  let r := _initialize_target_process st w in
  val r = Return tt
  /\ _target_ports (obj r) = []
  /\ config (obj r) = config st
  /\ quiet_step w (world r).
Proof.
  intros Hfind Hfail. cbv zeta. unfold _initialize_target_process. run.
  destruct (find_process_quiet (process_name_substring (config st)) st w) as [Ho Hq].
  destruct (ProcessManager.find_process_by_name
              (process_name_substring (config st)) st w) as [v s1 w1].
  cbn [val obj world] in *. subst v s1. simp.
  match goal with
  | |- context [ProcessManager.get_process_ports ?p ?s0 ?w0] =>
      destruct (get_process_ports_degrades p s0 w0) as (Hv & Ho & Hq');
      [ simp; destruct Hq as (_ & _ & Hn & _); rewrite Hn; exact Hfail |];
      destruct (ProcessManager.get_process_ports p s0 w0) as [v2 s2 w2]
  end.
  cbn [val obj world] in *. subst v2 s2. simp.
  split; [reflexivity | split; [reflexivity | split; [reflexivity|]]].
  eapply quiet_trans; [exact Hq|].
  eapply quiet_trans; [|apply quiet_emit; reflexivity].
  eapply quiet_trans; [|exact Hq']. apply quiet_emit; reflexivity.
Qed.

Lemma setup_keyboard_quiet (st : NetworkThrottler.t) (w : World) :
  _target_ports (obj (_setup_keyboard_handler st w)) = _target_ports st
  /\ config (obj (_setup_keyboard_handler st w)) = config st
  /\ quiet_step w (world (_setup_keyboard_handler st w)).
Proof.
  unfold _setup_keyboard_handler, on_keyboard, KeyboardHandler.register_callback,
    KeyboardHandler.start, quiet_step.
  run. rewrite <- !app_assoc. repeat split. eexists. split; reflexivity.
Qed.

Lemma capture_with_no_ports (st : NetworkThrottler.t) (w : World) :
  _target_ports st = [] ->
  let r := _packet_capture_context st w in
  let rf := range_filter (port_range_start (config st)) (port_range_end (config st)) in
  (exists rest, opens_of (trace (world r)) = opens_of (trace w) ++ rf :: rest)
  /\ val r = match driver w (opens w) rf with
             | Opened h => Return h
             | OpenFailed msg =>
                 match driver w (S (opens w)) basic_filter with
                 | Opened h => Return h
                 | OpenFailed _ => Raise (Exception msg)
                 end
             end
  /\ obj r = st.
Proof.
  intros Hp. cbv zeta. unfold _packet_capture_context, try_basic, filter_str.
  run. rewrite !Hp. cbn [truthy andb].
  destruct (driver w (opens w) _) as [h|msg]; run.
  - rewrite !opens_of_app. cbn. rewrite app_nil_r.
    split; [eexists; reflexivity | split; reflexivity].
  - destruct (driver w (S (opens w)) basic_filter) as [h|e3]; run;
      rewrite !opens_of_app; cbn; rewrite ?app_nil_r, <- ?app_assoc;
      (split; [eexists; reflexivity | split; reflexivity]).
Qed.

End Startup.

(** C8. When the process table answers "no such process" or "access denied"
    for a process id, [get_process_ports] returns the empty set and raises
    nothing; when that process is the target, the start of [run] goes on: no
    port is targeted,
    the first filter handed to the capture driver is the range filter over
    the configured port range, and whether capture starts depends on the
    driver alone. *)
Theorem port_enumeration_failure_is_not_fatal
  (st : NetworkThrottler.t) (w : World) (pid : Z)
  (Hfail : net_connections w pid = PsNoSuchProcess
           \/ net_connections w pid = PsAccessDenied) :
  val (ProcessManager.get_process_ports pid st w) = Return []
  /\ (val (ProcessManager.find_process_by_name
             (ThrottlingConfig.process_name_substring (NetworkThrottler.config st))
             st w) = Return pid ->
     let r := NetworkThrottler.run_startup st w in
     let rf := NetworkThrottler.range_filter
                 (ThrottlingConfig.port_range_start (NetworkThrottler.config st))
                 (ThrottlingConfig.port_range_end (NetworkThrottler.config st)) in
     NetworkThrottler._target_ports (obj r) = []
     /\ (exists rest, opens_of (trace (world r)) = opens_of (trace w) ++ rf :: rest)
     /\ val r = match driver w (opens w) rf with
                | Opened h => Return h
                | OpenFailed msg =>
                    match driver w (S (opens w)) NetworkThrottler.basic_filter with
                    | Opened h => Return h
                    | OpenFailed _ => Raise (Exception msg)
                    end
                end).
Proof.
  split; [apply get_process_ports_degrades; exact Hfail|].
  intros Hfind. cbv zeta. remember (NetworkThrottler.run_startup st w) as r eqn:Hr.
  unfold NetworkThrottler.run_startup, bind in Hr.
  destruct (initialize_degrades st w pid Hfind Hfail) as (Hv & Hp & Hc & Hq).
  destruct (NetworkThrottler._initialize_target_process st w) as [v s1 w1].
  cbn [val obj world] in *. subst v.
  destruct (setup_keyboard_quiet s1 w1) as (Hp2 & Hc2 & Hq2).
  destruct (NetworkThrottler._setup_keyboard_handler s1 w1) as [v2 s2 w2].
  cbn [val obj world] in *. unfold get, print, emit in Hr.
  rewrite Hp in Hp2. rewrite Hc in Hc2.
  match type of Hr with
  | _ = NetworkThrottler._packet_capture_context ?s0 ?w0 =>
      assert (Hq3 : quiet_step w w0);
      [ eapply quiet_trans; [exact Hq|];
        eapply quiet_trans; [exact Hq2|];
        eapply quiet_trans; [|apply quiet_emit; reflexivity];
        apply quiet_emit; reflexivity
      | generalize dependent w0 ]
  end.
  intros wx Hr Hq3. subst r.
  destruct (capture_with_no_ports s2 wx Hp2) as ((rest & Ho) & Hval & Hobj).
  destruct (NetworkThrottler._packet_capture_context s2 wx) as [v3 s3 w3].
  cbn [val obj world] in *. subst s3.
  destruct Hq3 as (Hd & Hop & _ & evs & Ht & He).
  rewrite Hd, Hop, Hc2 in Hval. rewrite Hc2 in Ho.
  split; [exact Hp2|]. split; [|exact Hval].
  exists rest. rewrite Ho, Ht, opens_of_app, He, app_nil_r. reflexivity.
Qed.

Lemma port_enumeration_failure_is_not_fatal_witness :
  val (ProcessManager.find_process_by_name "game" example_throttler denied_world)
  = Return 4242%Z
  /\ net_connections denied_world 4242%Z = PsAccessDenied
  /\ val (ProcessManager.get_process_ports 4242%Z example_throttler denied_world)
     = Return []
  /\ val (NetworkThrottler.run_startup example_throttler denied_world) = Return 7%nat.
Proof.
  assert (Hfind : val (ProcessManager.find_process_by_name
                         (ThrottlingConfig.process_name_substring
                            (NetworkThrottler.config example_throttler))
                         example_throttler denied_world) = Return 4242%Z)
    by (vm_compute; reflexivity).
  assert (Hfail : net_connections denied_world 4242%Z = PsNoSuchProcess
                  \/ net_connections denied_world 4242%Z = PsAccessDenied)
    by (right; reflexivity).
  destruct (port_enumeration_failure_is_not_fatal
              example_throttler denied_world 4242%Z Hfail)
    as (Hports & Hrun).
  destruct (Hrun Hfind) as (_ & _ & Hval).
  split; [exact Hfind|]. split; [reflexivity|]. split; [exact Hports|].
  exact Hval.
Defined.

(** ** The filter policy *)

Lemma port_filter_not_range (ports : list Z) (a b : Z) :
  ports <> [] -> NetworkThrottler.port_filter ports <> NetworkThrottler.range_filter a b.
Proof.
  intros Hne. destruct ports as [|p rest]; [congruence|].
  unfold NetworkThrottler.port_filter, NetworkThrottler.range_filter,
    NetworkThrottler.port_clause.
  destruct rest; cbn; discriminate.
Qed.

(** C4. A port set with at least one and at most 20 ports gives the precise
    filter: [(tcp or udp) and (...)], where the dots are, for each port of
    the set, the four tests that the TCP source port, the TCP destination
    port, the UDP source port or the UDP destination port equals it, all
    joined by [or]. An empty set, or one with more than 20 ports, gives the
    range filter: TCP or UDP with the destination port between the
    configured start and end. The two filters are never the same text. *)
Theorem filter_by_port_count (st : NetworkThrottler.t) :
  let ports := NetworkThrottler._target_ports st in
  let cfg := NetworkThrottler.config st in
  let start := str_of_Z (ThrottlingConfig.port_range_start cfg) in
  let end_ := str_of_Z (ThrottlingConfig.port_range_end cfg) in
  let one_port :=
    fun p : Z =>
      ("tcp.SrcPort == " ++ str_of_Z p ++ " or tcp.DstPort == " ++ str_of_Z p
       ++ " or udp.SrcPort == " ++ str_of_Z p
       ++ " or udp.DstPort == " ++ str_of_Z p)%string in
  let precise :=
    ("(tcp or udp) and (" ++ String.concat " or " (map one_port ports) ++ ")")%string in
  let range :=
    ("(tcp or udp) and ((tcp.DstPort >= " ++ start ++ " and tcp.DstPort <= " ++ end_
     ++ ") or (udp.DstPort >= " ++ start ++ " and udp.DstPort <= " ++ end_
     ++ "))")%string in
  ((1 <= List.length ports <= 20)%nat -> NetworkThrottler.filter_str st = precise)
  /\ ((List.length ports = 0 \/ 20 < List.length ports)%nat ->
        NetworkThrottler.filter_str st = range)
  /\ (ports <> [] -> precise <> range).
Proof.
  cbv zeta. unfold NetworkThrottler.filter_str, NetworkThrottler.MAX_LISTED_PORTS.
  split; [|split].
  - intros [H1 H2].
    destruct (NetworkThrottler._target_ports st) as [|p rest] eqn:E; [cbn in H1; lia|].
    cbn [NetworkThrottler.truthy andb].
    destruct (Z.leb_spec (Z.of_nat (List.length (p :: rest))) 20); [reflexivity | lia].
  - intros [H | H].
    + destruct (NetworkThrottler._target_ports st); [reflexivity | discriminate H].
    + destruct (Z.leb_spec (Z.of_nat (List.length (NetworkThrottler._target_ports st))) 20);
        [lia|]. rewrite andb_false_r. reflexivity.
  - apply port_filter_not_range.
Qed.

Lemma filter_by_port_count_witness :
  NetworkThrottler.filter_str
    (NetworkThrottler.set_target_ports [443; 50007]%Z example_throttler)
  = ("(tcp or udp) and ("
     ++ "tcp.SrcPort == 443 or tcp.DstPort == 443"
     ++ " or udp.SrcPort == 443 or udp.DstPort == 443"
     ++ " or tcp.SrcPort == 50007 or tcp.DstPort == 50007"
     ++ " or udp.SrcPort == 50007 or udp.DstPort == 50007"
     ++ ")")%string
  /\ NetworkThrottler.filter_str
       (NetworkThrottler.set_target_ports (some_ports 20) example_throttler)
     = ("(tcp or udp) and ("
        ++ String.concat " or "
             (map (fun p : Z =>
                   ("tcp.SrcPort == " ++ str_of_Z p ++ " or tcp.DstPort == " ++ str_of_Z p
                    ++ " or udp.SrcPort == " ++ str_of_Z p
                    ++ " or udp.DstPort == " ++ str_of_Z p)%string)
                (some_ports 20))
        ++ ")")%string
  /\ NetworkThrottler.filter_str
       (NetworkThrottler.set_target_ports (some_ports 21) example_throttler)
     = ("(tcp or udp) and ((tcp.DstPort >= 49000 and tcp.DstPort <= 65000)"
        ++ " or (udp.DstPort >= 49000 and udp.DstPort <= 65000))")%string
  /\ NetworkThrottler.filter_str example_throttler
     = ("(tcp or udp) and ((tcp.DstPort >= 49000 and tcp.DstPort <= 65000)"
        ++ " or (udp.DstPort >= 49000 and udp.DstPort <= 65000))")%string.
Proof.
  split; [|split; [|split]].
  - rewrite (proj1 (filter_by_port_count
                      (NetworkThrottler.set_target_ports [443; 50007]%Z
                         example_throttler))); [vm_compute; reflexivity|].
    cbn. lia.
  - apply (proj1 (filter_by_port_count
                    (NetworkThrottler.set_target_ports (some_ports 20) example_throttler))).
    cbn. lia.
  - rewrite (proj1 (proj2 (filter_by_port_count
                      (NetworkThrottler.set_target_ports (some_ports 21)
                         example_throttler)))); [vm_compute; reflexivity|].
    right. cbn. lia.
  - rewrite (proj1 (proj2 (filter_by_port_count example_throttler)));
      [vm_compute; reflexivity|].
    left. reflexivity.
Defined.

(** ** The escalation ladder *)

(** C3. When the open with the precise per-port filter fails with a message
    that says the parameter is incorrect, the next open is with the same
    kind of filter over the first 5 ports of the set (all of them when there
    are fewer): for each of these ports, and for no other, the four tests on
    the TCP and UDP source and destination port. If that open fails too, the
    next one is with [tcp or udp]; capture starts with the first open that
    succeeds, and only when the third fails as well is the first error
    raised. No other open is made. *)
Theorem capture_escalation (st : NetworkThrottler.t) (w : World) (msg : string)
  (Hne : NetworkThrottler._target_ports st <> [])
  (Hle : (List.length (NetworkThrottler._target_ports st) <= 20)%nat)
  (Hfail : driver w (opens w) (NetworkThrottler.filter_str st) = OpenFailed msg)
  (Hsig : contains "parameter is incorrect" msg = true) :
  let ports := NetworkThrottler._target_ports st in
  let r := NetworkThrottler._packet_capture_context st w in
  let one_port :=
    fun p : Z =>
      ("tcp.SrcPort == " ++ str_of_Z p ++ " or tcp.DstPort == " ++ str_of_Z p
       ++ " or udp.SrcPort == " ++ str_of_Z p
       ++ " or udp.DstPort == " ++ str_of_Z p)%string in
  let per_port := fun ps : list Z =>
    ("(tcp or udp) and (" ++ String.concat " or " (map one_port ps) ++ ")")%string in
  let precise := per_port ports in
  let limited := firstn 5 ports in
  let simple := per_port limited in
  let basic := "tcp or udp"%string in
  NetworkThrottler.filter_str st = precise
  /\ (List.length limited <= 5)%nat
  /\ (exists rest, ports = limited ++ rest)
  /\ match driver w (S (opens w)) simple with
     | Opened h =>
         val r = Return h
         /\ opens_of (trace (world r)) = opens_of (trace w) ++ [precise; simple]
     | OpenFailed _ =>
         opens_of (trace (world r)) = opens_of (trace w) ++ [precise; simple; basic]
         /\ match driver w (S (S (opens w))) basic with
            | Opened h => val r = Return h
            | OpenFailed _ => val r = Raise (Exception msg)
            end
     end.
Proof.
  cbv zeta.
  assert (Hf : NetworkThrottler.filter_str st
               = NetworkThrottler.port_filter (NetworkThrottler._target_ports st)).
  { unfold NetworkThrottler.filter_str, NetworkThrottler.MAX_LISTED_PORTS.
    destruct (NetworkThrottler._target_ports st) as [|p rest] eqn:E; [congruence|].
    cbn [NetworkThrottler.truthy andb].
    destruct (Z.leb_spec (Z.of_nat (List.length (p :: rest))) 20); [reflexivity | lia]. }
  split; [exact Hf|].
  split; [apply firstn_le_length|].
  split; [exists (skipn 5 (NetworkThrottler._target_ports st));
          symmetry; apply firstn_skipn|].
  change (("(tcp or udp) and ("
           ++ String.concat " or "
                (map (fun p : Z =>
                        "tcp.SrcPort == " ++ str_of_Z p ++ " or tcp.DstPort == "
                        ++ str_of_Z p ++ " or udp.SrcPort == " ++ str_of_Z p
                        ++ " or udp.DstPort == " ++ str_of_Z p)
                   (firstn 5 (NetworkThrottler._target_ports st))) ++ ")")%string)
    with (NetworkThrottler.port_filter (firstn 5 (NetworkThrottler._target_ports st))).
  change (("(tcp or udp) and ("
           ++ String.concat " or "
                (map (fun p : Z =>
                        "tcp.SrcPort == " ++ str_of_Z p ++ " or tcp.DstPort == "
                        ++ str_of_Z p ++ " or udp.SrcPort == " ++ str_of_Z p
                        ++ " or udp.DstPort == " ++ str_of_Z p)
                   (NetworkThrottler._target_ports st)) ++ ")")%string)
    with (NetworkThrottler.port_filter (NetworkThrottler._target_ports st)).
  change "tcp or udp"%string with NetworkThrottler.basic_filter.
  unfold NetworkThrottler._packet_capture_context, NetworkThrottler.try_basic.
  run. rewrite Hfail. rewrite Hf. run.
  destruct (NetworkThrottler._target_ports st) as [|p rest] eqn:E; [congruence|].
  cbn [NetworkThrottler.truthy andb].
  rewrite Hsig. run.
  destruct (driver w (S (opens w)) _) as [h|e2]; run.
  - rewrite !opens_of_app. cbn. rewrite app_nil_r, <- !app_assoc. split; reflexivity.
  - destruct (driver w (S (S (opens w))) NetworkThrottler.basic_filter) as [h|e3]; run;
      rewrite !opens_of_app; cbn; rewrite ?app_nil_r, <- !app_assoc;
      split; reflexivity.
Qed.

Lemma capture_escalation_witness :
  let st := NetworkThrottler.set_target_ports (some_ports 6) example_throttler in
  let r := NetworkThrottler._packet_capture_context st picky_world in
  val r = Return 7%nat
  /\ opens_of (trace (world r))
     = [("(tcp or udp) and ("
         ++ "tcp.SrcPort == 50000 or tcp.DstPort == 50000"
         ++ " or udp.SrcPort == 50000 or udp.DstPort == 50000"
         ++ " or tcp.SrcPort == 50001 or tcp.DstPort == 50001"
         ++ " or udp.SrcPort == 50001 or udp.DstPort == 50001"
         ++ " or tcp.SrcPort == 50002 or tcp.DstPort == 50002"
         ++ " or udp.SrcPort == 50002 or udp.DstPort == 50002"
         ++ " or tcp.SrcPort == 50003 or tcp.DstPort == 50003"
         ++ " or udp.SrcPort == 50003 or udp.DstPort == 50003"
         ++ " or tcp.SrcPort == 50004 or tcp.DstPort == 50004"
         ++ " or udp.SrcPort == 50004 or udp.DstPort == 50004"
         ++ " or tcp.SrcPort == 50005 or tcp.DstPort == 50005"
         ++ " or udp.SrcPort == 50005 or udp.DstPort == 50005"
         ++ ")")%string;
        ("(tcp or udp) and ("
         ++ "tcp.SrcPort == 50000 or tcp.DstPort == 50000"
         ++ " or udp.SrcPort == 50000 or udp.DstPort == 50000"
         ++ " or tcp.SrcPort == 50001 or tcp.DstPort == 50001"
         ++ " or udp.SrcPort == 50001 or udp.DstPort == 50001"
         ++ " or tcp.SrcPort == 50002 or tcp.DstPort == 50002"
         ++ " or udp.SrcPort == 50002 or udp.DstPort == 50002"
         ++ " or tcp.SrcPort == 50003 or tcp.DstPort == 50003"
         ++ " or udp.SrcPort == 50003 or udp.DstPort == 50003"
         ++ " or tcp.SrcPort == 50004 or tcp.DstPort == 50004"
         ++ " or udp.SrcPort == 50004 or udp.DstPort == 50004"
         ++ ")")%string;
        "tcp or udp"%string].
Proof.
  cbv zeta.
  pose proof (capture_escalation
                (NetworkThrottler.set_target_ports (some_ports 6) example_throttler)
                picky_world "[WinError 87] The parameter is incorrect") as H.
  cbv zeta in H.
  assert (Hne : NetworkThrottler._target_ports
                  (NetworkThrottler.set_target_ports (some_ports 6) example_throttler)
                <> []) by (cbn; discriminate).
  assert (Hle : (List.length
                   (NetworkThrottler._target_ports
                      (NetworkThrottler.set_target_ports (some_ports 6) example_throttler))
                 <= 20)%nat) by (cbn; lia).
  specialize (H Hne Hle eq_refl eq_refl).
  destruct H as (_ & _ & _ & H).
  match type of H with
  | match ?d with _ => _ end =>
      change d with (OpenFailed "[WinError 87] The parameter is incorrect") in H
  end.
  destruct H as [Ho Hv].
  match type of Hv with
  | match ?d with _ => _ end => change d with (Opened 7) in Hv
  end.
  split; [exact Hv|]. rewrite Ho. vm_compute. reflexivity.
Defined.

(** * Further properties *)

Ltac qh :=
  repeat match goal with
         | H : Qltb _ _ = true |- _ => apply Qltb_true in H
         | H : Qltb _ _ = false |- _ => apply Qltb_false in H
         | H : Qle_bool _ _ = true |- _ => apply Qle_bool_iff in H
         | H : Qle_bool _ _ = false |- _ => apply Qle_bool_false in H
         end.

(** ** The limiter under every operation *)

Section LimiterBounds.

Import BandwidthLimiter.

Lemma refilled_nonneg (bucket tok el rate : Q) :
  0 <= bucket -> 0 <= tok -> 0 < el -> 0 <= rate ->
  0 <= py_min bucket (tok + el * rate).
Proof.
  intros Hb Ht He Hr.
  pose proof (Qmult_le_0_compat _ _ (Qlt_le_weak _ _ He) Hr).
  unfold py_min. destruct (Qltb _ _); lra.
Qed.

Lemma run_any_bounded (o : AnyOp) (self : t) (w : World) :
  sane_op o -> bounded self -> bounded (obj (run_any o self w)).
Proof.
  unfold bounded. intros Ho (H0 & Ht & Hb & Hm & Hs).
  pose proof py_min_le_l as Hmin.
  destruct o as [[s | s | | |] | n]; cbn [run_any run_op sane_op] in *;
    unfold throttle, can_send, get_current_rate_mbps, get_current_rate_kbps,
      reset, update_rate_limit, _refill_tokens, _reset_window_if_needed; run;
    split_ifs; qh; repeat split; auto; try lra; try lia;
    apply refilled_nonneg; auto; lra.
Qed.

Lemma run_anys_bounded (ops : list AnyOp) :
  Forall sane_op ops -> forall (self : t) (w : World),
  bounded self -> bounded (obj (run_anys ops self w)).
Proof.
  induction 1 as [|o rest Ho Hrest IH]; intros self w Hb; [exact Hb|].
  cbn [run_anys]. unfold bind.
  pose proof (run_any_bounded o self w Ho Hb) as H1.
  destruct (run_any o self w) as [u s1 w1]. apply IH. exact H1.
Qed.

End LimiterBounds.

(** X1. A limiter built with a rate that is not negative keeps, through every
    sequence of its operations ([update_rate_limit] with rates that are not
    negative and [throttle] with sizes that are not negative among them) and
    whatever the clock does: [0 <= tokens <= bucket_size], [bucket_size]
    equal to [max_bytes_per_second], and [bytes_sent >= 0]. *)
Theorem limiter_stays_bounded (cap wsize : Q) (ops : list AnyOp) (w : World)
  (Hcap : 0 <= cap) (Hops : Forall sane_op ops) :
  let r := BandwidthLimiter.__init__ cap wsize tt w in
  let self := obj (run_anys ops (val r) (world r)) in
  0 <= BandwidthLimiter.tokens self
  /\ BandwidthLimiter.tokens self <= BandwidthLimiter.bucket_size self
  /\ BandwidthLimiter.bucket_size self = BandwidthLimiter.max_bytes_per_second self
  /\ 0 <= BandwidthLimiter.max_bytes_per_second self
  /\ (0 <= BandwidthLimiter.bytes_sent self)%Z.
Proof.
  cbv zeta. apply (run_anys_bounded ops Hops).
  unfold bounded, BandwidthLimiter.__init__. run. repeat split; auto; try lra; lia.
Qed.

Lemma limiter_stays_bounded_witness :
  let ops := [Plain (OpThrottle 600); Update 400; Plain (OpCanSend 500);
              Plain (OpThrottle 500); Plain OpReset] in
  let r := BandwidthLimiter.__init__ 1000 1 tt race_world in
  BandwidthLimiter.tokens (obj (run_anys ops (val r) (world r)))
  <= BandwidthLimiter.bucket_size (obj (run_anys ops (val r) (world r))).
Proof.
  cbv zeta.
  assert (Hcap : 0 <= 1000) by (vm_compute; discriminate).
  assert (Hops : Forall sane_op
                   [Plain (OpThrottle 600); Update 400; Plain (OpCanSend 500);
                    Plain (OpThrottle 500); Plain OpReset]).
  { repeat constructor; cbn; try lia. vm_compute; discriminate. }
  apply (limiter_stays_bounded 1000 1 _ race_world Hcap Hops).
Defined.

(** X2. With a clock that does not go back, one call of [throttle] sleeps at
    most once, and then for more than nothing and at most one window; the
    window never starts after the clock. *)
Theorem throttle_sleeps_at_most_a_window
  (s : Z) (self : BandwidthLimiter.t) (w : World)
  (Hmono : monotone_clock w)
  (Hstart : BandwidthLimiter.window_start self <= clock w) :
  let r := BandwidthLimiter.throttle s self w in
  exists evs,
    trace (world r) = trace w ++ evs
    /\ (List.length (sleeps_of evs) <= 1)%nat
    /\ (forall d, In d (sleeps_of evs) ->
          0 < d /\ d <= BandwidthLimiter.window_size self)
    /\ BandwidthLimiter.window_start (obj r) <= clock (world r)
    /\ monotone_clock (world r).
Proof.
  cbv zeta. unfold monotone_clock in *.
  pose proof (Hmono (reads w)). pose proof (Hmono (S (reads w))).
  pose proof (Hmono (S (S (reads w)))). pose proof (Hmono (S (S (S (reads w))))).
  unfold BandwidthLimiter.throttle, BandwidthLimiter._refill_tokens,
    BandwidthLimiter._reset_window_if_needed. run.
  split_ifs; qh; rewrite <- ?app_assoc; eexists;
    (split; [reflexivity|]); cbn [sleeps_of app List.length In];
    (split; [lia|]);
    (split; [intros d Hd; try contradiction; destruct Hd as [<- | []]; lra|]);
    (split; [lra | exact Hmono]).
Qed.

Lemma throttle_sleeps_at_most_a_window_witness :
  let r := BandwidthLimiter.__init__ 1000 1 tt race_world in
  exists evs,
    trace (world (BandwidthLimiter.throttle 1200 (val r) (world r)))
    = trace (world r) ++ evs
    /\ (List.length (sleeps_of evs) <= 1)%nat.
Proof.
  cbv zeta.
  assert (Hmono : monotone_clock (world (BandwidthLimiter.__init__ 1000 1 tt race_world))).
  { intros k. do 6 (destruct k as [|k]; [vm_compute; discriminate|]).
    vm_compute; discriminate. }
  assert (Hstart : BandwidthLimiter.window_start
                     (val (BandwidthLimiter.__init__ 1000 1 tt race_world))
                   <= clock (world (BandwidthLimiter.__init__ 1000 1 tt race_world)))
    by (vm_compute; discriminate).
  destruct (throttle_sleeps_at_most_a_window 1200 _ _ Hmono Hstart)
    as (evs & Ht & Hl & _).
  exists evs. split; [exact Ht | exact Hl].
Defined.

(** ** Sleeps, resets and rates *)

Lemma sleeps_of_app (a b : list Event) : sleeps_of (a ++ b) = sleeps_of a ++ sleeps_of b.
Proof.
  induction a as [|e a IH]; [reflexivity|].
  destruct e; cbn; rewrite IH; reflexivity.
Qed.

Lemma fits_no_sleep (s : Z) (self : BandwidthLimiter.t) (w : World) :
  (0 <= BandwidthLimiter.bytes_sent self)%Z -> (0 <= s)%Z ->
  inject_Z (BandwidthLimiter.bytes_sent self + s)
  <= BandwidthLimiter.max_bytes_per_second self ->
  let r := BandwidthLimiter.throttle s self w in
  sleeps_of (trace (world r)) = sleeps_of (trace w)
  /\ reads (world r) = S (S (reads w))
  /\ clock (world r) = clock w + lag w (reads w) + lag w (S (reads w))
  /\ inject_Z (BandwidthLimiter.bytes_sent (obj r))
     <= BandwidthLimiter.max_bytes_per_second self.
Proof.
  intros Hb Hs Hfit. cbv zeta.
  assert (Hs' : inject_Z (0 + s) <= BandwidthLimiter.max_bytes_per_second self).
  { eapply Qle_trans; [|exact Hfit]. rewrite <- Zle_Qle. lia. }
  unfold BandwidthLimiter.throttle, BandwidthLimiter._refill_tokens,
    BandwidthLimiter._reset_window_if_needed. run.
  split_ifs; qh; try lra; rewrite ?sleeps_of_app; cbn [sleeps_of];
    rewrite ?app_nil_r; repeat split; auto.
Qed.

(** X3. A packet that fits in what is left of the window is never delayed:
    [throttle] reads the clock twice, does not sleep, and leaves the window
    within the limit. *)
Theorem packet_that_fits_is_not_delayed
  (s : Z) (self : BandwidthLimiter.t) (w : World)
  (Hsent : (0 <= BandwidthLimiter.bytes_sent self)%Z) (Hs : (0 <= s)%Z)
  (Hfit : inject_Z (BandwidthLimiter.bytes_sent self + s)
          <= BandwidthLimiter.max_bytes_per_second self) :
  let r := BandwidthLimiter.throttle s self w in
  sleeps_of (trace (world r)) = sleeps_of (trace w)
  /\ reads (world r) = S (S (reads w))
  /\ clock (world r) = clock w + lag w (reads w) + lag w (S (reads w))
  /\ inject_Z (BandwidthLimiter.bytes_sent (obj r))
     <= BandwidthLimiter.max_bytes_per_second self.
Proof.
  exact (fits_no_sleep s self w Hsent Hs Hfit).
Qed.

Lemma packet_that_fits_is_not_delayed_witness :
  let r := BandwidthLimiter.__init__ 1000 1 tt race_world in
  sleeps_of (trace (world (BandwidthLimiter.throttle 600 (val r) (world r))))
  = sleeps_of (trace (world r)).
Proof.
  cbv zeta.
  assert (H0 : (0 <= BandwidthLimiter.bytes_sent
                       (val (BandwidthLimiter.__init__ 1000 1 tt race_world)))%Z)
    by (vm_compute; discriminate).
  assert (H1 : (0 <= 600)%Z) by lia.
  assert (H : inject_Z (BandwidthLimiter.bytes_sent
                          (val (BandwidthLimiter.__init__ 1000 1 tt race_world)) + 600)
              <= BandwidthLimiter.max_bytes_per_second
                   (val (BandwidthLimiter.__init__ 1000 1 tt race_world)))
    by (vm_compute; discriminate).
  destruct (packet_that_fits_is_not_delayed 600 _
              (world (BandwidthLimiter.__init__ 1000 1 tt race_world)) H0 H1 H)
    as [Hs _].
  exact Hs.
Defined.

(** X4. [reset] puts the limiter back where [__init__] left it: the bucket is
    full and the window empty, whatever was accounted before; the rate read
    next is 0, and the next packet that is not larger than the limit is not
    delayed. *)
Theorem reset_starts_afresh (self : BandwidthLimiter.t) (w : World) :
  let r := BandwidthLimiter.reset self w in
  BandwidthLimiter.tokens (obj r) = BandwidthLimiter.bucket_size self
  /\ BandwidthLimiter.bytes_sent (obj r) = 0%Z
  /\ BandwidthLimiter.max_bytes_per_second (obj r)
     = BandwidthLimiter.max_bytes_per_second self
  /\ (forall w', val (BandwidthLimiter.get_current_rate_kbps (obj r) w') == 0)
  /\ (forall (s : Z) (w' : World),
        (0 <= s)%Z ->
        inject_Z s <= BandwidthLimiter.max_bytes_per_second self ->
        sleeps_of (trace (world (BandwidthLimiter.throttle s (obj r) w')))
        = sleeps_of (trace w')).
Proof.
  cbv zeta. unfold BandwidthLimiter.reset. run.
  split; [reflexivity|]. split; [reflexivity|]. split; [reflexivity|]. split.
  - intros w'. unfold BandwidthLimiter.get_current_rate_kbps,
      BandwidthLimiter.rate_kbps_at. run.
    destruct (Qltb _ _); [|reflexivity].
    unfold Qdiv. change (inject_Z 0) with 0. ring.
  - intros s w' Hs Hfit.
    match goal with
    | |- context [BandwidthLimiter.throttle s ?l w'] =>
        apply (fits_no_sleep s l w'); simp; auto; lia
    end.
Qed.

(** X5. The rate the limiter reports is never negative while [bytes_sent] is
    not, is 0 when the clock has not passed the start of the window (nothing
    is divided by zero), reading it changes nothing, and the rate in Mbps is
    the one in KB/s divided by 128. *)
Theorem rate_is_not_negative (self : BandwidthLimiter.t) (w : World)
  (Hsent : (0 <= BandwidthLimiter.bytes_sent self)%Z) :
  0 <= val (BandwidthLimiter.get_current_rate_kbps self w)
  /\ (clock w <= BandwidthLimiter.window_start self ->
      val (BandwidthLimiter.get_current_rate_kbps self w) = 0)
  /\ obj (BandwidthLimiter.get_current_rate_kbps self w) = self
  /\ val (BandwidthLimiter.get_current_rate_mbps self w)
     == val (BandwidthLimiter.get_current_rate_kbps self w) / 128.
Proof.
  unfold BandwidthLimiter.get_current_rate_mbps,
    BandwidthLimiter.get_current_rate_kbps, BandwidthLimiter.rate_kbps_at. run.
  split; [|split; [|split]].
  - destruct (Qltb 0 (clock w - BandwidthLimiter.window_start self)) eqn:E; [|lra].
    apply Qltb_true in E.
    assert (Hb : 0 <= inject_Z (BandwidthLimiter.bytes_sent self))
      by (change 0 with (inject_Z 0); rewrite <- Zle_Qle; exact Hsent).
    apply Qle_shift_div_l; [reflexivity|].
    apply Qle_shift_div_l; [exact E|]. lra.
  - intros Hc. destruct (Qltb 0 (clock w - BandwidthLimiter.window_start self)) eqn:E;
      [|reflexivity].
    apply Qltb_true in E. lra.
  - reflexivity.
  - field.
Qed.

Lemma rate_is_not_negative_witness :
  0 <= val (BandwidthLimiter.get_current_rate_kbps (obj race_run) (world race_run)).
Proof.
  apply (rate_is_not_negative (obj race_run) (world race_run)).
  vm_compute. discriminate.
Defined.

(** ** The lock *)

(** X6. [get_stats] never returns: it takes the limiter's lock and, holding
    it, calls [get_current_rate_kbps], which waits for the same lock. So
    neither do [detect_congestion] and [adapt_rate], which start with
    [get_stats]. The methods that take the lock once run as they do without
    it. *)
Theorem get_stats_never_returns
  (line : Line -> Msg) (self : BandwidthLimiter.t)
  (a : AdaptiveBandwidthLimiter.t) (w : World) :
  Locked.get_stats false self w = Blocked
  /\ AdaptiveBandwidthLimiter.detect_congestion line false a w = Blocked
  /\ AdaptiveBandwidthLimiter.adapt_rate line false a w = Blocked
  /\ (forall s, Locked.throttle s false self w
                = Done (BandwidthLimiter.throttle s self w))
  /\ Locked.get_current_rate_kbps false self w
     = Done (BandwidthLimiter.get_current_rate_kbps self w)
  /\ (forall n, Locked.update_rate_limit n false self w
                = Done (BandwidthLimiter.update_rate_limit n self w)).
Proof.
  repeat split.
Qed.

(** X7. [AdaptiveBandwidthLimiter.throttle] reads the clock; when the window
    started more than half a second before, it goes into [adapt_rate] and
    never returns; otherwise it is [BandwidthLimiter.throttle], run right
    after that clock read. *)
Theorem adaptive_throttle_blocks_or_is_throttle
  (line : Line -> Msg) (s : Z) (a : AdaptiveBandwidthLimiter.t) (w : World) :
  AdaptiveBandwidthLimiter.throttle line s false a w
  = if Qltb (1 # 2)
         (clock w - BandwidthLimiter.window_start (AdaptiveBandwidthLimiter.base a))
    then Blocked
    else
      let r := BandwidthLimiter.throttle s (AdaptiveBandwidthLimiter.base a)
                 (w_tick (w_emit (EvTime (clock w)) w)) in
      Done (mkRes (Return tt) (AdaptiveBandwidthLimiter.set_base (obj r) a) (world r)).
Proof.
  unfold AdaptiveBandwidthLimiter.throttle, lbind, lift, lret, time_time, get.
  cbn [clock].
  destruct (Qltb (1 # 2) _); [reflexivity|].
  unfold AdaptiveBandwidthLimiter.super, lzoom, Locked.throttle, with_lock, lift.
  destruct (BandwidthLimiter.throttle s (AdaptiveBandwidthLimiter.base a) _);
    reflexivity.
Qed.

(** ** The packet loop *)

Section Loop.

Import NetworkThrottler ThrottlingConfig.

Lemma sends_of_app (a b : list Event) : sends_of (a ++ b) = sends_of a ++ sends_of b.
Proof.
  induction a as [|e a IH]; [reflexivity|].
  destruct e; cbn; rewrite IH; reflexivity.
Qed.

(** What every call of the limiter's [throttle] leaves alone. *)
Lemma throttle_frame (s : Z) (l : BandwidthLimiter.t) (w : World) :
  rand (world (BandwidthLimiter.throttle s l w)) = rand w
  /\ draws (world (BandwidthLimiter.throttle s l w)) = draws w
  /\ sends_of (trace (world (BandwidthLimiter.throttle s l w))) = sends_of (trace w).
Proof.
  unfold BandwidthLimiter.throttle, BandwidthLimiter._refill_tokens,
    BandwidthLimiter._reset_window_if_needed. run.
  split_ifs; rewrite ?sends_of_app; cbn [sends_of]; rewrite ?app_nil_r; auto.
Qed.

Lemma forward_frame (p : Packet) (b : bool) (st : NetworkThrottler.t) (w : World) :
  let r := forward p b st w in
  obj r = st
  /\ val r = status_result st
  /\ rand (world r) = rand w
  /\ draws (world r) = draws w
  /\ sends_of (trace (world r)) = sends_of (trace w) ++ [p]
  /\ sleeps_of (trace (world r)) = sleeps_of (trace w).
Proof.
  cbv zeta. unfold forward, _update_status, status_result, on_limiter,
    BandwidthLimiter.get_current_rate_kbps. run.
  split_ifs; rewrite ?sends_of_app, ?sleeps_of_app; cbn [sends_of sleeps_of];
    rewrite ?app_nil_r; (split; [destruct st; reflexivity|]); auto.
Qed.

Lemma process_packet_frame (p : Packet) (st : NetworkThrottler.t) (w : World) :
  let r := _process_packet p st w in
  (config (obj r) = config st
   /\ _throttling_enabled (obj r) = _throttling_enabled st
   /\ _shutdown_event (obj r) = _shutdown_event st)
  /\ rand (world r) = rand w
  /\ draws (world r) = (if _throttling_enabled st then S (draws w) else draws w)
  /\ sends_of (trace (world r))
     = sends_of (trace w) ++ (if is_dropped st w then [] else [p])
  /\ val r = (if is_dropped st w then Return tt else status_result st)
  /\ (_throttling_enabled st = false \/ is_dropped st w = true ->
      bandwidth_limiter (obj r) = bandwidth_limiter st
      /\ sleeps_of (trace (world r)) = sleeps_of (trace w)).
Proof.
  cbv zeta.
  unfold _process_packet, on_statistics, ThrottlingStatistics.increment_processed,
    ThrottlingStatistics.increment_throttled, ThrottlingStatistics.increment_dropped,
    _should_drop_packet, _apply_throttling, on_limiter, is_dropped.
  run.
  destruct (_throttling_enabled st) eqn:En; simp; cbn [andb].
  - destruct (Qltb (rand w (draws w)) (packet_drop_rate (config st))) eqn:Dr; simp.
    + rewrite !sends_of_app, !sleeps_of_app. cbn. rewrite !app_nil_r.
      repeat split; auto.
    + destruct (throttle_frame (packet_len p) (bandwidth_limiter st)
                  (w_drawn (w_emit (EvRandom (rand w (draws w))) w)))
        as (Hr & Hd & Hs).
      destruct (BandwidthLimiter.throttle (packet_len p) (bandwidth_limiter st)
                  (w_drawn (w_emit (EvRandom (rand w (draws w))) w))) as [x l1 w1].
      cbn [world] in *. simp_in Hr. simp_in Hd. simp_in Hs.
      rewrite sends_of_app in Hs. cbn in Hs. rewrite app_nil_r in Hs.
      simp.
      destruct (0 <? lag_delay_ms (config st))%Z; simp;
        match goal with
        | |- context [forward ?p ?b ?s ?w] =>
            destruct (forward_frame p b s w) as (Ho & Hv & Hr2 & Hd2 & Hs2 & _);
            destruct (forward p b s w) as [v2 s2 w2]
        end; cbn [obj val world] in *; subst s2 v2; simp;
        simp_in Hr2; simp_in Hd2; simp_in Hs2;
        rewrite ?sends_of_app in Hs2; cbn [sends_of] in Hs2;
        rewrite ?app_nil_r in Hs2;
        unfold status_result; simp;
        (repeat split; try congruence;
         match goal with Hx : _ \/ _ |- _ => destruct Hx as [Hx | Hx]; discriminate Hx end).
  - match goal with
    | |- context [forward ?p ?b ?s ?w] =>
        destruct (forward_frame p b s w) as (Ho & Hv & Hr2 & Hd2 & Hs2 & Hsl);
        destruct (forward p b s w) as [v2 s2 w2]
    end; cbn [obj val world] in *; subst s2 v2; simp.
    unfold status_result; simp. repeat split; auto.
Qed.

Lemma toggle_frame (st : NetworkThrottler.t) (w : World) :
  let r := toggle_throttling st w in
  (config (obj r) = config st
   /\ _throttling_enabled (obj r) = negb (_throttling_enabled st)
   /\ _shutdown_event (obj r) = _shutdown_event st
   /\ statistics (obj r) = statistics st
   /\ bandwidth_limiter (obj r) = bandwidth_limiter st)
  /\ rand (world r) = rand w
  /\ draws (world r) = draws w
  /\ sends_of (trace (world r)) = sends_of (trace w)
  /\ sleeps_of (trace (world r)) = sleeps_of (trace w).
Proof.
  cbv zeta. unfold toggle_throttling. run.
  split_ifs; rewrite ?sends_of_app, ?sleeps_of_app; cbn [sends_of sleeps_of];
    rewrite ?app_nil_r; repeat split; auto.
Qed.

End Loop.

Section LoopOrder.

Import NetworkThrottler ThrottlingConfig.

Lemma Subseq_nil_l {A} (l : list A) : Subseq [] l.
Proof.
  induction l; constructor; assumption.
Qed.

Lemma run_loop_subseq (inputs : list Input) :
  forall (st : NetworkThrottler.t) (w : World),
  exists sent,
    sends_of (trace (world (run_loop inputs st w))) = sends_of (trace w) ++ sent
    /\ Subseq sent (packets_of inputs).
Proof.
  induction inputs as [|i rest IH]; intros st w.
  - exists []. cbn. rewrite app_nil_r. split; [reflexivity | constructor].
  - destruct i as [p|]; cbn [run_loop packets_of]; unfold bind, get.
    + destruct (_shutdown_event st).
      { exists []. cbn. rewrite app_nil_r. split; [reflexivity | apply Subseq_nil_l]. }
      destruct (process_packet_frame p st w) as (_ & _ & _ & Hs & _).
      destruct (_process_packet p st w) as [v st1 w1]. cbn [val obj world] in *.
      destruct v as [u|e].
      * destruct (IH st1 w1) as (sent & Ht & Hsub).
        exists ((if is_dropped st w then [] else [p]) ++ sent).
        rewrite Ht, Hs, app_assoc. split; [reflexivity|].
        destruct (is_dropped st w); cbn;
          [apply Subseq_skip | apply Subseq_keep]; exact Hsub.
      * exists (if is_dropped st w then [] else [p]). cbn [world].
        split; [exact Hs|].
        destruct (is_dropped st w); [apply Subseq_nil_l|].
        apply Subseq_keep. apply Subseq_nil_l.
    + destruct (toggle_frame st w) as (_ & _ & _ & Hs & _).
      destruct (toggle_throttling st w) as [v st1 w1]. cbn [val obj world] in *.
      destruct (IH st1 w1) as (sent & Ht & Hsub).
      exists sent. rewrite Ht, Hs. split; [reflexivity | exact Hsub].
Qed.

End LoopOrder.

(** X9. Packets leave in the order they came: what the loop hands back to the
    driver is the captured packets with some of them left out (the dropped
    ones, and those after a shutdown), never reordered or repeated. *)
Theorem forwarding_keeps_order
  (inputs : list NetworkThrottler.Input) (st : NetworkThrottler.t) (w : World) :
  exists sent,
    sends_of (trace (world (NetworkThrottler.run_loop inputs st w)))
    = sends_of (trace w) ++ sent
    /\ Subseq sent (packets_of inputs).
Proof.
  apply run_loop_subseq.
Qed.

Section LoopModes.

Import NetworkThrottler ThrottlingConfig.

Lemma packets_of_map (ps : list Packet) : packets_of (map InPacket ps) = ps.
Proof.
  induction ps as [|p ps IH]; cbn; congruence.
Qed.

Lemma drop_all_loop (ps : list Packet) :
  forall (st : NetworkThrottler.t) (w : World),
    _throttling_enabled st = true -> _shutdown_event st = false ->
    1 <= packet_drop_rate (config st) ->
    (forall k, rand w k < 1) ->
    let r := run_loop (map InPacket ps) st w in
    val r = Return tt
    /\ sends_of (trace (world r)) = sends_of (trace w)
    /\ sleeps_of (trace (world r)) = sleeps_of (trace w)
    /\ bandwidth_limiter (obj r) = bandwidth_limiter st
    /\ ThrottlingStatistics.processed_packets (statistics (obj r))
       = (ThrottlingStatistics.processed_packets (statistics st)
          + Z.of_nat (List.length ps))%Z
    /\ ThrottlingStatistics.dropped_packets (statistics (obj r))
       = (ThrottlingStatistics.dropped_packets (statistics st)
          + Z.of_nat (List.length ps))%Z.
Proof.
  induction ps as [|p ps IH]; intros st w En Sd Hrate Hrand; cbv zeta.
  - cbn. rewrite !Z.add_0_r. repeat split.
  - cbn [map run_loop]. unfold bind, get. rewrite Sd.
    assert (Hdrop : is_dropped st w = true).
    { unfold is_dropped. rewrite En. cbn. apply Qltb_true.
      specialize (Hrand (draws w)). lra. }
    destruct (process_packet_frame p st w)
      as ((Hc & He & Hs) & Hr & _ & Hsend & Hv & Hlim).
    destruct (process_packet_statistics p st w) as [Hstat _].
    destruct (Hlim (or_intror Hdrop)) as [Hl Hsl].
    rewrite Hdrop in *. rewrite app_nil_r in Hsend.
    unfold is_dropped in Hdrop. rewrite En in Hdrop, Hstat. cbn [andb] in Hdrop, Hstat.
    rewrite Hdrop in Hstat.
    destruct (_process_packet p st w) as [v st1 w1]. cbn [val obj world] in *.
    subst v.
    assert (Hrand1 : forall k, rand w1 k < 1) by (intros k; rewrite Hr; apply Hrand).
    rewrite <- Hc in Hrate. rewrite <- He in En. rewrite <- Hs in Sd.
    destruct (IH st1 w1 En Sd Hrate Hrand1) as (H1 & H2 & H3 & H4 & H5 & H6).
    rewrite H1, H2, H3, H4, H5, H6, Hstat. cbn [ThrottlingStatistics.processed_packets
      ThrottlingStatistics.dropped_packets List.length].
    repeat split; auto; lia.
Qed.

Lemma drop_none_loop (inputs : list Input) :
  forall (st : NetworkThrottler.t) (w : World),
    _shutdown_event st = false ->
    status_update_interval (config st) <> 0%Z ->
    packet_drop_rate (config st) <= 0 ->
    (forall k, 0 <= rand w k) ->
    let r := run_loop inputs st w in
    val r = Return tt
    /\ sends_of (trace (world r)) = sends_of (trace w) ++ packets_of inputs
    /\ ThrottlingStatistics.dropped_packets (statistics (obj r))
       = ThrottlingStatistics.dropped_packets (statistics st).
Proof.
  induction inputs as [|i rest IH]; intros st w Sd Hi Hrate Hrand; cbv zeta.
  - cbn. rewrite app_nil_r. repeat split.
  - destruct i as [p|]; cbn [run_loop packets_of]; unfold bind, get.
    + rewrite Sd.
      assert (Hdrop : is_dropped st w = false).
      { unfold is_dropped. apply andb_false_iff. right. apply Qltb_false.
        specialize (Hrand (draws w)). lra. }
      destruct (process_packet_frame p st w)
        as ((Hc & He & Hs) & Hr & _ & Hsend & Hv & _).
      destruct (process_packet_statistics p st w) as [Hstat _].
      cbv zeta in Hstat. fold (is_dropped st w) in Hstat.
      rewrite Hdrop in *.
      destruct (_process_packet p st w) as [v st1 w1]. cbn [val obj world] in *.
      assert (v = Return tt) as ->.
      { rewrite Hv. unfold status_result. apply Z.eqb_neq in Hi. rewrite Hi.
        reflexivity. }
      assert (Hrand1 : forall k, 0 <= rand w1 k) by (intros k; rewrite Hr; apply Hrand).
      rewrite <- Hc in Hrate, Hi. rewrite <- Hs in Sd.
      destruct (IH st1 w1 Sd Hi Hrate Hrand1) as (H1 & H2 & H3).
      rewrite H1, H2, H3, Hsend, Hstat, <- app_assoc.
      cbn [ThrottlingStatistics.dropped_packets]. repeat split; auto; lia.
    + destruct (toggle_frame st w) as ((Hc & _ & Hs & Hstat & _) & Hr & _ & Hsend & _).
      destruct (toggle_throttling st w) as [v st1 w1]. cbn [val obj world] in *.
      assert (Hrand1 : forall k, 0 <= rand w1 k) by (intros k; rewrite Hr; apply Hrand).
      rewrite <- Hc in Hrate, Hi. rewrite <- Hs in Sd.
      destruct (IH st1 w1 Sd Hi Hrate Hrand1) as (H1 & H2 & H3).
      rewrite H1, H2, H3, Hsend, Hstat. repeat split; auto.
Qed.

Lemma passthrough_loop (ps : list Packet) :
  forall (st : NetworkThrottler.t) (w : World),
    _throttling_enabled st = false -> _shutdown_event st = false ->
    status_update_interval (config st) <> 0%Z ->
    let r := run_loop (map InPacket ps) st w in
    val r = Return tt
    /\ sends_of (trace (world r)) = sends_of (trace w) ++ ps
    /\ sleeps_of (trace (world r)) = sleeps_of (trace w)
    /\ draws (world r) = draws w
    /\ bandwidth_limiter (obj r) = bandwidth_limiter st
    /\ ThrottlingStatistics.throttled_packets (statistics (obj r))
       = ThrottlingStatistics.throttled_packets (statistics st)
    /\ ThrottlingStatistics.processed_packets (statistics (obj r))
       = (ThrottlingStatistics.processed_packets (statistics st)
          + Z.of_nat (List.length ps))%Z.
Proof.
  induction ps as [|p ps IH]; intros st w En Sd Hi; cbv zeta.
  - cbn. rewrite app_nil_r, Z.add_0_r. repeat split.
  - cbn [map run_loop]. unfold bind, get. rewrite Sd.
    assert (Hdrop : is_dropped st w = false) by (unfold is_dropped; rewrite En; reflexivity).
    destruct (process_packet_frame p st w)
      as ((Hc & He & Hs) & _ & Hd & Hsend & Hv & Hlim).
    destruct (process_packet_statistics p st w) as [Hstat _].
    destruct (Hlim (or_introl En)) as [Hl Hsl].
    cbv zeta in Hstat. rewrite En in Hstat, Hd. cbn [andb] in Hstat.
    rewrite Hdrop in *.
    destruct (_process_packet p st w) as [v st1 w1]. cbn [val obj world] in *.
    assert (v = Return tt) as ->.
    { rewrite Hv. unfold status_result. apply Z.eqb_neq in Hi. rewrite Hi.
      reflexivity. }
    rewrite <- Hc in Hi. rewrite <- He in En. rewrite <- Hs in Sd.
    destruct (IH st1 w1 En Sd Hi) as (H1 & H2 & H3 & H4 & H5 & H6 & H7).
    rewrite H1, H2, H3, H4, H5, H6, H7, Hsend, Hsl, Hd, Hl, Hstat, <- app_assoc.
    cbn [ThrottlingStatistics.processed_packets
           ThrottlingStatistics.throttled_packets List.length app].
    repeat split; auto; lia.
Qed.

End LoopModes.

(** X10. With throttling on, a drop rate of 1 (or more) and a random source
    that answers below 1, the loop drops every packet: nothing is handed back
    to the driver, the limiter is not consulted, nothing sleeps, the loop
    does not raise, and the processed and dropped counters both go up by the
    number of packets. *)
Theorem drop_rate_one_drops_everything
  (ps : list Packet) (st : NetworkThrottler.t) (w : World)
  (Hon : NetworkThrottler._throttling_enabled st = true)
  (Hrun : NetworkThrottler._shutdown_event st = false)
  (Hrate : 1 <= ThrottlingConfig.packet_drop_rate (NetworkThrottler.config st))
  (Hdraws : unit_draws w) :
  let r := NetworkThrottler.run_loop (map NetworkThrottler.InPacket ps) st w in
  val r = Return tt
  /\ sends_of (trace (world r)) = sends_of (trace w)
  /\ sleeps_of (trace (world r)) = sleeps_of (trace w)
  /\ NetworkThrottler.bandwidth_limiter (obj r) = NetworkThrottler.bandwidth_limiter st
  /\ ThrottlingStatistics.processed_packets (NetworkThrottler.statistics (obj r))
     = (ThrottlingStatistics.processed_packets (NetworkThrottler.statistics st)
        + Z.of_nat (List.length ps))%Z
  /\ ThrottlingStatistics.dropped_packets (NetworkThrottler.statistics (obj r))
     = (ThrottlingStatistics.dropped_packets (NetworkThrottler.statistics st)
        + Z.of_nat (List.length ps))%Z.
Proof.
  apply drop_all_loop; auto. intros k. apply Hdraws.
Qed.

Lemma drop_rate_one_drops_everything_witness :
  sends_of (trace (world (NetworkThrottler.run_loop
                            (map NetworkThrottler.InPacket [example_packet; example_packet])
                            enabled_throttler example_world)))
  = sends_of (trace example_world).
Proof.
  assert (Hrate : 1 <= ThrottlingConfig.packet_drop_rate
                         (NetworkThrottler.config enabled_throttler))
    by (vm_compute; discriminate).
  assert (Hdraws : unit_draws example_world)
    by (intros k; split; vm_compute; [discriminate | reflexivity]).
  destruct (drop_rate_one_drops_everything [example_packet; example_packet]
              enabled_throttler example_world eq_refl eq_refl Hrate Hdraws)
    as (_ & Hs & _).
  exact Hs.
Defined.

(** X11. With a drop rate of 0 (or less), a random source that answers from 0
    up and a status interval that is not 0, nothing is ever dropped: until
    shutdown, every captured packet is handed back to the driver, in order,
    throttling on or off and however it is toggled in between. *)
Theorem drop_rate_zero_drops_nothing
  (inputs : list NetworkThrottler.Input) (st : NetworkThrottler.t) (w : World)
  (Hrun : NetworkThrottler._shutdown_event st = false)
  (Hint : ThrottlingConfig.status_update_interval (NetworkThrottler.config st) <> 0%Z)
  (Hrate : ThrottlingConfig.packet_drop_rate (NetworkThrottler.config st) <= 0)
  (Hdraws : unit_draws w) :
  let r := NetworkThrottler.run_loop inputs st w in
  val r = Return tt
  /\ sends_of (trace (world r)) = sends_of (trace w) ++ packets_of inputs
  /\ ThrottlingStatistics.dropped_packets (NetworkThrottler.statistics (obj r))
     = ThrottlingStatistics.dropped_packets (NetworkThrottler.statistics st).
Proof.
  apply drop_none_loop; auto. intros k. apply Hdraws.
Qed.

Lemma drop_rate_zero_drops_nothing_witness :
  sends_of (trace (world (NetworkThrottler.run_loop
                            [NetworkThrottler.InPacket example_packet;
                             NetworkThrottler.InToggle;
                             NetworkThrottler.InPacket example_packet]
                            lossless_throttler example_world)))
  = sends_of (trace example_world) ++ [example_packet; example_packet].
Proof.
  assert (Hint : ThrottlingConfig.status_update_interval
                   (NetworkThrottler.config lossless_throttler) <> 0%Z)
    by (vm_compute; discriminate).
  assert (Hrate : ThrottlingConfig.packet_drop_rate
                    (NetworkThrottler.config lossless_throttler) <= 0)
    by (vm_compute; discriminate).
  assert (Hdraws : unit_draws example_world)
    by (intros k; split; vm_compute; [discriminate | reflexivity]).
  destruct (drop_rate_zero_drops_nothing
              [NetworkThrottler.InPacket example_packet; NetworkThrottler.InToggle;
               NetworkThrottler.InPacket example_packet]
              lossless_throttler example_world eq_refl Hint Hrate Hdraws)
    as (_ & Hs & _).
  exact Hs.
Defined.

(** X12. With throttling off the loop is a pass-through: every packet is
    handed back to the driver, in order; nothing sleeps, no random value is
    drawn, the limiter is left as it was, and only the processed counter
    moves. *)
Theorem disabled_is_passthrough
  (ps : list Packet) (st : NetworkThrottler.t) (w : World)
  (Hoff : NetworkThrottler._throttling_enabled st = false)
  (Hrun : NetworkThrottler._shutdown_event st = false)
  (Hint : ThrottlingConfig.status_update_interval (NetworkThrottler.config st) <> 0%Z) :
  let r := NetworkThrottler.run_loop (map NetworkThrottler.InPacket ps) st w in
  val r = Return tt
  /\ sends_of (trace (world r)) = sends_of (trace w) ++ ps
  /\ sleeps_of (trace (world r)) = sleeps_of (trace w)
  /\ draws (world r) = draws w
  /\ NetworkThrottler.bandwidth_limiter (obj r) = NetworkThrottler.bandwidth_limiter st
  /\ ThrottlingStatistics.throttled_packets (NetworkThrottler.statistics (obj r))
     = ThrottlingStatistics.throttled_packets (NetworkThrottler.statistics st)
  /\ ThrottlingStatistics.processed_packets (NetworkThrottler.statistics (obj r))
     = (ThrottlingStatistics.processed_packets (NetworkThrottler.statistics st)
        + Z.of_nat (List.length ps))%Z.
Proof.
  apply passthrough_loop; auto.
Qed.

Lemma disabled_is_passthrough_witness :
  sends_of (trace (world (NetworkThrottler.run_loop
                            (map NetworkThrottler.InPacket [example_packet; example_packet])
                            example_throttler example_world)))
  = sends_of (trace example_world) ++ [example_packet; example_packet].
Proof.
  assert (Hint : ThrottlingConfig.status_update_interval
                   (NetworkThrottler.config example_throttler) <> 0%Z)
    by (vm_compute; discriminate).
  destruct (disabled_is_passthrough [example_packet; example_packet]
              example_throttler example_world eq_refl eq_refl Hint)
    as (_ & Hs & _).
  exact Hs.
Defined.

(** ** Toggle and shutdown *)

(** X13. Toggling twice gives back the state it started from; one toggle
    flips [_throttling_enabled] and nothing else, and hands nothing to the
    driver. *)
Theorem toggle_twice_is_identity (st : NetworkThrottler.t) (w w' : World) :
  let once := NetworkThrottler.toggle_throttling st w in
  let twice := NetworkThrottler.toggle_throttling (obj once) w' in
  obj twice = st
  /\ NetworkThrottler._throttling_enabled (obj once)
     = negb (NetworkThrottler._throttling_enabled st)
  /\ NetworkThrottler.set_throttling_enabled
       (NetworkThrottler._throttling_enabled st) (obj once) = st
  /\ sends_of (trace (world once)) = sends_of (trace w)
  /\ sleeps_of (trace (world once)) = sleeps_of (trace w).
Proof.
  cbv zeta. unfold NetworkThrottler.toggle_throttling. run.
  destruct st as [cfg bl stats kh en sd pid ports]. simp.
  destruct en; cbn [negb]; simp; rewrite ?sends_of_app, ?sleeps_of_app;
    cbn [sends_of sleeps_of app]; rewrite ?app_nil_r; repeat split.
Qed.

Section AfterShutdown.

Import NetworkThrottler.

Lemma loop_after_shutdown (inputs : list Input) :
  forall (st : NetworkThrottler.t) (w : World),
    _shutdown_event st = true ->
    let r := run_loop inputs st w in
    val r = Return tt
    /\ statistics (obj r) = statistics st
    /\ bandwidth_limiter (obj r) = bandwidth_limiter st
    /\ sends_of (trace (world r)) = sends_of (trace w)
    /\ sleeps_of (trace (world r)) = sleeps_of (trace w)
    /\ draws (world r) = draws w.
Proof.
  induction inputs as [|i rest IH]; intros st w Sd; cbv zeta.
  - repeat split.
  - destruct i as [p|]; cbn [run_loop]; unfold bind, get.
    + rewrite Sd. repeat split.
    + destruct (toggle_frame st w) as ((_ & _ & Hs & Hstat & Hl) & _ & Hd & Hsend & Hsl).
      destruct (toggle_throttling st w) as [v st1 w1]. cbn [val obj world] in *.
      rewrite <- Hs in Sd.
      destruct (IH st1 w1 Sd) as (H1 & H2 & H3 & H4 & H5 & H6).
      rewrite H1, H2, H3, H4, H5, H6. repeat split; auto.
Qed.

End AfterShutdown.

(** X14. Once the shutdown flag is set the loop takes no more packets: none is
    counted, none is handed back to the driver, the limiter is not touched
    and nothing sleeps, whatever is still captured; and [shutdown] from the
    main thread sets that flag. *)
Theorem no_packet_after_shutdown
  (inputs : list NetworkThrottler.Input) (st : NetworkThrottler.t) (w w' : World) :
  let down := obj (NetworkThrottler.shutdown KeyboardHandler.MainThread st w) in
  let r := NetworkThrottler.run_loop inputs down w' in
  NetworkThrottler._shutdown_event down = true
  /\ val r = Return tt
  /\ NetworkThrottler.statistics (obj r) = NetworkThrottler.statistics st
  /\ NetworkThrottler.bandwidth_limiter (obj r) = NetworkThrottler.bandwidth_limiter st
  /\ sends_of (trace (world r)) = sends_of (trace w')
  /\ sleeps_of (trace (world r)) = sleeps_of (trace w').
Proof.
  cbv zeta.
  assert (Hd : NetworkThrottler._shutdown_event
                 (obj (NetworkThrottler.shutdown KeyboardHandler.MainThread st w)) = true
               /\ NetworkThrottler.statistics
                    (obj (NetworkThrottler.shutdown KeyboardHandler.MainThread st w))
                  = NetworkThrottler.statistics st
               /\ NetworkThrottler.bandwidth_limiter
                    (obj (NetworkThrottler.shutdown KeyboardHandler.MainThread st w))
                  = NetworkThrottler.bandwidth_limiter st).
  { unfold NetworkThrottler.shutdown, NetworkThrottler.on_keyboard,
      NetworkThrottler.on_statistics, KeyboardHandler.stop,
      ThrottlingStatistics.log_final_stats, ThrottlingStatistics.get_stats.
    run. destruct st as [cfg bl stats kh en sd pid ports].
    destruct kh as [cbs running thread]. destruct stats as [pp tp dp t0].
    destruct thread; simp; run; repeat split. }
  destruct Hd as (Hsd & Hst & Hbl).
  destruct (loop_after_shutdown inputs _ w' Hsd) as (H1 & H2 & H3 & H4 & H5 & _).
  rewrite H2, H3, Hst, Hbl. repeat split; auto.
Qed.

(** ** Keys *)

Section Keys.

Import NetworkThrottler ThrottlingConfig KeyboardHandler.

Lemma dict_get_set_same (k : string) (v : Callback) (d : list (string * Callback)) :
  dict_get k (dict_set k v d) = Some v.
Proof.
  unfold dict_set. cbn. rewrite String.eqb_refl. reflexivity.
Qed.

Lemma dict_get_filter_other (k k' : string) (d : list (string * Callback)) :
  String.eqb k' k = false ->
  dict_get k (filter (fun kv => negb (String.eqb (fst kv) k')) d) = dict_get k d.
Proof.
  intros Hk. induction d as [|[k0 v0] d IH]; [reflexivity|].
  cbn. destruct (String.eqb k0 k') eqn:E0; cbn.
  - apply String.eqb_eq in E0. subst k0. rewrite Hk. exact IH.
  - destruct (String.eqb k0 k); [reflexivity | exact IH].
Qed.

Lemma dict_get_set_other (k k' : string) (v : Callback) (d : list (string * Callback)) :
  String.eqb k' k = false ->
  dict_get k (dict_set k' v d) = dict_get k d.
Proof.
  intros Hk. unfold dict_set. cbn. rewrite Hk. apply dict_get_filter_other. exact Hk.
Qed.

End Keys.

(** X15. After [_setup_keyboard_handler] the exit key is bound to [shutdown];
    the toggle key is bound to [toggle_throttling] unless it is the same key
    as the exit key, in which case it is bound to [shutdown] too; every other
    key is bound as before; the listener is running. *)
Theorem keys_after_setup (st : NetworkThrottler.t) (w : World) :
  let cfg := NetworkThrottler.config st in
  let kh := NetworkThrottler.keyboard_handler
              (obj (NetworkThrottler._setup_keyboard_handler st w)) in
  dict_get (ThrottlingConfig.exit_key cfg) (KeyboardHandler.callbacks kh)
  = Some KeyboardHandler.shutdown_cb
  /\ dict_get (ThrottlingConfig.toggle_key cfg) (KeyboardHandler.callbacks kh)
     = Some (if String.eqb (ThrottlingConfig.exit_key cfg) (ThrottlingConfig.toggle_key cfg)
             then KeyboardHandler.shutdown_cb
             else KeyboardHandler.toggle_throttling_cb)
  /\ (forall k,
        String.eqb (ThrottlingConfig.exit_key cfg) k = false ->
        String.eqb (ThrottlingConfig.toggle_key cfg) k = false ->
        dict_get k (KeyboardHandler.callbacks kh)
        = dict_get k (KeyboardHandler.callbacks (NetworkThrottler.keyboard_handler st)))
  /\ KeyboardHandler._running kh = true
  /\ KeyboardHandler._thread kh <> None.
Proof.
  cbv zeta.
  unfold NetworkThrottler._setup_keyboard_handler, NetworkThrottler.on_keyboard,
    KeyboardHandler.register_callback, KeyboardHandler.start.
  run. split; [apply dict_get_set_same|]. split; [|split; [|split]].
  - destruct (String.eqb _ _) eqn:E.
    + apply String.eqb_eq in E. rewrite <- E. apply dict_get_set_same.
    + rewrite dict_get_set_other by exact E. apply dict_get_set_same.
  - intros k H1 H2. rewrite !dict_get_set_other by assumption. reflexivity.
  - reflexivity.
  - discriminate.
Qed.

Lemma keys_after_setup_witness :
  dict_get "f2"
    (KeyboardHandler.callbacks
       (NetworkThrottler.keyboard_handler
          (obj (NetworkThrottler._setup_keyboard_handler example_throttler example_world))))
  = None.
Proof.
  destruct (keys_after_setup example_throttler example_world) as (_ & _ & H & _).
  cbv zeta in H. rewrite (H "f2"%string eq_refl eq_refl). reflexivity.
Defined.

(** X16. One turn of the key listener on a throttler set up by
    [_setup_keyboard_handler]. A key going up does nothing. The toggle key
    going down (when it is not the exit key too) is exactly one
    [toggle_throttling]. The exit key going down sets the shutdown flag and
    stops the listener's loop, but [shutdown], which runs on the listener's
    own thread, fails at the join: the error is logged by the listener, not
    raised, no final statistics are reported by this call, and throttling
    and the counters stay as they were. *)
Theorem key_listener_turn
  (line : Line -> Msg) (st : NetworkThrottler.t) (w w' : World) :
  let cfg := NetworkThrottler.config st in
  let ready := obj (NetworkThrottler._setup_keyboard_handler st w) in
  (forall name, _keyboard_listener_turn line name false ready w' = mkRes tt ready w')
  /\ (String.eqb (ThrottlingConfig.exit_key cfg) (ThrottlingConfig.toggle_key cfg) = false ->
      _keyboard_listener_turn line (ThrottlingConfig.toggle_key cfg) true ready w'
      = NetworkThrottler.toggle_throttling ready w')
  /\ let r := _keyboard_listener_turn line (ThrottlingConfig.exit_key cfg) true ready w' in
     NetworkThrottler._shutdown_event (obj r) = true
     /\ KeyboardHandler._running (NetworkThrottler.keyboard_handler (obj r)) = false
     /\ NetworkThrottler._throttling_enabled (obj r)
        = NetworkThrottler._throttling_enabled st
     /\ NetworkThrottler.statistics (obj r) = NetworkThrottler.statistics st
     /\ trace (world r)
        = trace w' ++ [EvLog INFO MsgInitiatingShutdown;
                       EvLog ERROR (line (LineKeyboardError "cannot join current thread"))].
Proof.
  cbv zeta.
  unfold NetworkThrottler._setup_keyboard_handler, NetworkThrottler.on_keyboard,
    KeyboardHandler.register_callback, KeyboardHandler.start.
  run. split; [reflexivity|]. split.
  - intros E. unfold _keyboard_listener_turn. run.
    rewrite dict_get_set_other by exact E. rewrite dict_get_set_same. reflexivity.
  - unfold _keyboard_listener_turn. run. rewrite dict_get_set_same.
    unfold NetworkThrottler.shutdown, NetworkThrottler.on_keyboard,
      KeyboardHandler.stop. run. rewrite <- app_assoc. repeat split.
Qed.

Lemma key_listener_turn_witness :
  NetworkThrottler._throttling_enabled
    (obj (_keyboard_listener_turn (fun _ => MsgError "keyboard") "f1" true
            (obj (NetworkThrottler._setup_keyboard_handler example_throttler example_world))
            example_world))
  = true.
Proof.
  destruct (key_listener_turn (fun _ => MsgError "keyboard")
              example_throttler example_world example_world) as (_ & H & _).
  cbv zeta in H.
  change (ThrottlingConfig.toggle_key (NetworkThrottler.config example_throttler))
    with "f1"%string in H.
  rewrite (H eq_refl). reflexivity.
Defined.

(** ** Target resolution *)

Section Resolution.

Lemma find_loop_val {S} (name : string) (procs : list ProcEntry) (s : S) (w : World) :
  val (ProcessManager.find_loop name procs s w)
  = match matching (str_lower w) name (named_prefix procs) with
    | pid :: _ => Return pid
    | [] =>
        if has_nameless procs then Raise ProcessManager.none_has_no_lower
        else Raise (RuntimeError ("No process matching '" ++ name ++ "' found"))
    end.
Proof.
  induction procs as [|e rest IH]; [reflexivity|].
  destruct e as [pid [pname|] | |];
    cbn [ProcessManager.find_loop matching named_prefix has_nameless]; auto.
  unfold bind, lower, name_matches.
  destruct (contains (str_lower w name) (str_lower w pname)); [reflexivity | exact IH].
Qed.

Lemma find_process_val {S} (name : string) (s : S) (w : World) :
  val (ProcessManager.find_process_by_name name s w)
  = match matching (str_lower w) name (named_prefix (process_iter w)) with
    | pid :: _ => Return pid
    | [] =>
        if has_nameless (process_iter w) then Raise ProcessManager.none_has_no_lower
        else Raise (RuntimeError ("No process matching '" ++ name ++ "' found"))
    end.
Proof.
  unfold ProcessManager.find_process_by_name. run.
  match goal with
  | |- context [ProcessManager.find_loop ?n ?ps ?s0 ?w0] =>
      pose proof (find_loop_val n ps s0 w0) as Hv;
      destruct (ProcessManager.find_loop n ps s0 w0) as [v s1 w1]
  end.
  cbn [val] in Hv. simp_in Hv. subst v.
  destruct (matching (str_lower w) name (named_prefix (process_iter w)));
    [destruct (has_nameless (process_iter w))|]; reflexivity.
Qed.

(** Where the loop of [find_process_by_name] ends, told from the process
    table. *)
Lemma find_loop_shape {S} (name : string) (procs : list ProcEntry) (s : S) (w : World) :
  match val (ProcessManager.find_loop name procs s w) with
  | Return pid =>
      exists before pname after,
        procs = before ++ ProcInfo pid (Some pname) :: after
        /\ name_matches (str_lower w) name pname = true
        /\ Forall (passed_over (str_lower w) name) before
  | Raise e =>
      (e = RuntimeError ("No process matching '" ++ name ++ "' found")
       /\ Forall (passed_over (str_lower w) name) procs)
      \/ (e = AttributeError "'NoneType' object has no attribute 'lower'"
          /\ exists before pid after,
               procs = before ++ ProcInfo pid None :: after
               /\ Forall (passed_over (str_lower w) name) before)
  end.
Proof.
  induction procs as [|e rest IH].
  - cbn. left. split; [reflexivity | constructor].
  - assert (Hstep : passed_over (str_lower w) name e ->
              match val (ProcessManager.find_loop name rest s w) with
              | Return pid =>
                  exists before pname after,
                    e :: rest = before ++ ProcInfo pid (Some pname) :: after
                    /\ name_matches (str_lower w) name pname = true
                    /\ Forall (passed_over (str_lower w) name) before
              | Raise e0 =>
                  (e0 = RuntimeError ("No process matching '" ++ name ++ "' found")
                   /\ Forall (passed_over (str_lower w) name) (e :: rest))
                  \/ (e0 = AttributeError "'NoneType' object has no attribute 'lower'"
                      /\ exists before pid after,
                           e :: rest = before ++ ProcInfo pid None :: after
                           /\ Forall (passed_over (str_lower w) name) before)
              end).
    { intros Hp. destruct (val (ProcessManager.find_loop name rest s w)) as [pid|e0].
      - destruct IH as (b & pn & a & -> & Hm & Hb).
        exists (e :: b), pn, a. split; [reflexivity|]. split; [exact Hm|].
        constructor; assumption.
      - destruct IH as [[-> Hall] | [-> (b & pid & a & -> & Hb)]].
        + left. split; [reflexivity | constructor; assumption].
        + right. split; [reflexivity|]. exists (e :: b), pid, a.
          split; [reflexivity | constructor; assumption]. }
    destruct e as [pid [pname|] | |]; cbn [ProcessManager.find_loop].
    + unfold bind, lower.
      destruct (contains (str_lower w name) (str_lower w pname)) eqn:E.
      * cbn. exists [], pname, rest. split; [reflexivity|]. split; [exact E | constructor].
      * apply Hstep. exact E.
    + cbn. right. split; [reflexivity|]. exists [], pid, rest.
      split; [reflexivity | constructor].
    + apply Hstep. exact I.
    + apply Hstep. exact I.
Qed.

Lemma matching_In (lo : string -> string) (name : string) (procs : list ProcEntry)
  (pid : Z) :
  In pid (matching lo name procs)
  <-> exists pname, In (ProcInfo pid (Some pname)) procs
                    /\ name_matches lo name pname = true.
Proof.
  induction procs as [|e rest IH]; cbn [matching].
  - split; [contradiction | intros (pn & [] & _)].
  - destruct e as [p [n|] | |].
    + destruct (name_matches lo name n) eqn:E.
      * cbn [In]. rewrite IH. split.
        -- intros [<- | (pn & Hin & Hm)]; [exists n | exists pn]; cbn; auto.
        -- intros (pn & [Heq | Hin] & Hm).
           ++ injection Heq as -> ->. left. reflexivity.
           ++ right. exists pn. auto.
      * rewrite IH. split.
        -- intros (pn & Hin & Hm). exists pn. cbn. auto.
        -- intros (pn & [Heq | Hin] & Hm).
           ++ injection Heq as -> ->. congruence.
           ++ exists pn. auto.
    + rewrite IH. split; intros (pn & Hin & Hm); exists pn; cbn in *;
        [auto | destruct Hin as [Heq | Hin]; [discriminate | auto]].
    + rewrite IH. split; intros (pn & Hin & Hm); exists pn; cbn in *;
        [auto | destruct Hin as [Heq | Hin]; [discriminate | auto]].
    + rewrite IH. split; intros (pn & Hin & Hm); exists pn; cbn in *;
        [auto | destruct Hin as [Heq | Hin]; [discriminate | auto]].
Qed.

Lemma has_nameless_In (procs : list ProcEntry) :
  has_nameless procs = true <-> exists pid, In (ProcInfo pid None) procs.
Proof.
  induction procs as [|e rest IH]; cbn [has_nameless].
  - split; [discriminate | intros (pid & [])].
  - destruct e as [p [n|] | |].
    + rewrite IH. split; intros (pid & H); exists pid; cbn in *;
        [auto | destruct H as [Heq | H]; [discriminate | auto]].
    + split; [intros _; exists p; left; reflexivity | reflexivity].
    + rewrite IH. split; intros (pid & H); exists pid; cbn in *;
        [auto | destruct H as [Heq | H]; [discriminate | auto]].
    + rewrite IH. split; intros (pid & H); exists pid; cbn in *;
        [auto | destruct H as [Heq | H]; [discriminate | auto]].
Qed.

Lemma named_prefix_all (procs : list ProcEntry) :
  has_nameless procs = false -> named_prefix procs = procs.
Proof.
  induction procs as [|e rest IH]; [reflexivity|].
  destruct e as [p [n|] | |]; cbn [has_nameless named_prefix]; intros H;
    try discriminate; rewrite (IH H); reflexivity.
Qed.

End Resolution.

(** X17. [find_process_by_name] goes through the process table in order. It
    passes over the entries whose reading raises [NoSuchProcess] or
    [AccessDenied] and over the entries whose name does not contain the
    pattern (both lower-cased by [str.lower]). It returns the id of the first
    entry whose name contains the pattern; it raises [RuntimeError] when it
    has passed over every entry; and when it comes to an entry whose name is
    [None] (what psutil gives for a process whose name it may not read)
    before any match, it raises [AttributeError], whatever stands later in
    the table. It leaves its object alone. *)
Theorem find_process_returns_first_match
  {S : Type} (name : string) (s : S) (w : World) :
  let r := ProcessManager.find_process_by_name name s w in
  let lo := str_lower w in
  obj r = s
  /\ match val r with
     | Return pid =>
         exists before pname after,
           process_iter w = before ++ ProcInfo pid (Some pname) :: after
           /\ name_matches lo name pname = true
           /\ Forall (passed_over lo name) before
     | Raise e =>
         (e = RuntimeError ("No process matching '" ++ name ++ "' found")
          /\ Forall (passed_over lo name) (process_iter w))
         \/ (e = AttributeError "'NoneType' object has no attribute 'lower'"
             /\ exists before pid after,
                  process_iter w = before ++ ProcInfo pid None :: after
                  /\ Forall (passed_over lo name) before)
     end.
Proof.
  cbv zeta. split; [apply find_process_quiet|].
  unfold ProcessManager.find_process_by_name. run.
  match goal with
  | |- context [ProcessManager.find_loop ?n ?ps ?s0 ?w0] =>
      pose proof (find_loop_shape n ps s0 w0) as Hs;
      destruct (ProcessManager.find_loop n ps s0 w0) as [v s1 w1]
  end.
  cbn [val] in Hs. simp_in Hs. destruct v as [pid|e]; exact Hs.
Qed.

Section FindAll.

Variable line : Line -> Msg.

Lemma find_all_loop_spec {S} (name : string) (procs : list ProcEntry) :
  forall (acc : list Z) (s : S) (w : World),
    val (find_all_loop line name procs acc s w)
    = (if has_nameless procs then Raise ProcessManager.none_has_no_lower
       else Return (acc ++ matching (str_lower w) name procs))
    /\ obj (find_all_loop line name procs acc s w) = s
    /\ exists evs, trace (world (find_all_loop line name procs acc s w)) = trace w ++ evs.
Proof.
  induction procs as [|e rest IH]; intros acc s w.
  - cbn. rewrite app_nil_r. repeat split. exists []. rewrite app_nil_r. reflexivity.
  - destruct e as [pid [pname|] | |]; cbn [find_all_loop matching has_nameless]; auto.
    + unfold bind, lower, name_matches.
      destruct (contains (str_lower w name) (str_lower w pname)); auto.
      unfold logger, emit.
      destruct (IH (acc ++ [pid]) s
                  (w_emit (EvLog DEBUG (line (LineFoundMatching pname pid))) w))
        as (Hv & Ho & evs & Ht).
      rewrite Hv, Ho, Ht. simp. rewrite <- !app_assoc.
      repeat split. eexists. reflexivity.
    + cbn. repeat split. exists []. rewrite app_nil_r. reflexivity.
Qed.

End FindAll.

(** X18. [find_all_processes_by_name] returns the ids of all entries of the
    process table whose name contains the pattern (both lower-cased by
    [str.lower]), in the order of the table, when every entry it is given has
    a name; [find_process_by_name] then returns the first of them and raises
    [RuntimeError] when there is none. When some entry has the name [None]
    (what psutil gives for a process whose name it may not read), wherever
    it stands in the table, [find_all_processes_by_name] returns no list: it
    logs the error and raises [AttributeError]. It leaves its object
    alone. *)
Theorem find_all_lists_every_match
  {S : Type} (line : Line -> Msg) (name : string) (s : S) (w : World) :
  let all := find_all_processes_by_name line name s w in
  let first := ProcessManager.find_process_by_name name s w in
  let lo := str_lower w in
  let pids := matching lo name (process_iter w) in
  let msg := "'NoneType' object has no attribute 'lower'"%string in
  obj all = s
  /\ (forall pid, In pid pids <->
        exists pname, In (ProcInfo pid (Some pname)) (process_iter w)
                      /\ name_matches lo name pname = true)
  /\ ((forall pid, ~ In (ProcInfo pid None) (process_iter w)) ->
        val all = Return pids
        /\ val first = match pids with
                       | [] => Raise (RuntimeError
                                 ("No process matching '" ++ name ++ "' found"))
                       | pid :: _ => Return pid
                       end)
  /\ ((exists pid, In (ProcInfo pid None) (process_iter w)) ->
        val all = Raise (AttributeError msg)
        /\ exists evs,
             trace (world all)
             = trace w ++ evs ++ [EvLog ERROR (line (LineErrorSearchingAll msg))]).
Proof.
  cbv zeta.
  assert (Hall : obj (find_all_processes_by_name line name s w) = s
            /\ val (find_all_processes_by_name line name s w)
               = (if has_nameless (process_iter w)
                  then Raise ProcessManager.none_has_no_lower
                  else Return (matching (str_lower w) name (process_iter w)))
            /\ (has_nameless (process_iter w) = true ->
                exists evs,
                  trace (world (find_all_processes_by_name line name s w))
                  = trace w ++ evs
                      ++ [EvLog ERROR
                            (line (LineErrorSearchingAll
                                     "'NoneType' object has no attribute 'lower'"))])).
  { unfold find_all_processes_by_name. run.
    destruct (find_all_loop_spec line name (process_iter w) [] s
                (w_emit (EvLog DEBUG (line (LineSearchingAll name))) w))
      as (Hv & Ho & evs & Ht).
    destruct (find_all_loop line name (process_iter w) [] s _) as [v s1 w1].
    cbn [val obj world] in *. simp_in Hv. simp_in Ht. subst v s1. cbn [app].
    destruct (has_nameless (process_iter w)); run.
    - split; [reflexivity|]. split; [reflexivity|]. intros _.
      exists (EvLog DEBUG (line (LineSearchingAll name)) :: evs).
      rewrite Ht, <- !app_assoc. reflexivity.
    - split; [reflexivity|]. split; [reflexivity|]. discriminate. }
  destruct Hall as (Hobj & Hval & Htrace).
  split; [exact Hobj|]. split; [intros pid; apply matching_In|]. split.
  - intros Hnone.
    assert (Hn : has_nameless (process_iter w) = false).
    { destruct (has_nameless (process_iter w)) eqn:E; [|reflexivity].
      apply has_nameless_In in E. destruct E as (pid & Hin).
      exfalso. exact (Hnone pid Hin). }
    rewrite Hval, Hn. split; [reflexivity|].
    rewrite find_process_val, Hn, (named_prefix_all _ Hn).
    destruct (matching (str_lower w) name (process_iter w)); reflexivity.
  - intros Hsome. apply has_nameless_In in Hsome.
    rewrite Hval, Hsome. split; [reflexivity | exact (Htrace Hsome)].
Qed.

Lemma find_all_lists_every_match_witness :
  val (find_all_processes_by_name (fun _ => MsgError "line") "GAME"
         example_throttler denied_world)
  = Return [4242%Z]
  /\ val (ProcessManager.find_process_by_name "GAME" example_throttler denied_world)
     = Return 4242%Z
  /\ val (find_all_processes_by_name (fun _ => MsgError "line") "GAME"
            example_throttler guarded_world)
     = Raise (AttributeError "'NoneType' object has no attribute 'lower'").
Proof.
  destruct (find_all_lists_every_match (fun _ => MsgError "line") "GAME"
              example_throttler denied_world) as (_ & _ & H & _).
  destruct (find_all_lists_every_match (fun _ => MsgError "line") "GAME"
              example_throttler guarded_world) as (_ & _ & _ & H').
  cbv zeta in H, H'.
  assert (Hnone : forall pid, ~ In (ProcInfo pid None) (process_iter denied_world)).
  { intros pid [Hin | [Hin | []]]; discriminate Hin. }
  assert (Hsome : exists pid, In (ProcInfo pid None) (process_iter guarded_world)).
  { exists 4%Z. left. reflexivity. }
  destruct (H Hnone) as [Hall Hfirst]. destruct (H' Hsome) as [Hraise _].
  split; [rewrite Hall; reflexivity|].
  split; [rewrite Hfirst; reflexivity | exact Hraise].
Defined.

Section Ports.

Lemma port_mem_In (p : Z) (ports : list Z) : port_mem p ports = true <-> In p ports.
Proof.
  unfold port_mem. rewrite existsb_exists. split.
  - intros (x & Hin & Heq). apply Z.eqb_eq in Heq. subst x. exact Hin.
  - intros Hin. exists p. split; [exact Hin | apply Z.eqb_refl].
Qed.

Lemma port_add_In (p q : Z) (ports : list Z) :
  In p (port_add q ports) <-> p = q \/ In p ports.
Proof.
  unfold port_add. destruct (port_mem q ports) eqn:E.
  - apply port_mem_In in E. split; [auto | intros [-> | H]; auto].
  - rewrite in_app_iff. cbn. intuition.
Qed.

Lemma port_add_NoDup (q : Z) (ports : list Z) :
  NoDup ports -> NoDup (port_add q ports).
Proof.
  intros Hnd. unfold port_add. destruct (port_mem q ports) eqn:E; [exact Hnd|].
  assert (Hq : ~ In q ports).
  { intros Hin. apply port_mem_In in Hin. congruence. }
  clear E. induction Hnd as [|x l Hx Hl IH]; cbn.
  - constructor; [intros [] | constructor].
  - constructor.
    + rewrite in_app_iff. cbn. intros [H | [H | []]]; [auto | subst; apply Hq; left; auto].
    + apply IH. intros H. apply Hq. right. exact H.
Qed.

Lemma collect_ports_spec (conns : list Conn) :
  forall acc : list Z,
    NoDup acc ->
    NoDup (ProcessManager.collect_ports conns acc)
    /\ forall p, In p (ProcessManager.collect_ports conns acc)
                 <-> In p acc \/ exists c, In c conns /\ conn_has c p.
Proof.
  induction conns as [|c rest IH]; intros acc Hnd.
  - cbn. split; [exact Hnd|]. intros p. split; [auto | intros [H | (c & [] & _)]; exact H].
  - cbn [ProcessManager.collect_ports].
    set (p1 := match laddr c with Some a => port_add (port a) acc | None => acc end).
    set (p2 := match raddr c with Some a => port_add (port a) p1 | None => p1 end).
    assert (H1 : NoDup p1 /\ forall p, In p p1 <->
                   In p acc \/ exists a, laddr c = Some a /\ port a = p).
    { unfold p1. destruct (laddr c) as [a|].
      - split; [apply port_add_NoDup; exact Hnd|]. intros p. rewrite port_add_In.
        split.
        + intros [-> | H]; [right; exists a; auto | auto].
        + intros [H | (a' & Ha & Hp)]; [auto|]. injection Ha as <-. auto.
      - split; [exact Hnd|]. intros p. split; [auto | intros [H | (a & Ha & _)]];
          [exact H | discriminate]. }
    destruct H1 as [Hnd1 Hin1].
    assert (H2 : NoDup p2 /\ forall p, In p p2 <-> In p acc \/ conn_has c p).
    { unfold p2, conn_has. destruct (raddr c) as [a|].
      - split; [apply port_add_NoDup; exact Hnd1|]. intros p.
        rewrite port_add_In, Hin1. split.
        + intros [-> | [H | H]]; [right; right; exists a; auto | auto | auto].
        + intros [H | [H | (a' & Ha & Hp)]]; [auto | auto |].
          injection Ha as <-. auto.
      - split; [exact Hnd1|]. intros p. rewrite Hin1. split.
        + intros [H | H]; auto.
        + intros [H | [H | (a & Ha & _)]]; [auto | auto | discriminate]. }
    destruct H2 as [Hnd2 Hin2].
    destruct (IH p2 Hnd2) as [Hnd3 Hin3]. split; [exact Hnd3|].
    intros p. rewrite Hin3, Hin2. split.
    + intros [[H | H] | (c' & Hc & Hp)]; [auto | right; exists c; cbn; auto |].
      right. exists c'. cbn. auto.
    + intros [H | (c' & [<- | Hc] & Hp)]; [auto | auto |].
      right. exists c'. auto.
Qed.

(** What the set of ports is iterated as: each of its elements, once. *)
Lemma arranged_ports (o : SetOrder) (conns : list Conn) :
  NoDup (arrange o (ProcessManager.collect_ports conns []))
  /\ forall p, In p (arrange o (ProcessManager.collect_ports conns []))
               <-> exists c, In c conns /\ conn_has c p.
Proof.
  destruct (collect_ports_spec conns [] (NoDup_nil Z)) as [Hnd Hin].
  pose proof (arrange_perm o (ProcessManager.collect_ports conns [])) as Hp.
  split.
  - apply (Permutation_NoDup (Permutation_sym Hp)). exact Hnd.
  - intros p. split.
    + intros H. apply (Permutation_in _ Hp) in H. apply Hin in H.
      destruct H as [[] | H]. exact H.
    + intros H. apply (Permutation_in _ (Permutation_sym Hp)).
      apply Hin. right. exact H.
Qed.

End Ports.

(** X19. [get_process_ports] never raises. When the connections of the
    process can be listed it returns each local and each remote port of each
    connection, once; on any failure (process gone, access denied, any other
    exception) it returns the empty set. *)
Theorem ports_are_the_connections_ports {S : Type} (pid : Z) (s : S) (w : World) :
  let r := ProcessManager.get_process_ports pid s w in
  exists ports,
    val r = Return ports
    /\ obj r = s
    /\ NoDup ports
    /\ forall p, In p ports <->
         match net_connections w pid with
         | PsConnections cs => exists c, In c cs /\ conn_has c p
         | _ => False
         end.
Proof.
  cbv zeta.
  unfold ProcessManager.get_process_ports, ProcessManager.psutil_net_connections. run.
  destruct (net_connections w pid) as [cs | | | e]; run.
  - destruct (arranged_ports (set_iter w) cs) as [Hnd Hin].
    exists (arrange (set_iter w) (ProcessManager.collect_ports cs [])).
    repeat split; auto; apply Hin.
  - exists []. repeat split; auto; try constructor; contradiction.
  - exists []. repeat split; auto; try constructor; contradiction.
  - exists []. repeat split; auto; try constructor; contradiction.
Qed.

Lemma ports_never_raise {S} (pid : Z) (s : S) (w : World) :
  exists ports,
    val (ProcessManager.get_process_ports pid s w) = Return ports
    /\ obj (ProcessManager.get_process_ports pid s w) = s.
Proof.
  unfold ProcessManager.get_process_ports, ProcessManager.psutil_net_connections. run.
  destruct (net_connections w pid); run; eexists; split; reflexivity.
Qed.

Section Startup2.

Import NetworkThrottler ThrottlingConfig.

Lemma quiet_opens (w w' : World) :
  quiet_step w w' -> opens_of (trace w') = opens_of (trace w).
Proof.
  intros (_ & _ & _ & evs & Ht & He). rewrite Ht, opens_of_app, He, app_nil_r.
  reflexivity.
Qed.

(** The search leaves the order of sets as it is. *)
Lemma find_loop_set_iter {S} (name : string) (procs : list ProcEntry) (s : S) (w : World) :
  set_iter (world (ProcessManager.find_loop name procs s w)) = set_iter w.
Proof.
  induction procs as [|e rest IH]; [reflexivity|].
  destruct e as [pid [pname|] | |]; cbn [ProcessManager.find_loop]; auto.
  unfold bind, lower.
  destruct (contains (str_lower w name) (str_lower w pname)); [reflexivity | exact IH].
Qed.

Lemma find_process_set_iter {S} (name : string) (s : S) (w : World) :
  set_iter (world (ProcessManager.find_process_by_name name s w)) = set_iter w.
Proof.
  unfold ProcessManager.find_process_by_name. run.
  match goal with
  | |- context [ProcessManager.find_loop ?n ?ps ?s0 ?w0] =>
      pose proof (find_loop_set_iter n ps s0 w0) as Hs;
      destruct (ProcessManager.find_loop n ps s0 w0) as [v s1 w1]
  end.
  cbn [world] in Hs. simp_in Hs. destruct v; run; exact Hs.
Qed.

(** The search only logs. *)
Lemma find_loop_trace {S} (name : string) (procs : list ProcEntry) (s : S) (w : World) :
  exists evs,
    trace (world (ProcessManager.find_loop name procs s w)) = trace w ++ evs
    /\ forallb is_log evs = true.
Proof.
  induction procs as [|e rest IH].
  - exists []. cbn. rewrite app_nil_r. split; reflexivity.
  - destruct e as [pid [pname|] | |]; cbn [ProcessManager.find_loop]; auto.
    + unfold bind, lower.
      destruct (contains (str_lower w name) (str_lower w pname)); [|exact IH].
      eexists. cbn. split; reflexivity.
    + exists []. cbn. rewrite app_nil_r. split; reflexivity.
Qed.

Lemma find_process_trace {S} (name : string) (s : S) (w : World) :
  exists evs,
    trace (world (ProcessManager.find_process_by_name name s w)) = trace w ++ evs
    /\ forallb is_log evs = true.
Proof.
  unfold ProcessManager.find_process_by_name. run.
  match goal with
  | |- context [ProcessManager.find_loop ?n ?ps ?s0 ?w0] =>
      destruct (find_loop_trace n ps s0 w0) as (evs & Ht & Hl);
      destruct (ProcessManager.find_loop n ps s0 w0) as [v s1 w1]
  end.
  cbn [world] in Ht. simp_in Ht. destruct v as [pid|e]; run.
  - exists (EvLog DEBUG (MsgSearching name) :: evs).
    rewrite Ht, <- app_assoc. split; [reflexivity | exact Hl].
  - exists ((EvLog DEBUG (MsgSearching name) :: evs)
            ++ [EvLog ERROR (MsgErrorSearching (str_of_exn e))]).
    rewrite Ht, <- !app_assoc. split; [reflexivity|].
    cbn [app forallb is_log andb]. rewrite forallb_app, Hl. reflexivity.
Qed.

(** The search has found nothing: what [_initialize_target_process] does
    with the exception. Only a [RuntimeError] reaches its handler. *)
Lemma initialize_not_found (st : NetworkThrottler.t) (w : World) :
  matching (str_lower w) (process_name_substring (config st))
    (named_prefix (process_iter w)) = [] ->
  let name := process_name_substring (config st) in
  let e := RuntimeError ("No process matching '" ++ name ++ "' found") in
  let w1 := world (ProcessManager.find_process_by_name name st w) in
  _initialize_target_process st w
  = if has_nameless (process_iter w)
    then mkRes (Raise ProcessManager.none_has_no_lower) st w1
    else mkRes (Raise e) st
           (w_emit (EvPrint (MsgMakeSureRunning name))
              (w_emit (EvPrint (MsgError (str_of_exn e)))
                 (w_emit (EvLog ERROR (MsgFailedToFind (str_of_exn e))) w1))).
Proof.
  intros Hm. cbv zeta. unfold _initialize_target_process. run.
  pose proof (find_process_val (process_name_substring (config st)) st w) as Hv.
  destruct (find_process_quiet (process_name_substring (config st)) st w) as [Ho _].
  rewrite Hm in Hv.
  destruct (ProcessManager.find_process_by_name
              (process_name_substring (config st)) st w) as [v s1 w1].
  cbn [val obj world] in *. subst v s1.
  destruct (has_nameless (process_iter w)); unfold init_failed; run; reflexivity.
Qed.

Lemma initialize_found (st : NetworkThrottler.t) (w : World) (pid : Z) (rest : list Z) :
  matching (str_lower w) (process_name_substring (config st))
    (named_prefix (process_iter w)) = pid :: rest ->
  let r := _initialize_target_process st w in
  val r = Return tt
  /\ _target_pid (obj r) = Some pid
  /\ _target_ports (obj r)
     = match net_connections w pid with
       | PsConnections cs => arrange (set_iter w) (ProcessManager.collect_ports cs [])
       | _ => []
       end
  /\ config (obj r) = config st.
Proof.
  intros Hm. cbv zeta. unfold _initialize_target_process. run.
  pose proof (find_process_val (process_name_substring (config st)) st w) as Hv.
  pose proof (find_process_set_iter (process_name_substring (config st)) st w) as Hs.
  destruct (find_process_quiet (process_name_substring (config st)) st w)
    as [Ho (_ & _ & Hn & _)].
  rewrite Hm in Hv.
  destruct (ProcessManager.find_process_by_name
              (process_name_substring (config st)) st w) as [v s1 w1].
  cbn [val obj world] in *. subst v s1. simp.
  unfold ProcessManager.get_process_ports, ProcessManager.psutil_net_connections.
  run. rewrite Hn.
  destruct (net_connections w pid) as [cs | | | e]; run; rewrite ?Hs; repeat split.
Qed.

End Startup2.

(** X20. How [run] resolves its target. [find_process_by_name] gives the
    first entry of the process table whose name contains the configured
    name, if no entry before it has the name [None]: this process is the
    target, and the target ports are the ports of its connections, in the
    order in which the set of them is iterated, or none when they cannot be
    listed. When the search finds nothing, [_initialize_target_process]
    changes nothing in the throttler and passes the exception on, and the
    start of [run] ends with it without starting the key listener or
    opening capture. The exception is a [RuntimeError] when no entry
    matched, and [_initialize_target_process] then logs it and tells the
    user to make sure that the process is running; it is the
    [AttributeError] of an entry without a name otherwise, and
    [_initialize_target_process] then logs and prints nothing of its own:
    only the search has logged. *)
Theorem target_resolution (st : NetworkThrottler.t) (w : World) :
  let name := ThrottlingConfig.process_name_substring (NetworkThrottler.config st) in
  let r := NetworkThrottler._initialize_target_process st w in
  let start := NetworkThrottler.run_startup st w in
  match matching (str_lower w) name (named_prefix (process_iter w)) with
  | pid :: _ =>
      val r = Return tt
      /\ NetworkThrottler._target_pid (obj r) = Some pid
      /\ NetworkThrottler._target_ports (obj r)
         = match net_connections w pid with
           | PsConnections cs =>
               arrange (set_iter w) (ProcessManager.collect_ports cs [])
           | _ => []
           end
  | [] =>
      let e := if has_nameless (process_iter w)
               then AttributeError "'NoneType' object has no attribute 'lower'"
               else RuntimeError ("No process matching '" ++ name ++ "' found") in
      val r = Raise e
      /\ obj r = st
      /\ start = mkRes (Raise e) st (world r)
      /\ opens_of (trace (world r)) = opens_of (trace w)
      /\ exists evs,
           trace (world r) = trace w ++ evs
           /\ if has_nameless (process_iter w)
              then forallb is_log evs = true
              else exists evs',
                     evs = evs' ++ [EvLog ERROR (MsgFailedToFind (str_of_exn e));
                                    EvPrint (MsgError (str_of_exn e));
                                    EvPrint (MsgMakeSureRunning name)]
  end.
Proof.
  cbv zeta.
  destruct (matching _ _ (named_prefix (process_iter w))) as [|pid rest] eqn:Hm.
  - pose proof (initialize_not_found st w Hm) as Hi. cbv zeta in Hi.
    unfold NetworkThrottler.run_startup, bind. rewrite Hi.
    pose proof (find_process_trace
                  (ThrottlingConfig.process_name_substring (NetworkThrottler.config st))
                  st w) as (evs & Ht & Hlog).
    destruct (find_process_quiet
                (ThrottlingConfig.process_name_substring (NetworkThrottler.config st))
                st w) as [_ Hq].
    pose proof (quiet_opens _ _ Hq) as Hop.
    destruct (has_nameless (process_iter w)); cbn [val obj world]; unfold ret;
      cbn [val obj world trace w_emit].
    + split; [reflexivity|]. split; [reflexivity|]. split; [reflexivity|].
      split; [exact Hop|]. exists evs. split; assumption.
    + split; [reflexivity|]. split; [reflexivity|]. split; [reflexivity|].
      split; [rewrite !opens_of_app; cbn; rewrite !app_nil_r; exact Hop|].
      eexists. rewrite Ht, <- !app_assoc. cbn [app]. split; [reflexivity|].
      exists evs. reflexivity.
  - destruct (initialize_found st w pid rest Hm) as (H1 & H2 & H3 & _).
    repeat split; assumption.
Qed.

Lemma target_resolution_witness :
  val (NetworkThrottler.run_startup example_throttler guarded_world)
  = Raise (AttributeError "'NoneType' object has no attribute 'lower'")
  /\ NetworkThrottler._target_ports
       (obj (NetworkThrottler._initialize_target_process example_throttler game_world))
     = [443; 50007]%Z.
Proof.
  pose proof (target_resolution example_throttler guarded_world) as H.
  pose proof (target_resolution example_throttler game_world) as H'.
  cbv zeta in H, H'.
  change (matching (str_lower guarded_world)
            (ThrottlingConfig.process_name_substring
               (NetworkThrottler.config example_throttler))
            (named_prefix (process_iter guarded_world))) with (@nil Z) in H.
  change (matching (str_lower game_world)
            (ThrottlingConfig.process_name_substring
               (NetworkThrottler.config example_throttler))
            (named_prefix (process_iter game_world))) with [4242%Z] in H'.
  destruct H as (_ & _ & Hstart & _). destruct H' as (_ & _ & Hports).
  split; [rewrite Hstart; reflexivity | rewrite Hports; reflexivity].
Defined.

(** ** Opening capture *)

(** X21. Entering [_packet_capture_context] opens the filter built from the
    target ports and then at most two more; it changes nothing in the
    throttler. If the driver accepts the basic filter whenever it is asked,
    capture always starts. When capture does not start, the last filter
    tried was the basic one and the error raised is the one of the first
    open. *)
Theorem capture_starts_if_basic_opens (st : NetworkThrottler.t) (w : World) :
  let r := NetworkThrottler._packet_capture_context st w in
  obj r = st
  /\ exists tried,
       opens_of (trace (world r))
       = opens_of (trace w) ++ NetworkThrottler.filter_str st :: tried
       /\ (List.length tried <= 2)%nat
       /\ opens (world r) = (S (List.length tried) + opens w)%nat
       /\ ((forall k, exists h, driver w k NetworkThrottler.basic_filter = Opened h) ->
           exists h, val r = Return h)
       /\ (forall e, val r = Raise e ->
             last tried EmptyString = NetworkThrottler.basic_filter
             /\ exists msg,
                  e = Exception msg
                  /\ driver w (opens w) (NetworkThrottler.filter_str st) = OpenFailed msg).
Proof.
  cbv zeta. unfold NetworkThrottler._packet_capture_context, NetworkThrottler.try_basic.
  run.
  destruct (driver w (opens w) (NetworkThrottler.filter_str st)) as [h|msg] eqn:E0; run.
  - split; [reflexivity|]. exists []. rewrite !opens_of_app. cbn. rewrite app_nil_r.
    repeat split; auto; try (eexists; reflexivity); discriminate.
  - destruct (NetworkThrottler.truthy (NetworkThrottler._target_ports st)
              && contains "parameter is incorrect" msg) eqn:Esig; run.
    + destruct (driver w (S (opens w)) _) as [h|e2] eqn:E1; run.
      * split; [reflexivity|]. eexists [_]. rewrite !opens_of_app. cbn.
        rewrite !app_nil_r, <- !app_assoc.
        repeat split; auto; try (eexists; reflexivity); discriminate.
      * destruct (driver w (S (S (opens w))) NetworkThrottler.basic_filter)
          as [h|e3] eqn:E2; run;
          (split; [reflexivity|]); eexists [_; _]; rewrite !opens_of_app; cbn;
          rewrite !app_nil_r, <- !app_assoc.
        -- repeat split; auto; try (eexists; reflexivity); discriminate.
        -- repeat split; auto.
           ++ intros Hb. destruct (Hb (S (S (opens w)))) as [h Hh]. congruence.
           ++ injection H as <-. exists msg. auto.
    + destruct (driver w (S (opens w)) NetworkThrottler.basic_filter) as [h|e3] eqn:E2; run;
        (split; [reflexivity|]); eexists [_]; rewrite !opens_of_app; cbn;
        rewrite !app_nil_r, <- !app_assoc.
      * repeat split; auto; try (eexists; reflexivity); discriminate.
      * repeat split; auto.
        -- intros Hb. destruct (Hb (S (opens w))) as [h Hh]. congruence.
        -- injection H as <-. exists msg. auto.
Qed.

Lemma capture_starts_if_basic_opens_witness :
  exists h,
    val (NetworkThrottler._packet_capture_context
           (NetworkThrottler.set_target_ports (some_ports 30) example_throttler)
           picky_world) = Return h.
Proof.
  destruct (capture_starts_if_basic_opens
              (NetworkThrottler.set_target_ports (some_ports 30) example_throttler)
              picky_world) as (_ & tried & _ & _ & _ & H & _).
  apply H. intros k. exists 7%nat. reflexivity.
Defined.

(** ** Configuration *)

Lemma get_windivert_filter_eq (cfg : ThrottlingConfig.t) (ports : list Z) :
  get_windivert_filter cfg ports
  = if NetworkThrottler.truthy ports then NetworkThrottler.port_filter ports
    else NetworkThrottler.range_filter 49000 65000.
Proof.
  unfold get_windivert_filter. destruct (NetworkThrottler.truthy ports); reflexivity.
Qed.

(** X22. [ThrottlingConfig.get_windivert_filter] and the filter the throttler
    builds: for 1 to 20 ports they are the same text; for more than 20 ports
    the configuration's filter still lists every port where the throttler
    falls back to the port range; for no port the configuration's filter is
    the range 49000 to 65000 whatever range is configured. *)
Theorem config_filter_against_throttler_filter (st : NetworkThrottler.t) :
  let ports := NetworkThrottler._target_ports st in
  let cfg := NetworkThrottler.config st in
  ((1 <= List.length ports <= 20)%nat ->
     get_windivert_filter cfg ports = NetworkThrottler.filter_str st)
  /\ ((20 < List.length ports)%nat ->
        get_windivert_filter cfg ports = NetworkThrottler.port_filter ports
        /\ get_windivert_filter cfg ports <> NetworkThrottler.filter_str st)
  /\ (forall cfg', get_windivert_filter cfg' [] = NetworkThrottler.range_filter 49000 65000)
  /\ (forall cfg', get_windivert_filter cfg' ports = get_windivert_filter cfg ports).
Proof.
  cbv zeta. unfold NetworkThrottler.filter_str, NetworkThrottler.MAX_LISTED_PORTS.
  split; [|split; [|split]].
  - intros [H1 H2]. rewrite get_windivert_filter_eq.
    destruct (NetworkThrottler._target_ports st) as [|p rest]; [cbn in H1; lia|].
    cbn [NetworkThrottler.truthy andb].
    destruct (Z.leb_spec (Z.of_nat (List.length (p :: rest))) 20); [reflexivity | lia].
  - intros H. rewrite get_windivert_filter_eq.
    destruct (NetworkThrottler._target_ports st) as [|p rest] eqn:E; [cbn in H; lia|].
    cbn [NetworkThrottler.truthy andb].
    destruct (Z.leb_spec (Z.of_nat (List.length (p :: rest))) 20); [lia|].
    split; [reflexivity | apply port_filter_not_range; discriminate].
  - intros cfg'. reflexivity.
  - intros cfg'. rewrite !get_windivert_filter_eq. reflexivity.
Qed.

Lemma config_filter_against_throttler_filter_witness :
  get_windivert_filter example_config (some_ports 20)
  = NetworkThrottler.filter_str
      (NetworkThrottler.set_target_ports (some_ports 20) example_throttler).
Proof.
  destruct (config_filter_against_throttler_filter
              (NetworkThrottler.set_target_ports (some_ports 20) example_throttler))
    as (H & _).
  cbv zeta in H. apply H. cbn. lia.
Defined.

(** ** Latency *)

Section Latency.

Import NetworkThrottler ThrottlingConfig.

Lemma throttle_clock (s : Z) (l : BandwidthLimiter.t) (w : World) :
  monotone_clock w ->
  clock w <= clock (world (BandwidthLimiter.throttle s l w))
  /\ lag (world (BandwidthLimiter.throttle s l w)) = lag w.
Proof.
  intros Hm. unfold monotone_clock in Hm.
  pose proof (Hm (reads w)). pose proof (Hm (S (reads w))).
  pose proof (Hm (S (S (reads w)))). pose proof (Hm (S (S (S (reads w))))).
  unfold BandwidthLimiter.throttle, BandwidthLimiter._refill_tokens,
    BandwidthLimiter._reset_window_if_needed. run.
  split_ifs; qh; split; auto; lra.
Qed.

Lemma forward_clock (p : Packet) (b : bool) (st : NetworkThrottler.t) (w : World) :
  monotone_clock w -> clock w <= clock (world (forward p b st w)).
Proof.
  intros Hm. pose proof (Hm (reads w)).
  unfold forward, _update_status, on_limiter, BandwidthLimiter.get_current_rate_kbps.
  run. split_ifs; lra.
Qed.

End Latency.

(** X24. With a clock that does not go back, a packet that is processed while
    throttling is on and is not dropped leaves [_process_packet] at least
    the configured delay after it entered it. *)
Theorem shaped_packet_is_delayed (p : Packet) (st : NetworkThrottler.t) (w : World)
  (Hmono : monotone_clock w)
  (Hon : NetworkThrottler._throttling_enabled st = true)
  (Hkept : is_dropped st w = false) :
  clock w + ThrottlingConfig.lag_delay_seconds (NetworkThrottler.config st)
  <= clock (world (NetworkThrottler._process_packet p st w)).
Proof.
  unfold is_dropped in Hkept. rewrite Hon in Hkept. cbn [andb] in Hkept.
  unfold NetworkThrottler._process_packet, NetworkThrottler.on_statistics,
    ThrottlingStatistics.increment_processed,
    ThrottlingStatistics.increment_throttled,
    ThrottlingStatistics.increment_dropped,
    NetworkThrottler._should_drop_packet, NetworkThrottler._apply_throttling,
    NetworkThrottler.on_limiter.
  run. rewrite Hon. simp. rewrite Hkept. simp.
  destruct (throttle_clock (packet_len p) (NetworkThrottler.bandwidth_limiter st)
              (w_drawn (w_emit (EvRandom (rand w (draws w))) w)) Hmono) as [Hc Hl].
  destruct (BandwidthLimiter.throttle (packet_len p)
              (NetworkThrottler.bandwidth_limiter st)
              (w_drawn (w_emit (EvRandom (rand w (draws w))) w))) as [x l1 w1].
  cbn [world] in Hc, Hl. simp_in Hc. simp_in Hl. simp.
  destruct (Z.ltb_spec 0 (ThrottlingConfig.lag_delay_ms (NetworkThrottler.config st)))
    as [Hpos | Hnp]; simp;
    match goal with
    | |- context [NetworkThrottler.forward ?p ?b ?s ?w0] =>
        assert (Hm0 : monotone_clock w0)
          by (unfold monotone_clock; simp; rewrite Hl; exact Hmono);
        pose proof (forward_clock p b s w0 Hm0) as Hf;
        destruct (NetworkThrottler.forward p b s w0) as [v2 s2 w2]
    end; cbn [world] in *; simp_in Hf.
  - lra.
  - assert (Hs : ThrottlingConfig.lag_delay_seconds (NetworkThrottler.config st) <= 0).
    { unfold ThrottlingConfig.lag_delay_seconds.
      apply Qle_shift_div_r; [reflexivity|].
      assert (inject_Z (ThrottlingConfig.lag_delay_ms (NetworkThrottler.config st))
              <= inject_Z 0) by (rewrite <- Zle_Qle; exact Hnp).
      change (inject_Z 0) with 0 in *. lra. }
    lra.
Qed.

Lemma shaped_packet_is_delayed_witness :
  clock example_world
  + ThrottlingConfig.lag_delay_seconds (NetworkThrottler.config lossless_throttler)
  <= clock (world (NetworkThrottler._process_packet example_packet
                     lossless_throttler example_world)).
Proof.
  assert (Hmono : monotone_clock example_world)
    by (intros k; vm_compute; discriminate).
  apply (shaped_packet_is_delayed example_packet lossless_throttler example_world
           Hmono eq_refl eq_refl).
Defined.

(** ** From the target to the capture filter *)

Section StartupPath.

Import NetworkThrottler ThrottlingConfig.

Lemma get_process_ports_quiet {S} (pid : Z) (s : S) (w : World) :
  quiet_step w (world (ProcessManager.get_process_ports pid s w)).
Proof.
  unfold ProcessManager.get_process_ports, ProcessManager.psutil_net_connections,
    quiet_step.
  run. destruct (net_connections w pid); run; rewrite <- app_assoc;
    repeat split; eexists; split; reflexivity.
Qed.

Lemma initialize_found_quiet (st : NetworkThrottler.t) (w : World) (pid : Z)
  (rest : list Z) :
  matching (str_lower w) (process_name_substring (config st))
    (named_prefix (process_iter w)) = pid :: rest ->
  quiet_step w (world (_initialize_target_process st w))
  /\ keyboard_handler (obj (_initialize_target_process st w)) = keyboard_handler st.
Proof.
  intros Hm. unfold _initialize_target_process. run.
  pose proof (find_process_val (process_name_substring (config st)) st w) as Hv.
  destruct (find_process_quiet (process_name_substring (config st)) st w) as [Ho Hq].
  rewrite Hm in Hv.
  destruct (ProcessManager.find_process_by_name
              (process_name_substring (config st)) st w) as [v s1 w1].
  cbn [val obj world] in *. subst v s1. simp.
  match goal with
  | |- context [ProcessManager.get_process_ports ?p ?s0 ?w0] =>
      pose proof (get_process_ports_quiet p s0 w0) as Hq';
      pose proof (ports_never_raise p s0 w0) as Hr;
      destruct (ProcessManager.get_process_ports p s0 w0) as [v2 s2 w2]
  end.
  cbn [val obj world] in *. destruct Hr as (ports & -> & ->). simp.
  split; [|reflexivity].
  eapply quiet_trans; [exact Hq|].
  eapply quiet_trans; [|apply quiet_emit; reflexivity].
  eapply quiet_trans; [|exact Hq']. apply quiet_emit; reflexivity.
Qed.

Lemma capture_first_open (st : NetworkThrottler.t) (w : World) :
  let r := _packet_capture_context st w in
  obj r = st
  /\ exists tried,
       opens_of (trace (world r)) = opens_of (trace w) ++ filter_str st :: tried
       /\ forall h, driver w (opens w) (filter_str st) = Opened h ->
                    val r = Return h /\ tried = [].
Proof.
  cbv zeta. unfold _packet_capture_context, try_basic. run.
  destruct (driver w (opens w) (filter_str st)) as [h|msg] eqn:E0; run.
  - split; [reflexivity|]. exists []. rewrite !opens_of_app. cbn. rewrite app_nil_r.
    split; [reflexivity|]. intros h' Hh. injection Hh as <-. auto.
  - destruct (truthy (_target_ports st) && contains "parameter is incorrect" msg); run.
    + destruct (driver w (S (opens w)) _) as [h|e2]; run;
        [|destruct (driver w (S (S (opens w))) basic_filter) as [h|e3]; run];
        (split; [reflexivity|]); rewrite !opens_of_app; cbn;
        rewrite ?app_nil_r, <- ?app_assoc; eexists;
        (split; [reflexivity | intros h' Hh; discriminate Hh]).
    + destruct (driver w (S (opens w)) basic_filter) as [h|e3]; run;
        (split; [reflexivity|]); rewrite !opens_of_app; cbn;
        rewrite ?app_nil_r, <- ?app_assoc; eexists;
        (split; [reflexivity | intros h' Hh; discriminate Hh]).
Qed.

Lemma setup_keyboard_more (st : NetworkThrottler.t) (w : World) :
  _target_pid (obj (_setup_keyboard_handler st w)) = _target_pid st
  /\ KeyboardHandler._running (keyboard_handler (obj (_setup_keyboard_handler st w)))
     = true.
Proof.
  unfold _setup_keyboard_handler, on_keyboard, KeyboardHandler.register_callback,
    KeyboardHandler.start.
  run. split; reflexivity.
Qed.

Lemma filter_str_ext (a b : NetworkThrottler.t) :
  config a = config b -> _target_ports a = _target_ports b ->
  filter_str a = filter_str b.
Proof.
  intros Hc Hp. unfold filter_str. rewrite Hc, Hp. reflexivity.
Qed.

End StartupPath.

(** X25. When the search finds a process (the first entry of the process
    table whose name contains the configured name, no entry before it having
    the name [None]), the start of [run] resolves it, starts the key
    listener, and then opens capture first with the filter built from the
    ports it found for that process, taken in the order in which the set of
    them is iterated (the precise filter for 1 to 20 ports, the range filter
    otherwise); when the driver accepts that filter, capture starts with it
    and nothing else is opened. *)
Theorem startup_opens_the_filter_of_the_target
  (st : NetworkThrottler.t) (w : World) (pid : Z) (rest : list Z)
  (Hmatch : matching (str_lower w)
              (ThrottlingConfig.process_name_substring (NetworkThrottler.config st))
              (named_prefix (process_iter w)) = pid :: rest) :
  let ports := match net_connections w pid with
               | PsConnections cs =>
                   arrange (set_iter w) (ProcessManager.collect_ports cs [])
               | _ => []
               end in
  let first := NetworkThrottler.filter_str (NetworkThrottler.set_target_ports ports st) in
  let r := NetworkThrottler.run_startup st w in
  NetworkThrottler._target_pid (obj r) = Some pid
  /\ NetworkThrottler._target_ports (obj r) = ports
  /\ KeyboardHandler._running (NetworkThrottler.keyboard_handler (obj r)) = true
  /\ exists tried,
       opens_of (trace (world r)) = opens_of (trace w) ++ first :: tried
       /\ forall h, driver w (opens w) first = Opened h ->
                    val r = Return h /\ tried = [].
Proof.
  cbv zeta. remember (NetworkThrottler.run_startup st w) as r eqn:Hr.
  unfold NetworkThrottler.run_startup, bind in Hr.
  destruct (initialize_found st w pid rest Hmatch) as (Hv & Hpid & Hp & Hc).
  destruct (initialize_found_quiet st w pid rest Hmatch) as (Hq & _).
  destruct (NetworkThrottler._initialize_target_process st w) as [v s1 w1].
  cbn [val obj world] in *. subst v.
  destruct (setup_keyboard_quiet s1 w1) as (Hp2 & Hc2 & Hq2).
  destruct (setup_keyboard_more s1 w1) as (Hpid2 & Hrun2).
  destruct (NetworkThrottler._setup_keyboard_handler s1 w1) as [v2 s2 w2].
  cbn [val obj world] in *. unfold get, print, emit in Hr.
  match type of Hr with
  | _ = NetworkThrottler._packet_capture_context ?s0 ?w0 =>
      assert (Hq3 : quiet_step w w0);
      [ eapply quiet_trans; [exact Hq|];
        eapply quiet_trans; [exact Hq2|];
        eapply quiet_trans; [|apply quiet_emit; reflexivity];
        apply quiet_emit; reflexivity
      | generalize dependent w0 ]
  end.
  intros wx Hr Hq3. subst r.
  destruct (capture_first_open s2 wx) as (Hobj & tried & Ho & Hsucc).
  destruct (NetworkThrottler._packet_capture_context s2 wx) as [v3 s3 w3].
  cbn [val obj world] in *. subst s3.
  assert (Hf : NetworkThrottler.filter_str s2
               = NetworkThrottler.filter_str
                   (NetworkThrottler.set_target_ports
                      (match net_connections w pid with
                       | PsConnections cs =>
                           arrange (set_iter w) (ProcessManager.collect_ports cs [])
                       | _ => []
                       end) st)).
  { apply filter_str_ext; simp; congruence. }
  pose proof (quiet_opens _ _ Hq3) as Hopens.
  destruct Hq3 as (Hd & Hop & _).
  rewrite Hf, Hd, Hop in *.
  split; [congruence|]. split; [congruence|]. split; [exact Hrun2|].
  exists tried. rewrite Ho, Hopens. split; [reflexivity | exact Hsucc].
Qed.

Lemma startup_opens_the_filter_of_the_target_witness :
  let r := NetworkThrottler.run_startup example_throttler game_world in
  val r = Return 7%nat
  /\ NetworkThrottler._target_ports (obj r) = [443; 50007]%Z
  /\ opens_of (trace (world r))
     = [("(tcp or udp) and ("
         ++ "tcp.SrcPort == 443 or tcp.DstPort == 443"
         ++ " or udp.SrcPort == 443 or udp.DstPort == 443"
         ++ " or tcp.SrcPort == 50007 or tcp.DstPort == 50007"
         ++ " or udp.SrcPort == 50007 or udp.DstPort == 50007"
         ++ ")")%string].
Proof.
  cbv zeta.
  assert (Hm : matching (str_lower game_world)
                 (ThrottlingConfig.process_name_substring
                    (NetworkThrottler.config example_throttler))
                 (named_prefix (process_iter game_world)) = [4242%Z])
    by (vm_compute; reflexivity).
  destruct (startup_opens_the_filter_of_the_target example_throttler game_world
              4242%Z [] Hm) as (_ & Hports & _ & tried & Ho & H).
  destruct (H 7%nat eq_refl) as [Hv Ht]. subst tried.
  split; [exact Hv|]. split; [rewrite Hports; reflexivity|].
  rewrite Ho. vm_compute. reflexivity.
Defined.

(** ** Admission *)

(** X26. [can_send] never admits a packet larger than the current limit: on a
    limiter built with a rate that is not negative and taken through any
    sequence of operations, [update_rate_limit] among them, [can_send s]
    answers [True] only if [s] is at most [max_bytes_per_second]. *)
Theorem can_send_stays_within_limit
  (cap wsize : Q) (ops : list AnyOp) (w w' : World) (s : Z)
  (Hcap : 0 <= cap) (Hops : Forall sane_op ops) :
  let r := BandwidthLimiter.__init__ cap wsize tt w in
  let self := obj (run_anys ops (val r) (world r)) in
  val (BandwidthLimiter.can_send s self w') = true ->
  inject_Z s <= BandwidthLimiter.max_bytes_per_second self.
Proof.
  cbv zeta. intros Hsend.
  assert (Hb : bounded (obj (run_anys ops
                               (val (BandwidthLimiter.__init__ cap wsize tt w))
                               (world (BandwidthLimiter.__init__ cap wsize tt w))))).
  { apply (run_anys_bounded ops Hops).
    unfold bounded, BandwidthLimiter.__init__. run. repeat split; auto; try lra; lia. }
  revert Hsend Hb.
  generalize (obj (run_anys ops (val (BandwidthLimiter.__init__ cap wsize tt w))
                     (world (BandwidthLimiter.__init__ cap wsize tt w)))).
  intros self Hsend (H0 & Ht & Hbk & Hm & _).
  rewrite can_send_val in Hsend. apply Qle_bool_iff in Hsend.
  assert (Hok : limiter_ok self) by (split; [exact Ht | rewrite Hbk; reflexivity]).
  destruct (refill_ok self w' Hok) as [Ht' _].
  destruct (refill_frame self w') as (_ & Hbk' & _).
  cbv zeta in Hbk'. rewrite Hbk' in Ht'. rewrite <- Hbk. lra.
Qed.

Lemma can_send_stays_within_limit_witness :
  let r := BandwidthLimiter.__init__ 1000 1 tt race_world in
  let self := obj (run_anys [Update 400; Plain (OpThrottle 100)] (val r) (world r)) in
  inject_Z 300 <= BandwidthLimiter.max_bytes_per_second self.
Proof.
  cbv zeta.
  assert (Hcap : 0 <= 1000) by (vm_compute; discriminate).
  assert (Hops : Forall sane_op [Update 400; Plain (OpThrottle 100)]).
  { repeat constructor; cbn; try lia. vm_compute; discriminate. }
  apply (can_send_stays_within_limit 1000 1 [Update 400; Plain (OpThrottle 100)]
           race_world race_world 300 Hcap Hops).
  vm_compute. reflexivity.
Defined.
